(** * Fusion MCP bridge: a shallow embedding of the request router

    The development follows the layout of the add-in:
    - [Py]        the Python values that travel through the bridge (parsed
                  JSON) and the interface of the interpreter built-ins the
                  code calls ([str], [int], [str.strip], [json.loads], ...);
    - [Errors]    core/errors.py;
    - [Handlers]  handlers/base.py;
    - [Router]    core/router.py;
    - [Fusion]    the part of the host object model the services read, and
                  services/fusion_context.py;
    - [Services]  services/validators.py and services/entity_resolver.py;
    - [Actions]   handlers/parameters.py and handlers/sketches.py
                  (create_parameter, create_sketch);
    - [Bridge]    FusionMCPBridge.py (the HTTP request handler);
    - [Registrations] the [register] calls of core/router.py;
    - [MCP]       the tool table of mcp-server/fusion_mcp_server.py;
    - [Reference] a small interpreter and host to run the model on examples;
    - [Validators] the remaining validators of services/validators.py;
    - [Resolver]  resolve_sketch, resolve_face_ref and resolve_edge_ref of
                  services/entity_resolver.py;
    - [ParameterUpdate] update_parameter of handlers/parameters.py;
    - [ArgumentChecks] the validate methods of combine_bodies
                  (handlers/features.py) and set_is_construction
                  (handlers/sketches.py);
    - [MCPClient] the client side of mcp-server/fusion_mcp_server.py
                  (execute_action, the responses, call_tool);
    - [ReferenceHosts] a host for the parameters of the reference document.

    The properties follow, one module per source file ([HandlersSpec],
    [RouterSpec], [BridgeSpec], [ServicesSpec], [ActionsSpec],
    [TablesSpec]), then [ValidatorsSpec], [ResolverSpec],
    [ParameterUpdateSpec], [BridgeMoreSpec], [MCPClientSpec],
    [RegistrySpec] and [ArgumentChecksSpec].

    Stateful code is written in a state-and-exception monad over the host
    application's state: a Python exception does not roll the host back, so
    the state is threaded through failures as well. *)

From Stdlib Require Import ZArith Ascii String List Bool Lia.
From Stdlib Require Import Floats.SpecFloat.
From stdpp Require Import base option gmap strings list.

Set Warnings "-register-all".
Local Open Scope string_scope.
Local Open Scope Z_scope.

(* ===================================================================== *)
(** ** Python values and interpreter built-ins                            *)
(* ===================================================================== *)

Module Py.

(** What [json.loads] produces.  Python's parser accepts the literals
    [Infinity], [-Infinity] and [NaN] and turns an out-of-range numeral
    such as [1e999] into an infinite float, so floats are binary floats
    with their special values and not rationals. *)
Inductive json : Type :=
  | JNull
  | JBool (b : bool)
  | JInt (z : Z)
  | JFloat (f : spec_float)
  | JStr (s : string)
  | JList (l : list json)
  | JDict (d : gmap string json).

(** Truth value of an object ([if x:], [not x]). *)
Definition truthy (v : json) : bool :=
  match v with
  | JNull => false
  | JBool b => b
  | JInt z => negb (z =? 0)
  | JFloat (S754_zero _) => false
  | JFloat _ => true
  | JStr s => negb (bool_decide (s = ""))
  | JList l => negb (bool_decide (l = []))
  | JDict d => negb (bool_decide (d = ∅))
  end.

Definition isinstance_str (v : json) : bool :=
  match v with JStr _ => true | _ => false end.

Definition is_None (v : json) : bool :=
  match v with JNull => true | _ => false end.

(** [v == s] for a [str] object [s]: only an equal string is equal. *)
Definition eq_str (v : json) (s : string) : bool :=
  match v with JStr s' => bool_decide (s' = s) | _ => false end.

(** [d.get(k)] on a dict: [None] when the key is absent. *)
Definition dict_get (d : gmap string json) (k : string) : json :=
  default JNull (d !! k).

(** [d.get(k, dflt)]. *)
Definition dict_get_default (d : gmap string json) (k : string) (dflt : json) : json :=
  default dflt (d !! k).

(** [type(v)] as printed by an f-string. *)
Definition type_repr (v : json) : string :=
  match v with
  | JNull => "<class 'NoneType'>"
  | JBool _ => "<class 'bool'>"
  | JInt _ => "<class 'int'>"
  | JFloat _ => "<class 'float'>"
  | JStr _ => "<class 'str'>"
  | JList _ => "<class 'list'>"
  | JDict _ => "<class 'dict'>"
  end.

Definition type_name (v : json) : string :=
  match v with
  | JNull => "NoneType"
  | JBool _ => "bool"
  | JInt _ => "int"
  | JFloat _ => "float"
  | JStr _ => "str"
  | JList _ => "list"
  | JDict _ => "dict"
  end.

(** The interpreter built-ins and standard-library calls the bridge
    relies on.  They are not code of the add-in; every statement below
    holds for any implementation of this interface. *)
Class Runtime : Type := {
  (** [str(v)] for a value that is not a [str] *)
  repr : json -> string;
  (** [int(s)] on a [str]; [None] stands for [ValueError] *)
  int_of_str : string -> option Z;
  (** [s.strip()] *)
  strip : string -> string;
  (** [s.upper()] *)
  upper : string -> string;
  (** [urlparse(target).path]; [inl msg] stands for [ValueError(msg)] *)
  urlparse_path : string -> string + string;
  (** [bytes.decode("utf-8")]; [inl msg] stands for [UnicodeDecodeError] *)
  decode_utf8 : string -> string + string;
  (** [json.loads]; [inl msg] stands for [json.JSONDecodeError(msg)] *)
  json_loads : string -> string + json
}.

(** [str(v)], also the conversion an f-string applies. *)
Definition str `{Runtime} (v : json) : string :=
  match v with JStr s => s | _ => repr v end.

(** Outcome of the built-in [int(v)]. *)
Inductive int_result : Type :=
  | IntOk (z : Z)
  | IntTypeError
  | IntValueError
  | IntOverflowError.

(** [int(f)] on a finite float truncates toward zero; a finite binary
    float is [(-1)^s * m * 2^e]. *)
Definition trunc_finite (s : bool) (m : positive) (e : Z) : Z :=
  let mag := if 0 <=? e then Z.shiftl (Z.pos m) e else Z.shiftr (Z.pos m) (- e) in
  if s then - mag else mag.

Definition int `{Runtime} (v : json) : int_result :=
  match v with
  | JNull => IntTypeError
  | JBool b => IntOk (if b then 1 else 0)
  | JInt z => IntOk z
  | JFloat S754_nan => IntValueError
  | JFloat (S754_infinity _) => IntOverflowError
  | JFloat (S754_zero _) => IntOk 0
  | JFloat (S754_finite s m e) => IntOk (trunc_finite s m e)
  | JStr s => match int_of_str s with Some z => IntOk z | None => IntValueError end
  | JList _ | JDict _ => IntTypeError
  end.

(** [", ".join(l)] *)
Definition join (sep : string) (l : list string) : string :=
  String.concat sep l.

End Py.

(* ===================================================================== *)
(** ** core/errors.py                                                     *)
(* ===================================================================== *)

Module Errors.
Import Py.

(** The exceptions that can reach the bridge: the three subclasses of
    [BridgeError], and every other subclass of [Exception] (a
    [TypeError] or [KeyError] of the interpreter, a [RuntimeError] of
    the host API), kept with its class name and its [str]. *)
Inductive exn : Type :=
  | ValidationError (message : string) (field : option string)
  | FusionAPIError (message : string) (operation : option string)
  | ActionNotSupportedError (action : string)
  | PyException (cls : string) (msg : string).

Definition is_ValidationError (e : exn) : bool :=
  match e with ValidationError _ _ => true | _ => false end.

(** [e.code] of a [BridgeError]; the other exceptions have no such
    attribute. *)
Definition code (e : exn) : option string :=
  match e with
  | ValidationError _ _ => Some "E_BAD_ARGS"
  | FusionAPIError _ _ => Some "E_RUNTIME"
  | ActionNotSupportedError _ => Some "E_ACTION_UNSUPPORTED"
  | PyException _ _ => None
  end.

(** [e.message] *)
Definition message (e : exn) : option string :=
  match e with
  | ValidationError m _ => Some m
  | FusionAPIError m _ => Some m
  | ActionNotSupportedError a => Some ("Unknown action: " +:+ a)
  | PyException _ _ => None
  end.

Definition details_of (key : string) (o : option string) : gmap string json :=
  match o with
  | Some v => if bool_decide (v = "") then ∅ else {[ key := JStr v ]}
  | None => ∅
  end.

(** [e.details] *)
Definition details (e : exn) : gmap string json :=
  match e with
  | ValidationError _ f => details_of "field" f
  | FusionAPIError _ o => details_of "operation" o
  | ActionNotSupportedError _ => ∅
  | PyException _ _ => ∅
  end.

(** [str(e)]: [BridgeError.__init__] passes ["{code}: {message}"] to
    [Exception]. *)
Definition str_exn (e : exn) : string :=
  match code e, message e with
  | Some c, Some m => c +:+ ": " +:+ m
  | _, _ => match e with PyException _ m => m | _ => "" end
  end.

(** The effect of a method call on the host state [W]: a result or an
    exception, and the state the host is left in. *)
Definition M (W A : Type) : Type := W -> (exn + A) * W.

Definition ret {W A} (a : A) : M W A := fun w => (inr a, w).
Definition raise {W A} (e : exn) : M W A := fun w => (inl e, w).
Definition bind {W A B} (m : M W A) (k : A -> M W B) : M W B :=
  fun w => match m w with
           | (inr a, w') => k a w'
           | (inl e, w') => (inl e, w')
           end.

(** [try: m  except <classes>: h] *)
Definition try_except {W A} (m : M W A) (h : exn -> M W A) : M W A :=
  fun w => match m w with
           | (inr a, w') => (inr a, w')
           | (inl e, w') => h e w'
           end.

(** A computation that does not involve the host (a validator, a lookup
    in the arguments). *)
Definition lift {W A} (r : exn + A) : M W A := fun w => (r, w).

(** A computation that only reads the host. *)
Definition read_only {W A} (m : M W A) : Prop := forall w, (m w).2 = w.

(** A computation that never raises a [ValidationError]. *)
Definition no_validation_error {W A} (m : M W A) : Prop :=
  forall w e w', m w = (inl e, w') -> is_ValidationError e = false.

(** A pure result that is a value or a [ValidationError]. *)
Definition validation_only {A} (r : exn + A) : Prop :=
  match r with inl e => is_ValidationError e = true | inr _ => True end.

End Errors.

Declare Scope py_scope.
Delimit Scope py_scope with py.
Notation "x <- m ;; k" := (Errors.bind m (fun x => k))
  (at level 100, m at next level, right associativity) : py_scope.
Notation "m ;;; k" := (Errors.bind m (fun _ => k))
  (at level 100, k at level 200, right associativity) : py_scope.

(* ===================================================================== *)
(** ** handlers/base.py                                                   *)
(* ===================================================================== *)

Module Handlers.
Import Py Errors.
Local Open Scope py_scope.

Section BaseHandler.
Context {W : Type}.

(** A concrete handler class supplies the two abstract methods. *)
Record BaseHandler : Type := {
  validate : json -> M W json;
  execute : json -> M W json
}.

(** [BaseHandler.handle] *)
Definition handle (self : BaseHandler) (args : json) : M W json :=
  try_except
    (validated_args <- validate self args ;;
     execute self validated_args)
    (fun e =>
       if is_ValidationError e then raise e
       else raise (FusionAPIError ("Operation failed: " +:+ str_exn e) None)).

(** [validate], or [execute] on the validated arguments, raises [e] and
    leaves the host in [w']. *)
Definition raised_by (self : BaseHandler) (args : json) (w : W) (e : exn) (w' : W) : Prop :=
  validate self args w = (inl e, w') \/
  exists v w1, validate self args w = (inr v, w1) /\ execute self v w1 = (inl e, w').

(** What the two [except] clauses of [handle] make of an exception. *)
Definition translate (e : exn) : exn :=
  if is_ValidationError e then e
  else FusionAPIError ("Operation failed: " +:+ str_exn e) None.

End BaseHandler.
Arguments BaseHandler W : clear implicits.

End Handlers.

(* ===================================================================== *)
(** ** core/router.py                                                     *)
(* ===================================================================== *)

Module Router.
Import Py Errors Handlers.
Local Open Scope py_scope.

Section HandlerRegistry.
Context `{Runtime} {W : Type}.

(** [HandlerRegistry.register]; the registry is its [_handlers] dict, a
    map from action names to handler instances. *)
Definition register (action : string) (h : BaseHandler W)
    (self : gmap string (BaseHandler W)) : gmap string (BaseHandler W) :=
  <[ action := h ]> self.

(** [HandlerRegistry.get_handler].  The action comes out of the request
    body, so it is any truthy JSON value: a list or a dict cannot be
    hashed, and any other value that is not a string is never a key. *)
Definition get_handler (self : gmap string (BaseHandler W)) (action : json)
    : M W (BaseHandler W) :=
  match action with
  | JStr a =>
      match self !! a with
      | Some h => ret h
      | None => raise (ActionNotSupportedError a)
      end
  | JList _ | JDict _ =>
      raise (PyException "TypeError" ("unhashable type: '" +:+ type_name action +:+ "'"))
  | _ => raise (ActionNotSupportedError (str action))
  end.

(** [HandlerRegistry.handle_action] *)
Definition handle_action (self : gmap string (BaseHandler W))
    (action : json) (args : json) : M W json :=
  handler <- get_handler self action ;;
  handle handler args.

End HandlerRegistry.

End Router.

(* ===================================================================== *)
(** ** The host object model and services/fusion_context.py               *)
(* ===================================================================== *)

Module Fusion.
Import Py Errors.
Local Open Scope py_scope.

(** The attributes of the host's objects that the add-in reads. *)
Record UserParameter : Type := {
  param_name : string;
  param_expression : string;
  param_unit : string;
  param_comment : string
}.

Record BRepBody : Type := {
  body_name : string;
  entityToken : string
}.

Record Sketch : Type := {
  sketch_name : string;
  sketch_plane : string
}.

Record Component : Type := {
  comp_name : string;
  bRepBodies : list BRepBody;
  sketches : list Sketch
}.

Record Design : Type := {
  userParameters : list UserParameter;
  rootComponent : Component
}.

(** The host application, seen from the add-in.  Reading a property is a
    function of the host state; a method that changes the document
    returns the new state, and may raise (the [inl] message) in whatever
    state it leaves the document in.  None of this is code of the add-in:
    the statements hold for every host. *)
Class Host (W : Type) : Type := {
  (** [app.activeProduct] when it is a design with a [rootComponent] *)
  activeProduct : W -> option Design;
  (** [design.userParameters.add(name, ValueInput.createByString(expr), unit, comment)] *)
  userParameters_add : json -> json -> json -> json -> W -> (string + UserParameter) * W;
  (** [root_comp.sketches.add(plane)]: a handle on the new sketch *)
  sketches_add : string -> W -> (string + nat) * W;
  (** [sketch.name = value] *)
  sketch_set_name : nat -> json -> W -> (string + unit) * W;
  (** [sketch.name] *)
  sketch_get_name : nat -> W -> string + string
}.

(** A call into the host API: a failure is a [RuntimeError]. *)
Definition host_call {W A} (f : W -> (string + A) * W) : M W A :=
  fun w => match f w with
           | (inr a, w') => (inr a, w')
           | (inl msg, w') => (inl (PyException "RuntimeError" msg), w')
           end.

Section FusionContext.
Context {W : Type} `{Host W}.

(** [FusionContext.design] *)
Definition design : M W Design :=
  fun w => match activeProduct w with
           | Some d => (inr d, w)
           | None => (inl (FusionAPIError "No active design document" None), w)
           end.

(** [FusionContext.root_component] *)
Definition root_component : M W Component :=
  d <- design ;; ret (rootComponent d).

End FusionContext.

End Fusion.

(* ===================================================================== *)
(** ** services/validators.py and services/entity_resolver.py             *)
(* ===================================================================== *)

Module Services.
Import Py Errors Fusion.
Local Open Scope py_scope.

Definition ALLOWED_UNITS : list string := [""; "mm"; "cm"; "m"; "in"; "ft"; "deg"].
Definition ALLOWED_PLANES : list string := ["XY"; "YZ"; "XZ"].

Definition str_in (s : string) (l : list string) : bool :=
  existsb (String.eqb s) l.

Fixpoint is_substring (p s : string) : bool :=
  String.prefix p s ||
  match s with
  | EmptyString => false
  | String _ s' => is_substring p s'
  end.

(** [key in container] for a [str] key. *)
Definition contains (container : json) (key : string) : exn + bool :=
  match container with
  | JDict d => inr (bool_decide (is_Some (d !! key)))
  | JList l => inr (existsb (fun v => eq_str v key) l)
  | JStr s => inr (is_substring key s)
  | _ => inl (PyException "TypeError"
                ("argument of type '" +:+ type_name container +:+ "' is not iterable"))
  end.

(** [container[key]] for a [str] key. *)
Definition getitem (container : json) (key : string) : exn + json :=
  match container with
  | JDict d =>
      match d !! key with
      | Some v => inr v
      | None => inl (PyException "KeyError" ("'" +:+ key +:+ "'"))
      end
  | JList _ => inl (PyException "TypeError" "list indices must be integers or slices, not str")
  | JStr _ => inl (PyException "TypeError" "string indices must be integers, not 'str'")
  | _ => inl (PyException "TypeError"
                ("'" +:+ type_name container +:+ "' object is not subscriptable"))
  end.

(** [container.get(key, dflt)]: only a dict has the method. *)
Definition get_method (container : json) (key : string) (dflt : json) : exn + json :=
  match container with
  | JDict d => inr (dict_get_default d key dflt)
  | _ => inl (PyException "AttributeError"
                ("'" +:+ type_name container +:+ "' object has no attribute 'get'"))
  end.

Section ValidationService.
Context `{Runtime}.

(** [[f for f in required if f not in args]] *)
Fixpoint missing_fields (args : json) (required : list string) : exn + list string :=
  match required with
  | [] => inr []
  | f :: rest =>
      match contains args f with
      | inl e => inl e
      | inr present =>
          match missing_fields args rest with
          | inl e => inl e
          | inr missing => inr (if present then missing else f :: missing)
          end
      end
  end.

(** [ValidationService.validate_required_fields] *)
Definition validate_required_fields (args : json) (required : list string) : exn + unit :=
  match missing_fields args required with
  | inl e => inl e
  | inr [] => inr tt
  | inr [f] => inl (ValidationError ("Missing required field: " +:+ f) None)
  | inr missing => inl (ValidationError ("Missing required fields: " +:+ join ", " missing) None)
  end.

(** [ValidationService.validate_unit] *)
Definition validate_unit (unit_value : json) : exn + unit :=
  match unit_value with
  | JStr u =>
      if str_in u ALLOWED_UNITS then inr tt
      else inl (ValidationError
                  ("Invalid unit '" +:+ u +:+ "'. Allowed units: " +:+
                   join ", " (map (fun a => "'" +:+ a +:+ "'") ALLOWED_UNITS)) None)
  | _ => inl (ValidationError ("Invalid unit type: " +:+ type_repr unit_value) None)
  end.

(** [ValidationService.validate_plane]: [plane.upper()] is called with
    no type test. *)
Definition validate_plane (plane : json) : exn + string :=
  match plane with
  | JStr p =>
      let plane_upper := upper p in
      if str_in plane_upper ALLOWED_PLANES then inr plane_upper
      else inl (ValidationError
                  ("Invalid plane '" +:+ p +:+ "'. Allowed planes: " +:+
                   join ", " ALLOWED_PLANES) None)
  | _ => inl (PyException "AttributeError"
                ("'" +:+ type_name plane +:+ "' object has no attribute 'upper'"))
  end.

(** [ValidationService.validate_non_negative_int] *)
Definition validate_non_negative_int (value : json) (field_name : string) : exn + Z :=
  match int value with
  | IntOk num =>
      if num <? 0
      then inl (ValidationError (field_name +:+ " must be a non-negative integer") None)
      else inr num
  | IntTypeError | IntValueError =>
      inl (ValidationError (field_name +:+ " must be a non-negative integer") None)
  | IntOverflowError =>
      inl (PyException "OverflowError" "cannot convert float infinity to integer")
  end.

(** [ValidationService.validate_non_empty_string] *)
Definition validate_non_empty_string (value : json) (field_name : string) : exn + string :=
  match value with
  | JStr s =>
      if bool_decide (strip s = "")
      then inl (ValidationError (field_name +:+ " must be a non-empty string") None)
      else inr (strip s)
  | _ => inl (ValidationError (field_name +:+ " must be a non-empty string") None)
  end.

(** [ValidationService.check_parameter_name_collision]: the loop over
    [design.userParameters] ([if design.userParameters:] guards a
    collection that is absent or empty, where the loop does nothing). *)
Fixpoint check_parameter_names (name : string) (params : list UserParameter) : exn + unit :=
  match params with
  | [] => inr tt
  | param :: rest =>
      if String.eqb (param_name param) name
      then inl (ValidationError ("Parameter '" +:+ name +:+ "' already exists") None)
      else check_parameter_names name rest
  end.

Definition check_parameter_name_collision (name : string) (design : Design) : exn + unit :=
  check_parameter_names name (userParameters design).

(** [ValidationService.check_sketch_name_collision] *)
Fixpoint check_sketch_names (name : string) (sks : list Sketch) : exn + unit :=
  match sks with
  | [] => inr tt
  | sketch :: rest =>
      if String.eqb (sketch_name sketch) name
      then inl (ValidationError ("Sketch '" +:+ name +:+ "' already exists") None)
      else check_sketch_names name rest
  end.

Definition check_sketch_name_collision (name : string) (root_comp : Component) : exn + unit :=
  check_sketch_names name (sketches root_comp).

End ValidationService.

Section EntityResolver.
Context `{Runtime} {W : Type} `{Host W}.

(** The [for body in root_comp.bRepBodies] loop of [resolve_body_ref]:
    the first body whose name is equal to [body_name]. *)
Fixpoint search_bodies (body_name : json) (bodies : list BRepBody) : option BRepBody :=
  match bodies with
  | [] => None
  | body :: rest =>
      if eq_str body_name (Fusion.body_name body) then Some body
      else search_bodies body_name rest
  end.

(** [EntityResolver.resolve_body_ref].  The resolver keeps no table of
    bodies: its only field is the context, and every call reads the
    root component again. *)
Definition resolve_body_ref (ref : json) : M W BRepBody :=
  match ref with
  | JDict d =>
      let comp_name := dict_get d "component" in
      let body_name := dict_get d "body" in
      if negb (truthy comp_name) || negb (truthy body_name)
      then raise (ValidationError "bodyRef requires 'component' and 'body'" None)
      else
        root_comp <- root_component ;;
        if negb (eq_str comp_name (Fusion.comp_name root_comp))
        then raise (ValidationError
                      "Only bodies in the root component are supported in v0" None)
        else
          match search_bodies body_name (bRepBodies root_comp) with
          | Some body => ret body
          | None =>
              raise (ValidationError
                       ("Body '" +:+ str body_name +:+ "' not found in component '" +:+
                        str comp_name +:+ "'") None)
          end
  | _ => raise (ValidationError "bodyRef must be an object" None)
  end.

(** [b] is the first body of [bodies] whose name is equal to [v]. *)
Definition first_match (v : json) (bodies : list BRepBody) (b : BRepBody) : Prop :=
  exists i : nat,
    bodies !! i = Some b /\
    eq_str v (Fusion.body_name b) = true /\
    forall (j : nat) b', (j < i)%nat -> bodies !! j = Some b' ->
                         eq_str v (Fusion.body_name b') = false.

(** The references [resolve_body_ref] refuses: not a dict; a dict whose
    ["component"] or ["body"] is missing or falsy; a component other
    than the root; a body name that no body of the root has. *)
Definition unresolvable (root : Component) (ref : json) : Prop :=
  match ref with
  | JDict d =>
      truthy (dict_get d "component") = false \/
      truthy (dict_get d "body") = false \/
      eq_str (dict_get d "component") (Fusion.comp_name root) = false \/
      (forall b, b ∈ bRepBodies root ->
                 eq_str (dict_get d "body") (Fusion.body_name b) = false)
  | _ => True
  end.

End EntityResolver.

End Services.

(* ===================================================================== *)
(** ** handlers/parameters.py and handlers/sketches.py                    *)
(* ===================================================================== *)

Module Actions.
Import Py Errors Handlers Fusion Services.
Local Open Scope py_scope.

Section Handlers.
Context `{Runtime} {W : Type} `{Host W}.

(** [CreateParameterHandler.validate] *)
Definition create_parameter_validate (args : json) : M W json :=
  lift (validate_required_fields args ["name"; "expression"; "unit"]) ;;;
  name_value <- lift (getitem args "name") ;;
  name <- lift (validate_non_empty_string name_value "name") ;;
  expression_value <- lift (getitem args "expression") ;;
  let expression := str expression_value in
  unit_value <- lift (getitem args "unit") ;;
  comment <- lift (get_method args "comment" (JStr "")) ;;
  lift (validate_unit unit_value) ;;;
  (if negb (is_None comment) && negb (isinstance_str comment)
   then raise (ValidationError "comment must be a string when provided" None)
   else ret tt) ;;;
  d <- design ;;
  lift (check_parameter_name_collision name d) ;;;
  ret (JDict {[ "name" := JStr name;
                "expression" := JStr expression;
                "unit" := unit_value;
                "comment" := if truthy comment then comment else JStr "" ]}).

(** [CreateParameterHandler.execute] *)
Definition create_parameter_execute (args : json) : M W json :=
  _ <- design ;;
  a_name <- lift (getitem args "name") ;;
  a_expression <- lift (getitem args "expression") ;;
  a_unit <- lift (getitem args "unit") ;;
  a_comment <- lift (getitem args "comment") ;;
  param <- host_call (userParameters_add a_name a_expression a_unit a_comment) ;;
  let result : gmap string json :=
    {[ "name" := JStr (param_name param);
       "expression" := JStr (param_expression param);
       "unit" := JStr (param_unit param) ]} in
  ret (JDict (if bool_decide (param_comment param = "") then result
              else <[ "comment" := JStr (param_comment param) ]> result)).

Definition CreateParameterHandler : BaseHandler W :=
  {| validate := create_parameter_validate; execute := create_parameter_execute |}.

(** [CreateSketchHandler.validate] *)
Definition create_sketch_validate (args : json) : M W json :=
  lift (validate_required_fields args ["plane"; "name"]) ;;;
  plane_value <- lift (getitem args "plane") ;;
  plane <- lift (validate_plane plane_value) ;;
  name_value <- lift (getitem args "name") ;;
  name <- lift (validate_non_empty_string name_value "name") ;;
  root_comp <- root_component ;;
  lift (check_sketch_name_collision name root_comp) ;;;
  ret (JDict {[ "plane" := JStr plane; "name" := JStr name ]}).

(** [CreateSketchHandler.execute]: the sketch is added first and named
    afterwards, in two host calls. *)
Definition create_sketch_execute (args : json) : M W json :=
  _ <- root_component ;;
  plane <- lift (getitem args "plane") ;;
  let construction_plane :=
    if eq_str plane "XY" then Some "XY"
    else if eq_str plane "YZ" then Some "YZ"
    else if eq_str plane "XZ" then Some "XZ"
    else None in
  match construction_plane with
  | None =>
      raise (PyException "UnboundLocalError"
               "cannot access local variable 'construction_plane' where it is not associated with a value")
  | Some cp =>
      sketch <- host_call (sketches_add cp) ;;
      a_name <- lift (getitem args "name") ;;
      host_call (sketch_set_name sketch a_name) ;;;
      new_name <- host_call (fun w => (sketch_get_name sketch w, w)) ;;
      ret (JDict {[ "name" := JStr new_name; "plane" := plane ]})
  end.

Definition CreateSketchHandler : BaseHandler W :=
  {| validate := create_sketch_validate; execute := create_sketch_execute |}.

End Handlers.

End Actions.

(* ===================================================================== *)
(** ** FusionMCPBridge.py: the HTTP request handler                       *)
(* ===================================================================== *)

Module Bridge.
Import Py Errors Handlers Router.
Local Open Scope py_scope.

(** The values [_cfg] and [_is_dev_reload_enabled] read at request time.
    [BRIDGE_AUTH_TOKEN] is whatever object config.py binds; [JNull] is
    Python's [None]. *)
Record Config : Type := {
  BRIDGE_AUTH_TOKEN : json;
  BRIDGE_VERSION : string;
  dev_reload_enabled : bool
}.

(** An incoming request: the request target, the two headers the handler
    reads, and the bytes of the body. *)
Record Request : Type := {
  target : string;
  x_bridge_token : option string;
  content_length : option string;
  body : string
}.

Record Response : Type := {
  status_code : Z;
  payload : json
}.

(** What a request can change: the registry bound to the handler class,
    the state of the host, and the modules that are loaded.  [do_POST]
    catches the registry's errors by the classes of the [core.errors] it
    imports at every request; [errors_current] says that these are the
    classes the handlers of [registry] raise.  They are as long as the
    registry was built from the modules now loaded: a [/dev/reload] purges
    the modules, so the registry that is kept when the rebuild fails
    raises classes that the next import of [core.errors] no longer
    returns. *)
Record Server (W : Type) : Type := {
  registry : gmap string (BaseHandler W);
  world : W;
  errors_current : bool
}.
Arguments registry {W} _.
Arguments world {W} _.
Arguments errors_current {W} _.

(** [if request_id: d["id"] = request_id] *)
Definition with_id (request_id : json) (d : gmap string json) : gmap string json :=
  if truthy request_id then <[ "id" := request_id ]> d else d.

(** [BridgeRequestHandler._send_json_response] *)
Definition _send_json_response (status : Z) (data : json) : Response :=
  {| status_code := status; payload := data |}.

(** [BridgeRequestHandler._send_error]: the status passed in is not used,
    the response is sent with 200. *)
Definition _send_error (status : Z) (code message : string)
    (details : gmap string json) (request_id : json) : Response :=
  let error : gmap string json :=
    {[ "code" := JStr code; "message" := JStr message ]} in
  let error :=
    if bool_decide (details = ∅) then error
    else <[ "details" := JDict details ]> error in
  let body : gmap string json :=
    {[ "status" := JStr "error"; "error" := JDict error ]} in
  _send_json_response 200 (JDict (with_id request_id body)).

(** [token != auth_token] *)
Definition token_differs (token : option string) (auth_token : json) : bool :=
  match token, auth_token with
  | Some t, JStr a => negb (bool_decide (t = a))
  | _, _ => true
  end.

(** [BridgeRequestHandler._check_auth]: [None] when the method returns
    [True], the response it has sent when it returns [False]. *)
Definition _check_auth (cfg : Config) (request : Request) : option Response :=
  let auth_token := BRIDGE_AUTH_TOKEN cfg in
  if is_None auth_token then None
  else if token_differs (x_bridge_token request) auth_token
       then Some (_send_error 200 "E_UNAUTHORIZED"
                    "Invalid or missing X-Bridge-Token header" ∅ JNull)
       else None.

(** The configured token and the request's [X-Bridge-Token] header are
    the same string. *)
Definition token_matches (cfg : Config) (request : Request) : Prop :=
  exists t, x_bridge_token request = Some t /\ BRIDGE_AUTH_TOKEN cfg = JStr t.

(** A body [{"status": "ok", "result": result, ...}]. *)
Definition ok_body (b : json) (result : json) : Prop :=
  exists d, b = JDict d /\
            d !! "status" = Some (JStr "ok") /\ d !! "result" = Some result.

(** A body [{"status": "error", "error": {"code": c, "message": m, ...}, ...}]. *)
Definition error_body (b : json) (c m : string) : Prop :=
  exists d e, b = JDict d /\
              d !! "status" = Some (JStr "error") /\
              d !! "error" = Some (JDict e) /\
              e !! "code" = Some (JStr c) /\ e !! "message" = Some (JStr m).

(** The four codes of the error taxonomy. *)
Definition taxonomy_codes : list string :=
  ["E_BAD_ARGS"; "E_RUNTIME"; "E_ACTION_UNSUPPORTED"; "E_UNAUTHORIZED"].

(** The codes the request handler itself adds to them. *)
Definition transport_codes : list string :=
  ["E_NOT_FOUND"; "E_BAD_JSON"; "E_INTERNAL"].

(** Every error code a response carries is among [codes]. *)
Definition codes_within (codes : list string) (r : Response) : Prop :=
  forall c m, error_body (payload r) c m -> c ∈ codes.

Section RequestHandler.
Context `{Runtime} {W : Type}.

(** [get_fusion_state]: it reads the host and catches every exception
    itself, so it is a function of the host state. *)
Variable get_fusion_state : W -> json.

(** [_reload_and_rebuild_registry]: purges and re-imports the modules;
    it may raise. *)
Variable _reload_and_rebuild_registry : M W (gmap string (BaseHandler W)).

(** The code of [do_GET] after the authorization check. *)
Definition do_GET_authorized (cfg : Config) (request : Request) (srv : Server W)
    : Response * Server W :=
  match urlparse_path (target request) with
  | inl msg =>
      (_send_json_response 500
         (JDict {[ "status" := JStr "error";
                   "error" := JDict {[ "code" := JStr "E_INTERNAL";
                                       "message" := JStr msg ]} ]}), srv)
  | inr path =>
      if bool_decide (path = "/health")
      then (_send_json_response 200
              (JDict {[ "status" := JStr "ok";
                        "version" := JStr (BRIDGE_VERSION cfg);
                        "fusion" := get_fusion_state (world srv) ]}), srv)
      else (_send_json_response 404
              (JDict {[ "status" := JStr "error";
                        "error" := JDict {[ "code" := JStr "E_NOT_FOUND";
                                            "message" := JStr "Endpoint not found" ]} ]}), srv)
  end.

(** [BridgeRequestHandler.do_GET] *)
Definition do_GET (cfg : Config) (request : Request) (srv : Server W)
    : Response * Server W :=
  match _check_auth cfg request with
  | Some unauthorized => (unauthorized, srv)
  | None => do_GET_authorized cfg request srv
  end.

(** The outer [except Exception] of [do_POST]: the request id is read
    from [req] when that local is bound to something with a [get]. *)
Definition except_Exception (e : string) (req : option json) : Response :=
  let request_id :=
    match req with
    | Some (JDict d) => dict_get d "id"
    | _ => JNull
    end in
  _send_error 200 "E_RUNTIME" e ∅ request_id.

(** The [/dev/reload] branch of [do_POST]. *)
Definition dev_reload (cfg : Config) (srv : Server W) : Response * Server W :=
  if negb (dev_reload_enabled cfg)
  then (_send_error 200 "E_UNAUTHORIZED"
          "Dev reload disabled (set BRIDGE_DEV_RELOAD=1 or config.DEV_RELOAD_ENABLED=True)"
          ∅ JNull, srv)
  else
    match _reload_and_rebuild_registry (world srv) with
    | (inr new_registry, w') =>
        (_send_json_response 200
           (JDict {[ "status" := JStr "ok"; "reloaded" := JBool true ]}),
         {| registry := new_registry; world := w'; errors_current := true |})
    | (inl e, w') =>
        (_send_error 200 "E_RUNTIME" (str_exn e) ∅ JNull,
         {| registry := registry srv; world := w'; errors_current := false |})
    end.

(** [do_POST] from [action = req.get("action")] on: [req] is what
    [json.loads] returned.  The three [except] clauses for the bridge
    errors match an error of the registry only when its class is the one
    just imported; otherwise it falls to [except Exception]. *)
Definition execute_request (req : json) (srv : Server W) : Response * Server W :=
  match req with
  | JDict r =>
      let action := dict_get r "action" in
      let args := dict_get_default r "args" (JDict ∅) in
      let request_id := dict_get r "id" in
      if negb (truthy action)
      then (_send_error 200 "E_BAD_ARGS" "Missing 'action' field" ∅ request_id, srv)
      else
        match handle_action (registry srv) action args (world srv) with
        | (inr result, w') =>
            (_send_json_response 200
               (JDict (with_id request_id
                         {[ "status" := JStr "ok"; "result" := result ]})),
             {| registry := registry srv; world := w';
                errors_current := errors_current srv |})
        | (inl e, w') =>
            (if errors_current srv
             then match e with
                  | ActionNotSupportedError _ =>
                      _send_error 200 (default "" (code e)) (default "" (message e))
                        ∅ request_id
                  | ValidationError _ _ | FusionAPIError _ _ =>
                      _send_error 200 (default "" (code e)) (default "" (message e))
                        (details e) request_id
                  | PyException _ _ =>
                      _send_error 200 "E_RUNTIME" (str_exn e) ∅ request_id
                  end
             else _send_error 200 "E_RUNTIME" (str_exn e) ∅ request_id,
             {| registry := registry srv; world := w';
                errors_current := errors_current srv |})
        end
  | _ =>
      (except_Exception
         ("'" +:+ type_name req +:+ "' object has no attribute 'get'") (Some req), srv)
  end.

(** The [/v1/execute] branch of [do_POST]. *)
Definition v1_execute (request : Request) (srv : Server W) : Response * Server W :=
  let header :=
    match content_length request with
    | None => Some 0
    | Some s => int_of_str s
    end in
  match header with
  | None =>
      (except_Exception
         ("invalid literal for int() with base 10: '" +:+
          default "" (content_length request) +:+ "'") None, srv)
  | Some n =>
      if n <=? 0
      then (_send_error 200 "E_BAD_ARGS" "Missing request body" ∅ JNull, srv)
      else
        match decode_utf8 (String.substring 0 (Z.to_nat n) (body request)) with
        | inl msg => (except_Exception msg None, srv)
        | inr text =>
            match json_loads text with
            | inl msg => (_send_error 200 "E_BAD_JSON" ("Invalid JSON: " +:+ msg) ∅ JNull, srv)
            | inr req => execute_request req srv
            end
        end
  end.

(** The code of [do_POST] after the authorization check. *)
Definition do_POST_authorized (cfg : Config) (request : Request) (srv : Server W)
    : Response * Server W :=
  match urlparse_path (target request) with
  | inl msg => (except_Exception msg None, srv)
  | inr path =>
      if bool_decide (path = "/dev/reload") then dev_reload cfg srv
      else if negb (bool_decide (path = "/v1/execute"))
           then (_send_error 200 "E_NOT_FOUND" "Endpoint not found" ∅ JNull, srv)
           else v1_execute request srv
  end.

(** [BridgeRequestHandler.do_POST] *)
Definition do_POST (cfg : Config) (request : Request) (srv : Server W)
    : Response * Server W :=
  match _check_auth cfg request with
  | Some unauthorized => (unauthorized, srv)
  | None => do_POST_authorized cfg request srv
  end.

(** The reply the protocol promises for [/v1/execute]: status 200 and
    a body that is the ["ok"] object around a value the registry
    returned, or an ["error"] object. *)
Definition execute_reply (srv : Server W) (r : Response) : Prop :=
  status_code r = 200 /\
  ((exists result action args,
      ok_body (payload r) result /\
      (handle_action (registry srv) action args (world srv)).1 = inr result) \/
   (exists c m, error_body (payload r) c m)).

End RequestHandler.

End Bridge.

(* ===================================================================== *)
(** ** The action tables: router registrations and MCP tools              *)
(* ===================================================================== *)

Module Registrations.
Import Py Errors Handlers Router.

(** The handler classes [_initialize_handlers] imports. *)
Inductive HandlerClass : Type :=
  | GetDesignInfoHandler | ListOpenDocumentsHandler | GetOpenDocumentInfoHandler
  | OpenDocumentHandler | FocusDocumentHandler | CloseDocumentHandler
  | BackupDocumentHandler | GetDocumentTypeHandler | GetDocumentStructureHandler
  | CreateParameterHandler | UpdateParameterHandler
  | CreateSketchHandler | SketchDrawLineHandler | SketchDrawCircleHandler
  | SketchDrawRectangleHandler | CreateSketchFromFaceHandler | ProjectEdgesHandler
  | SetIsConstructionHandler
  | ExtrudeProfileHandler | RevolveProfileHandler | CombineBodiesHandler | RotateBodyHandler
  | AddConstraintsHandler | AddDimensionDistanceHandler
  | MeasureGeometryHandler
  | TriggerUICommandHandler.

(** The [self.register(...)] calls of [_initialize_handlers], in order. *)
Definition registrations : list (string * HandlerClass) :=
  [ ("get_design_info", GetDesignInfoHandler);
    ("create_parameter", CreateParameterHandler);
    ("update_parameter", UpdateParameterHandler);
    ("create_sketch", CreateSketchHandler);
    ("extrude_profile", ExtrudeProfileHandler);
    ("list_open_documents", ListOpenDocumentsHandler);
    ("get_open_document_info", GetOpenDocumentInfoHandler);
    ("open_document", OpenDocumentHandler);
    ("focus_document", FocusDocumentHandler);
    ("close_document", CloseDocumentHandler);
    ("backup_document", BackupDocumentHandler);
    ("get_document_type", GetDocumentTypeHandler);
    ("get_document_structure", GetDocumentStructureHandler);
    ("sketch_draw_line", SketchDrawLineHandler);
    ("sketch_draw_circle", SketchDrawCircleHandler);
    ("sketch_draw_rectangle", SketchDrawRectangleHandler);
    ("create_sketch_from_face", CreateSketchFromFaceHandler);
    ("project_edges", ProjectEdgesHandler);
    ("set_is_construction", SetIsConstructionHandler);
    ("revolve_profile", RevolveProfileHandler);
    ("combine_bodies", CombineBodiesHandler);
    ("rotate_body", RotateBodyHandler);
    ("add_constraints", AddConstraintsHandler);
    ("add_dimension_distance", AddDimensionDistanceHandler);
    ("measure_geometry", MeasureGeometryHandler);
    ("trigger_ui_command", TriggerUICommandHandler) ].

Section Initialize.
Context {W : Type}.

(** [handler_class(self._context, self._resolver, self._validators)] *)
Variable instantiate : HandlerClass -> BaseHandler W.

(** [HandlerRegistry._initialize_handlers], from the empty [_handlers]
    of [__init__]. *)
Definition _initialize_handlers : gmap string (BaseHandler W) :=
  fold_left (fun self r => register r.1 (instantiate r.2) self) registrations ∅.

End Initialize.

End Registrations.

Module MCP.

(** The [name=] of each [Tool] that [list_tools] returns, in order. *)
Definition list_tools : list string :=
  [ "get_design_info"; "create_parameter"; "create_sketch"; "sketch_draw_line";
    "sketch_draw_circle"; "sketch_draw_rectangle"; "extrude_profile";
    "revolve_profile"; "combine_bodies"; "rotate_body"; "list_open_documents";
    "get_open_document_info"; "open_document"; "focus_document"; "close_document";
    "backup_document"; "get_document_type"; "get_document_structure";
    "measure_geometry"; "update_parameter"; "add_constraints";
    "add_dimension_distance"; "create_sketch_from_face"; "project_edges";
    "set_is_construction"; "trigger_ui_command" ].

(** [_TOOL_HANDLERS]: each key with the action name that the function
    bound to it passes to [bridge.execute_action]. *)
Definition _TOOL_HANDLERS : list (string * string) :=
  [ ("get_design_info", "get_design_info");
    ("create_parameter", "create_parameter");
    ("create_sketch", "create_sketch");
    ("sketch_draw_line", "sketch_draw_line");
    ("sketch_draw_circle", "sketch_draw_circle");
    ("sketch_draw_rectangle", "sketch_draw_rectangle");
    ("extrude_profile", "extrude_profile");
    ("list_open_documents", "list_open_documents");
    ("get_open_document_info", "get_open_document_info");
    ("open_document", "open_document");
    ("focus_document", "focus_document");
    ("close_document", "close_document");
    ("backup_document", "backup_document");
    ("get_document_type", "get_document_type");
    ("get_document_structure", "get_document_structure");
    ("measure_geometry", "measure_geometry");
    ("update_parameter", "update_parameter");
    ("add_constraints", "add_constraints");
    ("add_dimension_distance", "add_dimension_distance");
    ("revolve_profile", "revolve_profile");
    ("combine_bodies", "combine_bodies");
    ("rotate_body", "rotate_body");
    ("create_sketch_from_face", "create_sketch_from_face");
    ("project_edges", "project_edges");
    ("set_is_construction", "set_is_construction");
    ("trigger_ui_command", "trigger_ui_command") ].

(** [_TOOL_HANDLERS.get(tool_name)] in [call_tool]: the action the call
    is forwarded to, if the tool is known. *)
Definition dispatch (tool_name : string) : option string :=
  (list_to_map _TOOL_HANDLERS : gmap string string) !! tool_name.

End MCP.

(* ===================================================================== *)
(** ** A reference instance, for evaluating the model on examples         *)
(* ===================================================================== *)

Module Reference.
Import Py Errors Handlers Fusion.

(** ASCII decimal digits, most significant first. *)
Fixpoint digits (s : string) (acc : Z) : option Z :=
  match s with
  | EmptyString => Some acc
  | String c s' =>
      let n := Z.of_nat (Ascii.nat_of_ascii c) in
      if (48 <=? n) && (n <=? 57) then digits s' (10 * acc + (n - 48)) else None
  end.

Definition int_of_decimal (s : string) : option Z :=
  match s with
  | EmptyString => None
  | String "-"%char (String c r) => option_map Z.opp (digits (String c r) 0)
  | _ => digits s 0
  end.

(** An interpreter for examples.  It agrees with CPython on the inputs
    used below: plain decimal numerals, names without surrounding white
    space, upper-case plane names, request targets that are a plain path,
    ASCII bodies, and the texts [{}] and [x] for [json.loads].  No example
    prints a value other than a string or a boolean. *)
Definition runtime : Runtime := {|
  repr := fun v =>
    match v with
    | JNull => "None"
    | JBool true => "True"
    | JBool false => "False"
    | _ => "<" +:+ type_name v +:+ ">"
    end;
  int_of_str := int_of_decimal;
  strip := fun s => s;
  upper := fun s => s;
  urlparse_path := fun s => inr s;
  decode_utf8 := fun s => inr s;
  json_loads := fun s =>
    if bool_decide (s = "{}") then inr (JDict ∅)
    else inl "Expecting value: line 1 column 1 (char 0)"
|}.

(** A document with one component; the two actions of [Actions] change
    it the way the host does on success. *)
Definition host : Host (option Design) := {|
  activeProduct := fun w => w;
  userParameters_add := fun n e u c w =>
    match w, n, e, u, c with
    | Some d, JStr n, JStr e, JStr u, JStr c =>
        let p := {| param_name := n; param_expression := e;
                    param_unit := u; param_comment := c |} in
        (inr p, Some {| userParameters := userParameters d ++ [p];
                        rootComponent := rootComponent d |})
    | _, _, _, _, _ => (inl "invalid argument", w)
    end;
  sketches_add := fun plane w =>
    match w with
    | Some d =>
        let root := rootComponent d in
        (inr (length (sketches root)),
         Some {| userParameters := userParameters d;
                 rootComponent :=
                   {| comp_name := comp_name root;
                      bRepBodies := bRepBodies root;
                      sketches := sketches root ++
                                  [{| sketch_name := "Sketch"; sketch_plane := plane |}] |} |})
    | None => (inl "no design", w)
    end;
  sketch_set_name := fun i n w =>
    match w, n with
    | Some d, JStr n =>
        let root := rootComponent d in
        (inr tt,
         Some {| userParameters := userParameters d;
                 rootComponent :=
                   {| comp_name := comp_name root;
                      bRepBodies := bRepBodies root;
                      sketches :=
                        alter (fun s => {| sketch_name := n;
                                           sketch_plane := sketch_plane s |})
                              i (sketches root) |} |})
    | _, _ => (inl "invalid argument", w)
    end;
  sketch_get_name := fun i w =>
    match w with
    | Some d =>
        match sketches (rootComponent d) !! i with
        | Some s => inr (sketch_name s)
        | None => inl "invalid sketch"
        end
    | None => inl "no design"
    end
|}.

(** A design with one parameter, one sketch and two bodies of the same
    name. *)
Definition design1 : Design := {|
  userParameters :=
    [{| param_name := "width"; param_expression := "10 mm";
        param_unit := "mm"; param_comment := "" |}];
  rootComponent :=
    {| comp_name := "Root";
       bRepBodies := [ {| body_name := "Base"; entityToken := "b0" |};
                       {| body_name := "Lid"; entityToken := "b1" |};
                       {| body_name := "Lid"; entityToken := "b2" |} ];
       sketches := [ {| sketch_name := "Sketch1"; sketch_plane := "XY" |} ] |}
|}.

(** A handler that echoes its arguments. *)
Definition echo {W} : BaseHandler W :=
  {| validate := fun args => ret args; execute := fun args => ret args |}.

(** A handler whose [execute] fails in the host. *)
Definition failing {W} : BaseHandler W :=
  {| validate := fun args => ret args;
     execute := fun _ => raise (PyException "RuntimeError" "boom") |}.

(** A handler whose [validate] rejects everything. *)
Definition rejecting {W} : BaseHandler W :=
  {| validate := fun _ => raise (ValidationError "name must be a non-empty string" None);
     execute := fun args => ret args |}.

(** A server with one registered action, no token configured, as [run]
    leaves it: the registry was built from the modules that are loaded. *)
Definition server : Bridge.Server (option Design) :=
  {| Bridge.registry := {[ "echo" := echo ]}; Bridge.world := Some design1;
     Bridge.errors_current := true |}.

(** The same server after a [/dev/reload] whose rebuild failed. *)
Definition server_after_failed_reload : Bridge.Server (option Design) :=
  {| Bridge.registry := {[ "echo" := echo ]}; Bridge.world := Some design1;
     Bridge.errors_current := false |}.

Definition config : Bridge.Config :=
  {| Bridge.BRIDGE_AUTH_TOKEN := JNull;
     Bridge.BRIDGE_VERSION := "0.1.0";
     Bridge.dev_reload_enabled := true |}.

(** The same configuration with a token set. *)
Definition config_with_token : Bridge.Config :=
  {| Bridge.BRIDGE_AUTH_TOKEN := JStr "s3cret";
     Bridge.BRIDGE_VERSION := "0.1.0";
     Bridge.dev_reload_enabled := true |}.

Definition fusion_state (w : option Design) : json :=
  JDict {[ "running" := JBool true ]}.

Definition reload : M (option Design) (gmap string (BaseHandler (option Design))) :=
  ret {[ "echo" := echo ]}.

(** A host that refuses every name given to a sketch. *)
Definition refusing_host : Host (option Design) := {|
  activeProduct := activeProduct (Host := host);
  userParameters_add := userParameters_add (Host := host);
  sketches_add := sketches_add (Host := host);
  sketch_set_name := fun _ _ w => (inl "invalid name", w);
  sketch_get_name := sketch_get_name (Host := host)
|}.

(** [POST /v1/execute] with the two-byte body of an empty object. *)
Definition post_execute : Bridge.Request :=
  {| Bridge.target := "/v1/execute";
     Bridge.x_bridge_token := None;
     Bridge.content_length := Some "2";
     Bridge.body := "{}" |}.

(** [POST /v1/status], an endpoint the bridge does not have. *)
Definition post_unknown : Bridge.Request :=
  {| Bridge.target := "/v1/status";
     Bridge.x_bridge_token := None;
     Bridge.content_length := None;
     Bridge.body := "" |}.

End Reference.

(* ===================================================================== *)
(** ** services/validators.py: the remaining validators                   *)
(* ===================================================================== *)

Module Validators.
Import Py Errors Fusion Services.

Definition ALLOWED_OPERATIONS : list string := ["new_body"; "join"; "cut"; "intersect"].
Definition ALLOWED_DIRECTIONS : list string := ["positive"; "negative"; "symmetric"].
Definition ALLOWED_ORIENTATIONS : list string := ["horizontal"; "vertical"; "aligned"].
Definition ALLOWED_CONSTRAINT_TYPES : list string :=
  ["horizontal"; "vertical"; "parallel"; "perpendicular"; "tangent"; "coincident"].

(** [value in allowed] for a list of strings: the members are compared
    with [==], so a value of any type can be looked for. *)
Definition in_list (value : json) (allowed : list string) : bool :=
  existsb (eq_str value) allowed.

(** [ValidationService.validate_operation] *)
Definition validate_operation (operation : json) : exn + unit :=
  if in_list operation ALLOWED_OPERATIONS then inr tt
  else inl (ValidationError
              ("Operation must be one of: " +:+ join ", " ALLOWED_OPERATIONS) None).

(** [ValidationService.validate_direction] *)
Definition validate_direction (direction : json) : exn + unit :=
  if in_list direction ALLOWED_DIRECTIONS then inr tt
  else inl (ValidationError
              ("Direction must be one of: " +:+ join ", " ALLOWED_DIRECTIONS) None).

(** [ValidationService.validate_orientation] *)
Definition validate_orientation (orientation : json) : exn + unit :=
  if in_list orientation ALLOWED_ORIENTATIONS then inr tt
  else inl (ValidationError
              ("Orientation must be one of: " +:+ join ", " ALLOWED_ORIENTATIONS) None).

(** [ValidationService.validate_constraint_type] *)
Definition validate_constraint_type (constraint_type : json) : exn + unit :=
  if in_list constraint_type ALLOWED_CONSTRAINT_TYPES then inr tt
  else inl (ValidationError
              ("Constraint type must be one of: " +:+
               join ", " ALLOWED_CONSTRAINT_TYPES) None).

(** The conversions [float(n)] on an [int] and [float(s)] on a [str], which
    round and parse; [None] stands for [OverflowError], respectively
    [ValueError]. *)
Class FloatRuntime : Type := {
  float_of_int : Z -> option spec_float;
  float_of_str : string -> option spec_float
}.

(** Outcome of the built-in [float(v)]. *)
Inductive float_result : Type :=
  | FloatOk (f : spec_float)
  | FloatTypeError
  | FloatValueError
  | FloatOverflowError.

(** The double 1.0. *)
Definition one : spec_float := S754_finite false 4503599627370496 (-52).

Definition float `{FloatRuntime} (v : json) : float_result :=
  match v with
  | JNull => FloatTypeError
  | JBool b => FloatOk (if b then one else S754_zero false)
  | JInt z => match float_of_int z with Some f => FloatOk f | None => FloatOverflowError end
  | JFloat f => FloatOk f
  | JStr s => match float_of_str s with Some f => FloatOk f | None => FloatValueError end
  | JList _ | JDict _ => FloatTypeError
  end.

(** [num <= 0] on a float. *)
Definition le_zero (num : spec_float) : bool := SFleb num (S754_zero false).

Section Numbers.
Context `{FloatRuntime}.

(** [ValidationService.validate_positive_number] *)
Definition validate_positive_number (value : json) (field_name : string)
    : exn + spec_float :=
  match float value with
  | FloatOk num =>
      if le_zero num
      then inl (ValidationError (field_name +:+ " must be a positive number") None)
      else inr num
  | FloatTypeError | FloatValueError =>
      inl (ValidationError (field_name +:+ " must be a positive number") None)
  | FloatOverflowError =>
      inl (PyException "OverflowError" "int too large to convert to float")
  end.

(** [ValidationService.validate_angle] *)
Definition validate_angle (value : json) (field_name : string) : exn + spec_float :=
  match float value with
  | FloatOk num => inr num
  | FloatTypeError | FloatValueError =>
      inl (ValidationError (field_name +:+ " must be a number") None)
  | FloatOverflowError =>
      inl (PyException "OverflowError" "int too large to convert to float")
  end.

End Numbers.

End Validators.

(* ===================================================================== *)
(** ** services/entity_resolver.py: sketches, faces and edges             *)
(* ===================================================================== *)

Module Resolver.
Import Py Errors Fusion Services.
Local Open Scope py_scope.

Section EntityResolver.
Context `{Runtime} {W : Type} `{Host W}.

(** The faces and the edges of a body, as the host lists them
    ([body.faces], [body.edges]): [count] is the length of the list and
    [item(i)] its element at [i]. *)
Context {Face Edge : Type}.
Variable faces : W -> BRepBody -> list Face.
Variable edges : W -> BRepBody -> list Edge.

(** The loop of [resolve_sketch]. *)
Fixpoint search_sketches (name : json) (sks : list Sketch) : option Sketch :=
  match sks with
  | [] => None
  | sketch :: rest =>
      if eq_str name (sketch_name sketch) then Some sketch
      else search_sketches name rest
  end.

(** [s] is the first sketch of [sks] whose name is equal to [v]. *)
Definition first_sketch (v : json) (sks : list Sketch) (s : Sketch) : Prop :=
  exists i : nat,
    sks !! i = Some s /\
    eq_str v (sketch_name s) = true /\
    forall (j : nat) s', (j < i)%nat -> sks !! j = Some s' ->
                         eq_str v (sketch_name s') = false.

(** [EntityResolver.resolve_sketch] *)
Definition resolve_sketch (name : json) : M W Sketch :=
  root_comp <- root_component ;;
  match search_sketches name (sketches root_comp) with
  | Some sketch => ret sketch
  | None => raise (ValidationError ("Sketch '" +:+ str name +:+ "' not found") None)
  end.

(** The text of [resolve_face_ref] and of [resolve_edge_ref] from the
    lookup of the index on; they differ in the name of the index field
    ([what] is ["face"] or ["edge"]) and in the collection. *)
Definition item_at {A} (what : string) (index : json) (items : list A) : exn + A :=
  match int index with
  | IntOk idx =>
      if (idx <? 0) || (Z.of_nat (length items) <=? idx)
      then inl (ValidationError
                  (what +:+ "Index " +:+ str (JInt idx) +:+ " out of range (0-" +:+
                   str (JInt (Z.of_nat (length items) - 1)) +:+ ")") None)
      else match items !! Z.to_nat idx with
           | Some x => inr x
           | None => inl (PyException "RuntimeError" "invalid index")
           end
  | IntTypeError | IntValueError =>
      inl (ValidationError (what +:+ "Index must be a non-negative integer") None)
  | IntOverflowError =>
      inl (PyException "OverflowError" "cannot convert float infinity to integer")
  end.

(** The reference that [resolve_face_ref] and [resolve_edge_ref] pass on
    to [resolve_body_ref]. *)
Definition body_ref_of (d : gmap string json) : json :=
  JDict {[ "component" := dict_get d "component"; "body" := dict_get d "body" ]}.

(** [EntityResolver.resolve_face_ref] *)
Definition resolve_face_ref (ref : json) : M W Face :=
  match ref with
  | JDict d =>
      let comp_name := dict_get d "component" in
      let body_name := dict_get d "body" in
      let face_index := dict_get d "faceIndex" in
      if is_None comp_name || is_None body_name || is_None face_index
      then raise (ValidationError "faceRef requires component, body, and faceIndex" None)
      else
        body <- resolve_body_ref (body_ref_of d) ;;
        fun w => (item_at "face" face_index (faces w body), w)
  | _ => raise (ValidationError "faceRef must be an object" None)
  end.

(** [EntityResolver.resolve_edge_ref] *)
Definition resolve_edge_ref (ref : json) : M W Edge :=
  match ref with
  | JDict d =>
      let comp_name := dict_get d "component" in
      let body_name := dict_get d "body" in
      let edge_index := dict_get d "edgeIndex" in
      if is_None comp_name || is_None body_name || is_None edge_index
      then raise (ValidationError "edgeRef requires component, body, and edgeIndex" None)
      else
        body <- resolve_body_ref (body_ref_of d) ;;
        fun w => (item_at "edge" edge_index (edges w body), w)
  | _ => raise (ValidationError "edgeRef must be an object" None)
  end.

End EntityResolver.

End Resolver.


(* ===================================================================== *)
(** ** handlers/parameters.py: update_parameter                           *)
(* ===================================================================== *)

Module ParameterUpdate.
Import Py Errors Handlers Fusion Services.
Local Open Scope py_scope.

(** The attributes of the parameter that [UpdateParameterHandler.execute]
    has found, read and written through the host.  The parameter is
    designated by its position in [design.userParameters], the attribute
    by its name ([name], [expression], [unit], [comment]). *)
Class ParameterHost (W : Type) : Type := {
  (** [target_param.<attribute>] *)
  get_attribute : nat -> string -> W -> string + string;
  (** [target_param.<attribute> = value] *)
  set_attribute : nat -> string -> json -> W -> (string + unit) * W
}.

Section Handler.
Context `{Runtime} {W : Type} `{Host W} `{ParameterHost W}.

(** [if x is not None: m] *)
Definition when_not_None (x : json) (m : M W unit) : M W unit :=
  if is_None x then ret tt else m.

(** [UpdateParameterHandler.validate] *)
Definition update_parameter_validate (args : json) : M W json :=
  lift (validate_required_fields args ["name"]) ;;;
  name_value <- lift (getitem args "name") ;;
  name <- lift (validate_non_empty_string name_value "name") ;;
  expression <- lift (get_method args "expression" JNull) ;;
  unit_value <- lift (get_method args "unit" JNull) ;;
  comment <- lift (get_method args "comment" JNull) ;;
  let expression := if is_None expression then JNull else JStr (str expression) in
  when_not_None unit_value
    (if negb (isinstance_str unit_value)
     then raise (ValidationError "unit must be a string when provided" None)
     else lift (validate_unit unit_value)) ;;;
  (if negb (is_None comment) && negb (isinstance_str comment)
   then raise (ValidationError "comment must be a string when provided" None)
   else ret tt) ;;;
  (if is_None expression && is_None unit_value && is_None comment
   then raise (ValidationError
                 "At least one of expression, unit, or comment must be provided" None)
   else ret tt) ;;;
  ret (JDict {[ "name" := JStr name;
                "expression" := expression;
                "unit" := unit_value;
                "comment" := comment ]}).

(** The loop that finds the parameter: the position of the first one
    whose name is equal to [name]. *)
Fixpoint find_parameter (name : json) (params : list UserParameter) : option nat :=
  match params with
  | [] => None
  | p :: rest =>
      if eq_str name (param_name p) then Some 0%nat
      else option_map S (find_parameter name rest)
  end.

(** The fallback of the unit update: the unit is written into the
    expression. *)
Definition unit_in_expression (i : nat) (expression unit_value : json) : M W unit :=
  expr_base <- (if negb (is_None expression) then ret (str expression)
                else host_call (fun w => (get_attribute i "expression" w, w))) ;;
  host_call (set_attribute i "expression"
               (JStr (strip (expr_base +:+ " " +:+ str unit_value)))).

(** [UpdateParameterHandler.execute] *)
Definition update_parameter_execute (args : json) : M W json :=
  d <- design ;;
  name <- lift (getitem args "name") ;;
  match find_parameter name (userParameters d) with
  | None => raise (ValidationError ("Parameter '" +:+ str name +:+ "' not found") None)
  | Some i =>
      expression <- lift (getitem args "expression") ;;
      when_not_None expression (host_call (set_attribute i "expression" expression)) ;;;
      unit_value <- lift (getitem args "unit") ;;
      when_not_None unit_value
        (try_except (host_call (set_attribute i "unit" unit_value))
           (fun _ =>
              try_except (unit_in_expression i expression unit_value)
                (fun e => raise (FusionAPIError
                                   ("Failed to update parameter unit: " +:+ str_exn e)
                                   None)))) ;;;
      comment <- lift (getitem args "comment") ;;
      when_not_None comment
        (try_except (host_call (set_attribute i "comment" comment))
           (fun e => raise (FusionAPIError
                              ("Failed to update parameter comment: " +:+ str_exn e)
                              None))) ;;;
      p_name <- host_call (fun w => (get_attribute i "name" w, w)) ;;
      p_expression <- host_call (fun w => (get_attribute i "expression" w, w)) ;;
      p_unit <- host_call (fun w => (get_attribute i "unit" w, w)) ;;
      let result : gmap string json :=
        {[ "name" := JStr p_name;
           "expression" := JStr p_expression;
           "unit" := JStr p_unit ]} in
      fun w =>
        (inr (JDict match get_attribute i "comment" w with
                    | inr c => if bool_decide (c = "") then result
                               else <[ "comment" := JStr c ]> result
                    | inl _ => result
                    end), w)
  end.

Definition UpdateParameterHandler : BaseHandler W :=
  {| validate := update_parameter_validate; execute := update_parameter_execute |}.

End Handler.

End ParameterUpdate.


(* ===================================================================== *)
(** ** handlers/features.py and handlers/sketches.py: argument checks     *)
(* ===================================================================== *)

Module ArgumentChecks.
Import Py Errors Handlers Services Validators.
Local Open Scope py_scope.

(** [isinstance(v, list) and v] negated: [not isinstance(v, list) or not v] *)
Definition not_nonempty_list (v : json) : bool :=
  match v with JList (_ :: _) => false | _ => true end.

(** [len(v)] of a list *)
Definition list_len (v : json) : nat :=
  match v with JList l => length l | _ => 0%nat end.

Section Checks.
Context `{Runtime}.

(** [CombineBodiesHandler.validate]; it does not use the host. *)
Definition combine_bodies_validate (args : json) : exn + json :=
  match validate_required_fields args ["targets"; "tools"] with
  | inl e => inl e
  | inr _ =>
  match getitem args "targets" with
  | inl e => inl e
  | inr targets =>
  match getitem args "tools" with
  | inl e => inl e
  | inr tools =>
  match get_method args "operation" (JStr "join") with
  | inl e => inl e
  | inr operation =>
      if negb (in_list operation ["join"; "cut"; "intersect"])
      then inl (ValidationError "operation must be one of: join, cut, intersect" None)
      else if not_nonempty_list targets
      then inl (ValidationError "targets must be a non-empty array of bodyRef" None)
      else if not_nonempty_list tools
      then inl (ValidationError "tools must be a non-empty array of bodyRef" None)
      else if negb (Nat.eqb (list_len targets) 1)
      then inl (ValidationError "targets must contain exactly one bodyRef in v0" None)
      else if negb (Nat.eqb (list_len tools) 1)
      then inl (ValidationError "tools must contain exactly one bodyRef in v0" None)
      else inr (JDict {[ "targets" := targets; "tools" := tools;
                         "operation" := operation ]})
  end end end end.

(** [isinstance(v, bool)] *)
Definition isinstance_bool (v : json) : bool :=
  match v with JBool _ => true | _ => false end.

(** [SetIsConstructionHandler.validate]; it does not use the host.  The
    index is converted under [except Exception], which catches whatever
    [int] raises, and the [ValueError] raised for a negative index. *)
Definition set_is_construction_validate (args : json) : exn + json :=
  match validate_required_fields args ["sketch"; "entityRef"; "value"] with
  | inl e => inl e
  | inr _ =>
  match getitem args "sketch" with
  | inl e => inl e
  | inr sketch_value =>
  match validate_non_empty_string sketch_value "sketch" with
  | inl e => inl e
  | inr sketch_name =>
  match getitem args "entityRef" with
  | inl e => inl e
  | inr entity_ref =>
  match getitem args "value" with
  | inl e => inl e
  | inr value =>
      match entity_ref with
      | JDict r =>
          if negb (isinstance_bool value)
          then inl (ValidationError "value must be a boolean" None)
          else if negb (eq_str (dict_get r "type") "line")
          then inl (ValidationError "Only line entity type is supported in v0" None)
          else
            match int (dict_get r "index") with
            | IntOk idx =>
                if idx <? 0
                then inl (ValidationError
                            "entityRef.index must be a non-negative integer" None)
                else inr (JDict {[ "sketch" := JStr sketch_name;
                                   "entityRef" := entity_ref;
                                   "value" := value ]})
            | _ => inl (ValidationError
                          "entityRef.index must be a non-negative integer" None)
            end
      | _ => inl (ValidationError "entityRef must be an object" None)
      end
  end end end end end.

End Checks.

End ArgumentChecks.

(* ===================================================================== *)
(** ** mcp-server/fusion_mcp_server.py: the client side of the protocol   *)
(* ===================================================================== *)

Module MCPClient.
Import Py Errors Services.

(** The [BridgeError] of the MCP server. *)
Record BridgeError : Type := {
  be_code : json;
  be_message : json;
  be_details : json
}.

(** [BridgeError(code, message, details)]: [self.details = details or {}] *)
Definition mkBridgeError (code message details : json) : BridgeError :=
  {| be_code := code; be_message := message;
     be_details := if truthy details then details else JDict ∅ |}.

(** The [request_data] of [BridgeClient.execute_action]. *)
Definition request_data (action : string) (args : json) (request_id : option string)
    : gmap string json :=
  let data : gmap string json := {[ "action" := JStr action; "args" := args ]} in
  match request_id with
  | Some rid => if bool_decide (rid = "") then data else <[ "id" := JStr rid ]> data
  | None => data
  end.

(** What [client.post(urljoin(base_url, "/v1/execute"), json=request_data)]
    sends: no [X-Bridge-Token] header is ever set; [length] is the
    [Content-Length] the HTTP library computes and [text] the encoded
    body. *)
Definition post_request (length : string) (text : string) : Bridge.Request :=
  {| Bridge.target := "/v1/execute";
     Bridge.x_bridge_token := None;
     Bridge.content_length := Some length;
     Bridge.body := text |}.

(** [BridgeClient.execute_action] from [response_data = response.json()]
    on: the result, or the [BridgeError] raised.  An exception of the
    decoding itself (a response that is not an object, an error without
    the ["error"] object) is wrapped as [E_UNKNOWN]. *)
Definition handle_response (response_data : json) : BridgeError + json :=
  let unknown (e : string) :=
    mkBridgeError (JStr "E_UNKNOWN") (JStr ("Unexpected error: " +:+ e)) JNull in
  match response_data with
  | JDict r =>
      if eq_str (dict_get r "status") "error"
      then match r !! "error" with
           | None => inl (unknown "'error'")
           | Some (JDict error) =>
               inl (mkBridgeError
                      (dict_get_default error "code" (JStr "E_BRIDGE_ERROR"))
                      (dict_get_default error "message" (JStr "Unknown bridge error"))
                      (dict_get error "details"))
           | Some v =>
               inl (unknown ("'" +:+ type_name v +:+ "' object has no attribute 'get'"))
           end
      else inr (dict_get r "result")
  | _ => inl (unknown ("'" +:+ type_name response_data +:+
                       "' object has no attribute 'get'"))
  end.

(** [create_json_response] *)
Definition create_json_response (data : json) : json :=
  JDict {[ "success" := JBool true; "data" := data; "format" := JStr "json" ]}.

(** [create_error_response] *)
Definition create_error_response (error_message : string) (error_code : string) : json :=
  let response : gmap string json :=
    {[ "success" := JBool false; "error" := JStr error_message;
       "format" := JStr "json" ]} in
  JDict (if bool_decide (error_code = "") then response
         else <[ "error_code" := JStr error_code ]> response).

(** What [call_tool] returns for a tool whose function hands the result of
    [execute_action] to [create_json_response], and the [except
    BridgeError] clause. *)
Definition tool_reply `{Runtime} (outcome : BridgeError + json) : json :=
  match outcome with
  | inr result => create_json_response result
  | inl e =>
      create_error_response
        ("Bridge error (" +:+ str (be_code e) +:+ "): " +:+ str (be_message e))
        "BRIDGE_ERROR"
  end.




(** [tool_name.split("__")[-1]]: the text after the last of the
    separators found from left to right; [cur] is the segment being
    read. *)
Fixpoint last_segment (s cur : string) : string :=
  match s with
  | EmptyString => cur
  | String c rest =>
      match rest with
      | String c2 rest2 =>
          if Ascii.eqb c "_" && Ascii.eqb c2 "_"
          then last_segment rest2 ""
          else last_segment rest (cur +:+ String c "")
      | EmptyString => cur +:+ String c ""
      end
  end.

(** The text ends with an underscore. *)
Fixpoint ends_with_underscore (s : string) : bool :=
  match s with
  | EmptyString => false
  | String c EmptyString => Ascii.eqb c "_"
  | String _ rest => ends_with_underscore rest
  end.

(** The tool name [call_tool] looks up: [name or ""], without its
    namespace when it has one. *)
Definition normalize (name : option string) : string :=
  let tool_name := default "" name in
  if is_substring "__" tool_name then last_segment tool_name "" else tool_name.

(** The table entry [call_tool] dispatches to; [None] is the
    [UNKNOWN_TOOL] answer. *)
Definition resolve_tool (name : option string) : option string :=
  MCP.dispatch (normalize name).

End MCPClient.

(* ===================================================================== *)
(** ** Reference instances for the handlers above                         *)
(* ===================================================================== *)

Module ReferenceHosts.
Import Py Errors Handlers Fusion Registrations.

(** The parameter with one attribute replaced; the name is read-only. *)
Definition set_field (attribute value : string) (p : UserParameter) : UserParameter :=
  if String.eqb attribute "expression"
  then {| param_name := param_name p; param_expression := value;
          param_unit := param_unit p; param_comment := param_comment p |}
  else if String.eqb attribute "unit"
  then {| param_name := param_name p; param_expression := param_expression p;
          param_unit := value; param_comment := param_comment p |}
  else if String.eqb attribute "comment"
  then {| param_name := param_name p; param_expression := param_expression p;
          param_unit := param_unit p; param_comment := value |}
  else p.

Definition get_field (attribute : string) (p : UserParameter) : string + string :=
  if String.eqb attribute "name" then inr (param_name p)
  else if String.eqb attribute "expression" then inr (param_expression p)
  else if String.eqb attribute "unit" then inr (param_unit p)
  else if String.eqb attribute "comment" then inr (param_comment p)
  else inl "no such attribute".

(** The parameters of the document of [Reference.host]: an attribute is
    set to the string given, whatever it is. *)
Definition parameter_host : ParameterUpdate.ParameterHost (option Design) := {|
  ParameterUpdate.get_attribute := fun i attribute w =>
    match w with
    | Some d =>
        match userParameters d !! i with
        | Some p => get_field attribute p
        | None => inl "invalid parameter"
        end
    | None => inl "no design"
    end;
  ParameterUpdate.set_attribute := fun i attribute v w =>
    match w, v with
    | Some d, JStr s =>
        (inr tt, Some {| userParameters := alter (set_field attribute s) i (userParameters d);
                         rootComponent := rootComponent d |})
    | _, _ => (inl "invalid argument", w)
    end
|}.


(** A server whose [create_sketch] rejects its arguments, after a
    [/dev/reload] whose rebuild failed. *)
Definition rejecting_server_after_failed_reload : Bridge.Server (option Design) :=
  {| Bridge.registry := {[ "create_sketch" := Reference.rejecting ]};
     Bridge.world := Some Reference.design1;
     Bridge.errors_current := false |}.

(** A rebuild that fails while it imports the modules. *)
Definition failing_reload
    : M (option Design) (gmap string (BaseHandler (option Design))) :=
  raise (PyException "ModuleNotFoundError" "No module named 'core.router'").

(** [POST /dev/reload] *)
Definition post_reload : Bridge.Request :=
  {| Bridge.target := "/dev/reload";
     Bridge.x_bridge_token := None;
     Bridge.content_length := None;
     Bridge.body := "" |}.

(** Every handler class instantiated as the echo handler. *)
Definition instantiate (c : HandlerClass) : BaseHandler (option Design) :=
  Reference.echo.

End ReferenceHosts.

(* ===================================================================== *)
(** * Properties                                                          *)
(* ===================================================================== *)

(** ** The exception monad *)

Module MonadFacts.
Import Py Errors.

Section Facts.
Context {W : Type}.

Lemma read_only_ret {A} (a : A) : read_only (@ret W A a).
Proof. intros w; reflexivity. Qed.

Lemma read_only_raise {A} (e : exn) : read_only (@raise W A e).
Proof. intros w; reflexivity. Qed.

Lemma read_only_lift {A} (r : exn + A) : read_only (@lift W A r).
Proof. intros w; reflexivity. Qed.

Lemma read_only_bind {A B} (m : M W A) (k : A -> M W B) :
  read_only m -> (forall a, read_only (k a)) -> read_only (bind m k).
Proof.
  intros Hm Hk w. unfold bind.
  specialize (Hm w). destruct (m w) as [[e | a] w1]; simpl in *; subst.
  - reflexivity.
  - apply Hk.
Qed.

Lemma read_only_if {A} (b : bool) (m1 m2 : M W A) :
  read_only m1 -> read_only m2 -> read_only (if b then m1 else m2).
Proof. destruct b; auto. Qed.

Lemma bind_inl {A B} (m : M W A) (k : A -> M W B) w e w' :
  m w = (inl e, w') -> bind m k w = (inl e, w').
Proof. intros Hm. unfold bind. rewrite Hm. reflexivity. Qed.

Lemma bind_inr {A B} (m : M W A) (k : A -> M W B) w a w' :
  m w = (inr a, w') -> bind m k w = k a w'.
Proof. intros Hm. unfold bind. rewrite Hm. reflexivity. Qed.

(** Inversion of a failing [bind]: the failure is the first
    computation's, or the continuation's. *)
Lemma bind_raises {A B} (m : M W A) (k : A -> M W B) w e w' :
  bind m k w = (inl e, w') ->
  m w = (inl e, w') \/ exists a w1, m w = (inr a, w1) /\ k a w1 = (inl e, w').
Proof.
  unfold bind. destruct (m w) as [[e0 | a] w1]; intros Hb.
  - left. inversion Hb; reflexivity.
  - right. exists a, w1. split; [reflexivity | exact Hb].
Qed.

End Facts.

End MonadFacts.

(** ** handlers/base.py *)

Module HandlersSpec.
Import Py Errors Handlers MonadFacts.

Section Handle.
Context {W : Type}.
Implicit Types (h : BaseHandler W) (args : json) (w : W) (e : exn).

Lemma translate_code e :
  code (translate e) = Some "E_BAD_ARGS" /\ is_ValidationError e = true \/
  code (translate e) = Some "E_RUNTIME" /\ is_ValidationError e = false.
Proof. destruct e; simpl; auto. Qed.

Lemma handle_returns h args w v w1 r w2 :
  validate h args w = (inr v, w1) ->
  execute h v w1 = (inr r, w2) ->
  handle h args w = (inr r, w2).
Proof.
  intros Hv He. unfold handle, try_except.
  rewrite (bind_inr _ _ _ _ _ Hv), He. reflexivity.
Qed.

Lemma handle_translates h args w e w' :
  raised_by h args w e w' -> handle h args w = (inl (translate e), w').
Proof.
  intros [Hv | (v & w1 & Hv & He)]; unfold handle, try_except.
  - rewrite (bind_inl _ _ _ _ _ Hv). unfold translate.
    destruct (is_ValidationError e); reflexivity.
  - rewrite (bind_inr _ _ _ _ _ Hv), He. unfold translate.
    destruct (is_ValidationError e); reflexivity.
Qed.

(** Every exception that leaves [handle] is the translation of one that
    [validate] or [execute] raised. *)
Lemma handle_raises h args w e w' :
  handle h args w = (inl e, w') ->
  exists e0, raised_by h args w e0 w' /\ e = translate e0.
Proof.
  unfold handle, try_except.
  destruct (bind (validate h args) (fun v => execute h v) w)
    as [[e0 | r] w1] eqn:Hb; [| discriminate].
  intros Ht. exists e0.
  assert (Hw : w1 = w' /\ e = translate e0).
  { unfold translate. destruct (is_ValidationError e0);
      unfold raise in Ht; inversion Ht; auto. }
  destruct Hw as [-> ->]. split; [| reflexivity].
  apply bind_raises in Hb. exact Hb.
Qed.

Lemma handle_code h args w e w' :
  handle h args w = (inl e, w') ->
  code e = Some "E_BAD_ARGS" \/ code e = Some "E_RUNTIME".
Proof.
  intros Hh. apply handle_raises in Hh as (e0 & _ & ->).
  destruct (translate_code e0) as [[-> _] | [-> _]]; auto.
Qed.

(** C4.  [handle] is [execute] after [validate], run once each on the
    host: when both return, [handle] returns [execute]'s result in
    the state [execute] left; a [ValidationError] raised by either
    propagates unchanged, with code [E_BAD_ARGS]; any other exception
    becomes a [FusionAPIError] with code [E_RUNTIME] whose message is
    ["Operation failed: "] followed by the exception's text; and no
    other exception leaves [handle]. *)
Theorem handle_spec h args w :
  (forall v w1 r w2,
     validate h args w = (inr v, w1) -> execute h v w1 = (inr r, w2) ->
     handle h args w = (inr r, w2)) /\
  (forall e w',
     raised_by h args w e w' -> is_ValidationError e = true ->
     handle h args w = (inl e, w') /\ code e = Some "E_BAD_ARGS") /\
  (forall e w',
     raised_by h args w e w' -> is_ValidationError e = false ->
     handle h args w =
       (inl (FusionAPIError ("Operation failed: " +:+ str_exn e) None), w')) /\
  (forall e w',
     handle h args w = (inl e, w') ->
     (raised_by h args w e w' /\ is_ValidationError e = true /\
      code e = Some "E_BAD_ARGS") \/
     (exists e0, raised_by h args w e0 w' /\ is_ValidationError e0 = false /\
                 e = FusionAPIError ("Operation failed: " +:+ str_exn e0) None /\
                 code e = Some "E_RUNTIME")).
Proof.
  split; [| split; [| split]].
  - apply handle_returns.
  - intros e w' Hr Hv. split.
    + rewrite (handle_translates _ _ _ _ _ Hr).
      unfold translate. rewrite Hv. reflexivity.
    + destruct e; simpl in *; congruence.
  - intros e w' Hr Hv. rewrite (handle_translates _ _ _ _ _ Hr).
    unfold translate. rewrite Hv. reflexivity.
  - intros e w' Hh. apply handle_raises in Hh as (e0 & Hr & ->).
    unfold translate. destruct (is_ValidationError e0) eqn:Hv.
    + left. repeat split; auto. destruct e0; simpl in *; congruence.
    + right. exists e0. repeat split; auto.
Qed.

End Handle.

(** The three ways out of [handle]. *)
Example handle_echo (w : nat) :
  handle Reference.echo (JInt 7) w = (inr (JInt 7), w).
Proof. reflexivity. Qed.

Example handle_rejecting (w : nat) :
  handle Reference.rejecting (JInt 7) w
  = (inl (ValidationError "name must be a non-empty string" None), w).
Proof. reflexivity. Qed.

Example handle_failing (w : nat) :
  handle Reference.failing (JInt 7) w
  = (inl (FusionAPIError "Operation failed: boom" None), w).
Proof. reflexivity. Qed.

End HandlersSpec.

(** ** core/router.py *)

Module RouterSpec.
Import Py Errors Handlers Router MonadFacts HandlersSpec.

Section HandleAction.
Context `{Runtime} {W : Type}.
Implicit Types (self : gmap string (BaseHandler W)) (args : json) (w : W).

Lemma handle_action_registered self a h args w :
  self !! a = Some h ->
  handle_action self (JStr a) args w = handle h args w.
Proof.
  intros Hl. unfold handle_action, get_handler, bind. rewrite Hl. reflexivity.
Qed.

Lemma handle_action_unknown self a args w :
  self !! a = None ->
  handle_action self (JStr a) args w = (inl (ActionNotSupportedError a), w).
Proof.
  intros Hl. unfold handle_action, get_handler, bind. rewrite Hl. reflexivity.
Qed.

(** C3.  For an action string [a]: [handle_action] raises an error with
    code [E_ACTION_UNSUPPORTED] and message ["Unknown action: a"] if
    and only if [a] is not a key of the handler map (and then it is
    the [ActionNotSupportedError], raised without touching the host);
    when [a] is a key, [handle_action] is the registered handler's
    [handle] on the arguments. *)
Theorem handle_action_spec self (a : string) args w :
  ((exists e w', handle_action self (JStr a) args w = (inl e, w') /\
                 code e = Some "E_ACTION_UNSUPPORTED" /\
                 message e = Some ("Unknown action: " +:+ a))
   <-> self !! a = None) /\
  (self !! a = None ->
   handle_action self (JStr a) args w = (inl (ActionNotSupportedError a), w)) /\
  (forall h, self !! a = Some h ->
   handle_action self (JStr a) args w = handle h args w).
Proof.
  split; [split |split].
  - intros (e & w' & Hr & Hc & _).
    destruct (self !! a) as [h |] eqn:Hl; [| reflexivity].
    rewrite (handle_action_registered _ _ _ _ _ Hl) in Hr.
    apply handle_code in Hr as [Hr | Hr]; congruence.
  - intros Hl. exists (ActionNotSupportedError a), w.
    rewrite (handle_action_unknown _ _ _ _ Hl). auto.
  - apply handle_action_unknown.
  - intros h. apply handle_action_registered.
Qed.

End HandleAction.

Example handle_action_echo :
  handle_action (H := Reference.runtime) (Bridge.registry Reference.server)
    (JStr "echo") (JInt 7) None = (inr (JInt 7), None).
Proof. reflexivity. Qed.

Example handle_action_unregistered :
  handle_action (H := Reference.runtime) (Bridge.registry Reference.server)
    (JStr "create_sketch") (JDict ∅) None
  = (inl (ActionNotSupportedError "create_sketch"), None).
Proof. reflexivity. Qed.

End RouterSpec.

(** ** FusionMCPBridge.py *)

Module BridgeSpec.
Import Py Errors Handlers Router Bridge MonadFacts HandlersSpec RouterSpec.

Lemma with_id_lookup request_id (d : gmap string json) k :
  k <> "id" -> with_id request_id d !! k = d !! k.
Proof.
  intros Hk. unfold with_id. destruct (truthy request_id); [| reflexivity].
  apply lookup_insert_ne. congruence.
Qed.

Lemma error_dict_lookup (c m : string) (details : gmap string json) :
  let error : gmap string json := {[ "code" := JStr c; "message" := JStr m ]} in
  let error' := if bool_decide (details = ∅) then error
                else <[ "details" := JDict details ]> error in
  error' !! "code" = Some (JStr c) /\ error' !! "message" = Some (JStr m).
Proof.
  intros error error'. subst error error'.
  destruct (bool_decide (details = ∅)).
  - split.
    + apply lookup_insert_eq.
    + rewrite lookup_insert_ne by discriminate.
      apply lookup_singleton_eq.
  - split.
    + rewrite lookup_insert_ne by discriminate. apply lookup_insert_eq.
    + rewrite lookup_insert_ne by discriminate.
      rewrite lookup_insert_ne by discriminate. apply lookup_singleton_eq.
Qed.

Lemma send_error_shape status c m details request_id :
  status_code (_send_error status c m details request_id) = 200 /\
  error_body (payload (_send_error status c m details request_id)) c m.
Proof.
  split; [reflexivity |].
  unfold _send_error, _send_json_response, error_body.
  cbn [payload].
  destruct (error_dict_lookup c m details) as [Hc Hm].
  eexists _, _. split; [reflexivity |].
  split; [| split; [| split; [exact Hc | exact Hm]]].
  - rewrite with_id_lookup by discriminate. apply lookup_insert_eq.
  - rewrite with_id_lookup by discriminate.
    rewrite lookup_insert_ne by discriminate. apply lookup_singleton_eq.
Qed.

Lemma send_error_inv status c m details request_id c' m' :
  error_body (payload (_send_error status c m details request_id)) c' m' ->
  c' = c /\ m' = m.
Proof.
  unfold _send_error, _send_json_response, error_body. cbn [payload].
  intros (d & e & Hd & _ & He & Hc & Hm).
  injection Hd as <-.
  rewrite with_id_lookup in He by discriminate.
  rewrite lookup_insert_ne in He by discriminate.
  rewrite lookup_singleton_eq in He. injection He as <-.
  destruct (error_dict_lookup c m details) as [Hc' Hm'].
  cbv zeta in Hc', Hm'. rewrite Hc' in Hc. rewrite Hm' in Hm.
  split; congruence.
Qed.

Lemma ok_not_error request_id (d : gmap string json) c m :
  d !! "status" = Some (JStr "ok") ->
  ~ error_body (JDict (with_id request_id d)) c m.
Proof.
  intros Hs (d' & e & Hd & Hst & _).
  injection Hd as <-.
  rewrite with_id_lookup in Hst by discriminate. congruence.
Qed.

Lemma check_auth_sent cfg request r :
  _check_auth cfg request = Some r ->
  r = _send_error 200 "E_UNAUTHORIZED" "Invalid or missing X-Bridge-Token header" ∅ JNull.
Proof.
  unfold _check_auth.
  destruct (is_None _); [discriminate |].
  destruct (token_differs _ _); [| discriminate].
  intros [= <-]. reflexivity.
Qed.

Lemma token_differs_false token auth :
  token_differs token auth = false <-> exists t, token = Some t /\ auth = JStr t.
Proof.
  unfold token_differs. split.
  - destruct token as [t |]; [| discriminate].
    destruct auth; try discriminate.
    intros Hn. apply negb_false_iff, bool_decide_eq_true in Hn. subst. eauto.
  - intros (t & -> & ->). apply negb_false_iff, bool_decide_eq_true. reflexivity.
Qed.

Lemma is_None_true v : is_None v = true <-> v = JNull.
Proof. destruct v; simpl; split; congruence. Qed.

Lemma check_auth_None cfg request :
  _check_auth cfg request = None <->
  BRIDGE_AUTH_TOKEN cfg = JNull \/ token_matches cfg request.
Proof.
  unfold _check_auth, token_matches.
  destruct (is_None (BRIDGE_AUTH_TOKEN cfg)) eqn:Hn.
  - apply is_None_true in Hn. tauto.
  - assert (BRIDGE_AUTH_TOKEN cfg <> JNull) as Hne.
    { intros Heq. apply is_None_true in Heq. congruence. }
    destruct (token_differs _ _) eqn:Ht.
    + split; [discriminate |]. intros [? | Hm]; [contradiction |].
      apply token_differs_false in Hm. congruence.
    + apply token_differs_false in Ht. tauto.
Qed.

Section Requests.
Context `{Runtime} {W : Type}.
Variable _reload_and_rebuild_registry : M W (gmap string (BaseHandler W)).

Lemma send_error_reply (srv : Server W) status c m details request_id :
  execute_reply srv (_send_error status c m details request_id).
Proof.
  destruct (send_error_shape status c m details request_id) as [Hs Hb].
  split; [exact Hs |]. right. eauto.
Qed.

Lemma execute_request_reply req (srv : Server W) :
  execute_reply srv (execute_request req srv).1.
Proof.
  unfold execute_request, except_Exception.
  destruct req; try apply send_error_reply.
  destruct (negb (truthy (dict_get d "action"))); [apply send_error_reply |].
  destruct (handle_action _ _ _ _) as [[e | result] w'] eqn:Hh; cbn [fst].
  - destruct (errors_current srv); [destruct e |]; apply send_error_reply.
  - split; [reflexivity |]. left.
    exists result, (dict_get d "action"), (dict_get_default d "args" (JDict ∅)).
    split; [| rewrite Hh; reflexivity].
    eexists. split; [reflexivity |].
    rewrite !with_id_lookup by discriminate. split.
    + apply lookup_insert_eq.
    + rewrite lookup_insert_ne by discriminate. apply lookup_singleton_eq.
Qed.

Lemma v1_execute_reply request (srv : Server W) :
  execute_reply srv (v1_execute request srv).1.
Proof.
  unfold v1_execute, except_Exception.
  destruct (match content_length request with
            | Some s => int_of_str s | None => Some 0 end) as [n |];
    [| apply send_error_reply].
  destruct (n <=? 0); [apply send_error_reply |].
  destruct (decode_utf8 _) as [msg | text]; [apply send_error_reply |].
  destruct (json_loads text) as [msg | req]; [apply send_error_reply |].
  apply execute_request_reply.
Qed.

(** C1.  A POST whose path is [/v1/execute] is answered with 200 and a
    JSON object whose ["status"] is ["ok"], with the value a handler
    returned under ["result"], or ["error"], with an ["error"] object
    that has a ["code"] and a ["message"]; this holds whatever the
    headers and the body are and whatever the handler does. *)
Theorem do_POST_execute_reply cfg request (srv : Server W) :
  urlparse_path (target request) = inr "/v1/execute" ->
  execute_reply srv (do_POST _reload_and_rebuild_registry cfg request srv).1.
Proof.
  intros Hpath. unfold Bridge.do_POST.
  destruct (_check_auth cfg request) as [r |] eqn:Hauth.
  - apply check_auth_sent in Hauth as ->. apply send_error_reply.
  - unfold Bridge.do_POST_authorized. rewrite Hpath.
    rewrite bool_decide_eq_false_2 by discriminate.
    rewrite bool_decide_eq_true_2 by reflexivity.
    apply v1_execute_reply.
Qed.

End Requests.

Ltac in_codes := apply list_elem_of_In; simpl; tauto.

Lemma send_error_within codes status c m details request_id :
  c ∈ codes -> codes_within codes (_send_error status c m details request_id).
Proof. intros Hc c' m' Hb. apply send_error_inv in Hb as [-> _]. exact Hc. Qed.

(** An error body written out as a literal, as [do_GET] does. *)
Lemma literal_error_within codes status (c m : string) :
  c ∈ codes ->
  codes_within codes
    (_send_json_response status
       (JDict {[ "status" := JStr "error";
                 "error" := JDict {[ "code" := JStr c; "message" := JStr m ]} ]})).
Proof.
  intros Hc c' m' (d & e & Hd & _ & He & Hc' & _).
  cbn [payload _send_json_response] in Hd. injection Hd as <-.
  rewrite lookup_insert_ne in He by discriminate.
  rewrite lookup_singleton_eq in He. injection He as <-.
  rewrite lookup_insert_eq in Hc'. injection Hc' as <-. exact Hc.
Qed.

Lemma ok_within codes status (d : gmap string json) :
  d !! "status" = Some (JStr "ok") ->
  codes_within codes (_send_json_response status (JDict d)).
Proof.
  intros Hs c m (d' & e & Hd & Hst & _).
  cbn [payload _send_json_response] in Hd. injection Hd as <-. congruence.
Qed.

Section Codes.
Context `{Runtime} {W : Type}.
Variable get_fusion_state : W -> json.
Variable _reload_and_rebuild_registry : M W (gmap string (BaseHandler W)).

Lemma do_GET_codes cfg request (srv : Server W) :
  codes_within ["E_UNAUTHORIZED"; "E_NOT_FOUND"; "E_INTERNAL"]
    (do_GET get_fusion_state cfg request srv).1.
Proof.
  unfold do_GET.
  destruct (_check_auth cfg request) as [r |] eqn:Hauth; cbn [fst].
  - apply check_auth_sent in Hauth as ->. apply send_error_within. in_codes.
  - unfold do_GET_authorized.
    destruct (urlparse_path _) as [msg | path]; cbn [fst].
    + apply literal_error_within. in_codes.
    + destruct (bool_decide (path = "/health")); cbn [fst].
      * apply ok_within. apply lookup_insert_eq.
      * apply literal_error_within. in_codes.
Qed.

Lemma execute_request_codes req (srv : Server W) :
  codes_within taxonomy_codes (execute_request req srv).1.
Proof.
  unfold execute_request, except_Exception, taxonomy_codes.
  destruct req; try (apply send_error_within; in_codes).
  destruct (negb (truthy (dict_get d "action")));
    [apply send_error_within; in_codes |].
  destruct (handle_action _ _ _ _) as [[e | result] w']; cbn [fst].
  - destruct (errors_current srv); [destruct e |]; apply send_error_within; in_codes.
  - intros c m Hb. exfalso. eapply ok_not_error; [| exact Hb]. apply lookup_insert_eq.
Qed.

Lemma codes_within_mono codes codes' r :
  codes ⊆ codes' -> codes_within codes r -> codes_within codes' r.
Proof. intros Hsub Hc c m Hb. apply Hsub, (Hc c m Hb). Qed.

Lemma do_POST_codes cfg request (srv : Server W) :
  codes_within (taxonomy_codes ++ ["E_NOT_FOUND"; "E_BAD_JSON"])
    (do_POST _reload_and_rebuild_registry cfg request srv).1.
Proof.
  unfold do_POST.
  destruct (_check_auth cfg request) as [r |] eqn:Hauth; cbn [fst].
  - apply check_auth_sent in Hauth as ->. apply send_error_within. in_codes.
  - unfold do_POST_authorized, except_Exception.
    destruct (urlparse_path _) as [msg | path]; cbn [fst].
    { apply send_error_within. in_codes. }
    destruct (bool_decide (path = "/dev/reload")).
    { unfold dev_reload.
      destruct (negb _); cbn [fst]; [apply send_error_within; in_codes |].
      destruct (_reload_and_rebuild_registry _) as [[e | reg] w']; cbn [fst].
      - apply send_error_within. in_codes.
      - apply ok_within. apply lookup_insert_eq. }
    destruct (negb _); cbn [fst]; [apply send_error_within; in_codes |].
    unfold v1_execute, except_Exception.
    destruct (match content_length request with
              | Some s => int_of_str s | None => Some 0 end) as [n |];
      [| apply send_error_within; in_codes].
    destruct (n <=? 0); [apply send_error_within; in_codes |].
    destruct (decode_utf8 _) as [msg | text]; [apply send_error_within; in_codes |].
    destruct (json_loads text) as [msg | req]; [apply send_error_within; in_codes |].
    eapply codes_within_mono; [| apply execute_request_codes].
    intros c Hc. apply elem_of_app. left. exact Hc.
Qed.

(** C2, as amended.  Every error response of the HTTP server carries one
    of seven codes: the four of the taxonomy, and [E_NOT_FOUND],
    [E_BAD_JSON] and [E_INTERNAL], which the request handler adds for
    an unknown endpoint, an unparsable body and a failure of [do_GET]. *)
Theorem error_codes cfg request (srv : Server W) :
  codes_within (taxonomy_codes ++ transport_codes)
    (do_GET get_fusion_state cfg request srv).1 /\
  codes_within (taxonomy_codes ++ transport_codes)
    (do_POST _reload_and_rebuild_registry cfg request srv).1.
Proof.
  split.
  - eapply codes_within_mono; [| apply do_GET_codes].
    intros c Hc. apply list_elem_of_In in Hc. simpl in Hc.
    unfold taxonomy_codes, transport_codes.
    destruct Hc as [<- | [<- | [<- | []]]]; in_codes.
  - eapply codes_within_mono; [| apply do_POST_codes].
    intros c Hc. apply list_elem_of_In in Hc. simpl in Hc.
    unfold taxonomy_codes, transport_codes.
    destruct Hc as [<- | [<- | [<- | [<- | [<- | [<- | []]]]]]]; in_codes.
Qed.

(** C5.  When no token is configured every request passes the check.
    When one is configured, the check passes if and only if the
    [X-Bridge-Token] header is that very string; a request that passes
    is handled by the code after the check, and one that does not is
    answered [E_UNAUTHORIZED] while the registry and the host stay as
    they were. *)
Theorem check_auth_spec cfg request (srv : Server W) :
  (BRIDGE_AUTH_TOKEN cfg = JNull ->
     _check_auth cfg request = None /\
     do_GET get_fusion_state cfg request srv =
       do_GET_authorized get_fusion_state cfg request srv /\
     do_POST _reload_and_rebuild_registry cfg request srv =
       do_POST_authorized _reload_and_rebuild_registry cfg request srv) /\
  (BRIDGE_AUTH_TOKEN cfg <> JNull ->
     (_check_auth cfg request = None <-> token_matches cfg request) /\
     (token_matches cfg request ->
        do_GET get_fusion_state cfg request srv =
          do_GET_authorized get_fusion_state cfg request srv /\
        do_POST _reload_and_rebuild_registry cfg request srv =
          do_POST_authorized _reload_and_rebuild_registry cfg request srv) /\
     (~ token_matches cfg request ->
        exists r,
          do_GET get_fusion_state cfg request srv = (r, srv) /\
          do_POST _reload_and_rebuild_registry cfg request srv = (r, srv) /\
          status_code r = 200 /\
          error_body (payload r) "E_UNAUTHORIZED"
            "Invalid or missing X-Bridge-Token header")).
Proof.
  assert (Hpass : _check_auth cfg request = None ->
            do_GET get_fusion_state cfg request srv =
              do_GET_authorized get_fusion_state cfg request srv /\
            do_POST _reload_and_rebuild_registry cfg request srv =
              do_POST_authorized _reload_and_rebuild_registry cfg request srv).
  { intros Hc. unfold do_GET, do_POST. rewrite Hc. auto. }
  split.
  - intros Hnone.
    assert (Hc : _check_auth cfg request = None) by (apply check_auth_None; auto).
    split; [exact Hc | apply Hpass, Hc].
  - intros Hset. split; [| split].
    + rewrite check_auth_None. tauto.
    + intros Hm. apply Hpass, check_auth_None. auto.
    + intros Hm.
      destruct (_check_auth cfg request) as [r |] eqn:Hc.
      * exists r. unfold do_GET, do_POST. rewrite Hc.
        apply check_auth_sent in Hc as ->.
        split; [reflexivity |]. split; [reflexivity |].
        apply send_error_shape.
      * apply check_auth_None in Hc. tauto.
Qed.

End Codes.

Lemma do_POST_execute_reply_witness :
  urlparse_path (Runtime := Reference.runtime) (target Reference.post_execute)
    = inr "/v1/execute" /\
  execute_reply (H := Reference.runtime) Reference.server
    (do_POST (H := Reference.runtime) Reference.reload
       Reference.config Reference.post_execute Reference.server).1.
Proof.
  split; [reflexivity |].
  apply (do_POST_execute_reply (H := Reference.runtime) Reference.reload
           Reference.config Reference.post_execute Reference.server).
  reflexivity.
Defined.

(** The same request is answered [E_BAD_ARGS]: the body has no action. *)
Example post_execute_missing_action :
  (do_POST (H := Reference.runtime) Reference.reload
     Reference.config Reference.post_execute Reference.server).1
  = _send_error 200 "E_BAD_ARGS" "Missing 'action' field" ∅ JNull.
Proof. reflexivity. Qed.

(** C2 as stated fails: a POST to a path other than [/v1/execute] and
    [/dev/reload] is answered with the code [E_NOT_FOUND], which is not
    one of the four. *)
Lemma error_codes_counterexample :
  ~ codes_within taxonomy_codes
      (do_POST (H := Reference.runtime) Reference.reload
         Reference.config Reference.post_unknown Reference.server).1.
Proof.
  intros Hc.
  assert (Hr : (do_POST (H := Reference.runtime) Reference.reload
                  Reference.config Reference.post_unknown Reference.server).1
               = _send_error 200 "E_NOT_FOUND" "Endpoint not found" ∅ JNull)
    by reflexivity.
  rewrite Hr in Hc.
  specialize (Hc "E_NOT_FOUND" "Endpoint not found"
                (proj2 (send_error_shape _ _ _ _ _))).
  apply list_elem_of_In in Hc. simpl in Hc.
  repeat (destruct Hc as [Hc | Hc]; [discriminate Hc |]). exact Hc.
Qed.

(** A body that is not JSON is answered with [E_BAD_JSON]. *)
Example post_bad_json :
  (do_POST (H := Reference.runtime) Reference.reload Reference.config
     {| target := "/v1/execute"; x_bridge_token := None;
        content_length := Some "1"; body := "x" |} Reference.server).1
  = _send_error 200 "E_BAD_JSON"
      "Invalid JSON: Expecting value: line 1 column 1 (char 0)" ∅ JNull.
Proof. reflexivity. Qed.

(** [GET /health] reports the version and the host state. *)
Example get_health :
  (do_GET (H := Reference.runtime) Reference.fusion_state Reference.config
     {| target := "/health"; x_bridge_token := None;
        content_length := None; body := "" |} Reference.server).1
  = _send_json_response 200
      (JDict {[ "status" := JStr "ok"; "version" := JStr "0.1.0";
                "fusion" := JDict {[ "running" := JBool true ]} ]}).
Proof. reflexivity. Qed.

(** With a token configured, a request that carries it is handled. *)
Example post_with_token :
  let request := {| target := "/v1/execute"; x_bridge_token := Some "s3cret";
                    content_length := Some "2"; body := "{}" |} in
  do_POST (H := Reference.runtime) Reference.reload
    Reference.config_with_token request Reference.server
  = do_POST_authorized (H := Reference.runtime) Reference.reload
      Reference.config_with_token request Reference.server.
Proof. reflexivity. Qed.

(** With a token configured, a request without the header is refused
    and the server is left as it was. *)
Example post_without_token :
  do_POST (H := Reference.runtime) Reference.reload
    Reference.config_with_token Reference.post_execute Reference.server
  = (_send_error 200 "E_UNAUTHORIZED"
       "Invalid or missing X-Bridge-Token header" ∅ JNull, Reference.server).
Proof. reflexivity. Qed.

End BridgeSpec.

(** ** services/entity_resolver.py and services/validators.py *)

Module ServicesSpec.
Import Py Errors Fusion Services MonadFacts.

Section Resolver.
Context `{Runtime} {W : Type} `{Host W}.

Lemma search_bodies_Some v bodies b :
  search_bodies v bodies = Some b <-> first_match v bodies b.
Proof.
  induction bodies as [| b0 rest IH]; simpl.
  - split; [discriminate |]. intros (i & Hi & _). destruct i; discriminate.
  - destruct (eq_str v (body_name b0)) eqn:Hb0.
    + split.
      * intros [= <-]. exists 0%nat. repeat split; auto. intros j b' Hj. lia.
      * intros (i & Hi & Hname & Hfirst). destruct i as [| i].
        -- simpl in Hi. congruence.
        -- specialize (Hfirst 0%nat b0 ltac:(lia) eq_refl). congruence.
    + rewrite IH. split.
      * intros (i & Hi & Hname & Hfirst). exists (S i). repeat split; auto.
        intros [| j] b' Hj Hl; simpl in Hl.
        -- congruence.
        -- apply (Hfirst j); [lia | exact Hl].
      * intros (i & Hi & Hname & Hfirst). destruct i as [| i].
        -- simpl in Hi. congruence.
        -- exists i. repeat split; auto.
           intros j b' Hj Hl. apply (Hfirst (S j)); [lia | exact Hl].
Qed.

Lemma search_bodies_None v bodies :
  search_bodies v bodies = None <->
  forall b, b ∈ bodies -> eq_str v (body_name b) = false.
Proof.
  induction bodies as [| b0 rest IH]; simpl.
  - split; [| reflexivity]. intros _ b Hb. inversion Hb.
  - destruct (eq_str v (body_name b0)) eqn:Hb0.
    + split; [discriminate |]. intros Hall.
      rewrite (Hall b0) in Hb0; [discriminate | left].
    + rewrite IH. split.
      * intros Hall b Hb. apply elem_of_cons in Hb as [-> | Hb]; auto.
      * intros Hall b Hb. apply Hall. right. exact Hb.
Qed.

Lemma root_component_active (w : W) dsg :
  activeProduct w = Some dsg ->
  root_component w = (inr (rootComponent dsg), w).
Proof.
  intros Ha. unfold root_component, design, bind, ret. rewrite Ha. reflexivity.
Qed.

(** C6.  With a design open, [resolve_body_ref] reads the bodies of the
    root component of the current host state and leaves the state as
    it is; it returns [b] exactly when [ref] is a dict whose
    ["component"] is the root component's name and [b] is the first
    body whose name equals [ref["body"]]; it raises a
    [ValidationError] exactly when [ref] is not a dict, ["component"]
    or ["body"] is missing or falsy, the component is not the root
    component, or no body has that name; and it does one or the other. *)
Theorem resolve_body_ref_spec (ref : json) (w : W) dsg :
  activeProduct w = Some dsg ->
  let root := rootComponent dsg in
  (resolve_body_ref ref w).2 = w /\
  (forall b,
     (resolve_body_ref ref w).1 = inr b <->
     exists d, ref = JDict d /\
               truthy (dict_get d "component") = true /\
               truthy (dict_get d "body") = true /\
               eq_str (dict_get d "component") (comp_name root) = true /\
               first_match (dict_get d "body") (bRepBodies root) b) /\
  ((exists m f, (resolve_body_ref ref w).1 = inl (ValidationError m f)) <->
   unresolvable root ref) /\
  ((exists b, (resolve_body_ref ref w).1 = inr b) \/
   (exists m f, (resolve_body_ref ref w).1 = inl (ValidationError m f))).
Proof.
  intros Ha root. unfold resolve_body_ref, unresolvable.
  destruct ref as [| | | | | | d];
    try (cbn; repeat split; eauto;
         try (intros; discriminate);
         try (intros (? & ? & _); discriminate); fail).
  destruct (truthy (dict_get d "component")) eqn:Hc;
    [destruct (truthy (dict_get d "body")) eqn:Hb |]; cbn [negb orb].
  2,3: cbn; repeat split; eauto;
       try (intros; discriminate);
       try (intros (? & [= <-] & ? & ? & _); congruence).
  unfold bind. rewrite (root_component_active _ _ Ha). fold root.
  destruct (eq_str (dict_get d "component") (comp_name root)) eqn:Hr; cbn [negb].
  2: { cbn; repeat split; eauto;
       try (intros; discriminate);
       try (intros (? & [= <-] & ? & ? & ? & _); congruence). }
  destruct (search_bodies (dict_get d "body") (bRepBodies root)) as [b0 |] eqn:Hs.
  - apply search_bodies_Some in Hs as Hfm. cbn. repeat split; eauto.
    + intros [= <-]. exists d. auto.
    + intros (d' & [= <-] & _ & _ & _ & Hfm').
      apply search_bodies_Some in Hfm'. congruence.
    + intros (? & ? & ?); discriminate.
    + intros [Hx | [Hx | [Hx | Hall]]]; try congruence.
      apply search_bodies_None in Hall. congruence.
  - cbn. repeat split; eauto.
    + intros; discriminate.
    + intros (d' & [= <-] & _ & _ & _ & Hfm').
      apply search_bodies_Some in Hfm'. congruence.
    + intros _. right. right. right. apply search_bodies_None. exact Hs.
Qed.

End Resolver.

Lemma resolve_body_ref_spec_witness :
  activeProduct (Host := Reference.host) (Some Reference.design1)
    = Some Reference.design1 /\
  (resolve_body_ref (H := Reference.runtime) (H0 := Reference.host)
     (JDict {[ "component" := JStr "Root"; "body" := JStr "Lid" ]})
     (Some Reference.design1)).2 = Some Reference.design1.
Proof.
  split; [reflexivity |].
  apply (resolve_body_ref_spec (H := Reference.runtime) (H0 := Reference.host)
           (JDict {[ "component" := JStr "Root"; "body" := JStr "Lid" ]})
           (Some Reference.design1) Reference.design1).
  reflexivity.
Defined.

(** Of two bodies called [Lid] the first in the collection is returned. *)
Example resolve_first_of_two :
  (resolve_body_ref (H := Reference.runtime) (H0 := Reference.host)
     (JDict {[ "component" := JStr "Root"; "body" := JStr "Lid" ]})
     (Some Reference.design1)).1
  = inr {| body_name := "Lid"; entityToken := "b1" |}.
Proof. reflexivity. Qed.

(** Without a design the resolver fails in the context, not in its own
    checks. *)
Example resolve_without_design :
  (resolve_body_ref (H := Reference.runtime) (H0 := Reference.host)
     (JDict {[ "component" := JStr "Root"; "body" := JStr "Lid" ]}) None).1
  = inl (FusionAPIError "No active design document" None).
Proof. reflexivity. Qed.

Section Validators.
Context `{Runtime}.

Lemma validate_non_negative_int_returns value field z :
  validate_non_negative_int value field = inr z <-> int value = IntOk z /\ 0 <= z.
Proof.
  unfold validate_non_negative_int.
  destruct (int value) as [num | | |]; try (split; [discriminate | intros [? _]; discriminate]).
  destruct (Z.ltb_spec num 0); split.
  - discriminate.
  - intros [[= ->] ?]. lia.
  - intros [= ->]. split; [reflexivity | lia].
  - intros [[= ->] _]. reflexivity.
Qed.

Lemma validate_non_negative_int_rejects value field :
  (exists m f, validate_non_negative_int value field = inl (ValidationError m f)) <->
  int value = IntTypeError \/ int value = IntValueError \/
  (exists z, int value = IntOk z /\ z < 0).
Proof.
  unfold validate_non_negative_int.
  destruct (int value) as [num | | |].
  - destruct (Z.ltb_spec num 0); split.
    + intros _. right. right. eauto.
    + intros _. eauto.
    + intros (? & ? & ?). discriminate.
    + intros [? | [? | (z & [= ->] & ?)]]; try discriminate. lia.
  - split; eauto.
  - split; eauto.
  - split.
    + intros (? & ? & ?). discriminate.
    + intros [? | [? | (z & ? & _)]]; discriminate.
Qed.

(** C10, at the input where it fails.  [int()] of an infinite float
    fails with [OverflowError], which the [except (TypeError,
    ValueError)] clause does not catch: the conversion has failed and
    no [ValidationError] is raised. *)
Theorem validate_non_negative_int_infinity (sign : bool) field :
  int (JFloat (S754_infinity sign)) = IntOverflowError /\
  validate_non_negative_int (JFloat (S754_infinity sign)) field
    = inl (PyException "OverflowError" "cannot convert float infinity to integer") /\
  ~ (exists m f, validate_non_negative_int (JFloat (S754_infinity sign)) field
                 = inl (ValidationError m f)).
Proof.
  split; [reflexivity |]. split; [reflexivity |].
  intros (m & f & Hv). discriminate Hv.
Qed.

(** The double nearest to 3.9 is [8782019273372467 * 2^-51] (mantissa [0x1f333333333333]); it is
    truncated to 3. *)
Example validate_non_negative_int_truncates field :
  validate_non_negative_int (JFloat (S754_finite false 8782019273372467 (-51))) field
    = inr 3.
Proof. reflexivity. Qed.

Example validate_non_negative_int_negative_fraction field :
  validate_non_negative_int (JFloat (S754_finite true 1 (-1))) field = inr 0.
Proof. reflexivity. Qed.

Example validate_non_negative_int_nan field :
  validate_non_negative_int (JFloat S754_nan) field
    = inl (ValidationError (field +:+ " must be a non-negative integer") None).
Proof. reflexivity. Qed.

End Validators.

End ServicesSpec.

(** ** handlers/parameters.py and handlers/sketches.py *)

Module ActionsSpec.
Import Py Errors Handlers Fusion Services Actions MonadFacts HandlersSpec.

Section Pure.
Context `{Runtime}.

Lemma contains_dict d key :
  contains (JDict d) key = inr (bool_decide (is_Some (d !! key))).
Proof. reflexivity. Qed.

(** On a dict, the fields that are not reported missing are present. *)
Lemma missing_fields_dict d required missing :
  missing_fields (JDict d) required = inr missing ->
  forall f, f ∈ required -> f ∈ missing \/ is_Some (d !! f).
Proof.
  revert missing. induction required as [| f0 rest IH]; intros missing Hm f Hf.
  - inversion Hf.
  - simpl in Hm.
    destruct (missing_fields (JDict d) rest) as [e | m'] eqn:Hrest; [discriminate |].
    injection Hm as <-.
    apply elem_of_cons in Hf as [-> | Hf].
    + destruct (bool_decide (is_Some (d !! f0))) eqn:Hp.
      * right. apply bool_decide_eq_true in Hp. exact Hp.
      * left. left.
    + destruct (IH m' eq_refl f Hf) as [Hin | Hs]; [| right; exact Hs].
      left. destruct (bool_decide _); [exact Hin | right; exact Hin].
Qed.

Lemma missing_fields_dict_total d required :
  exists missing, missing_fields (JDict d) required = inr missing.
Proof.
  induction required as [| f0 rest [m' IH]]; simpl; [eauto |].
  rewrite IH. eauto.
Qed.

Lemma validate_required_fields_dict d required :
  validation_only (validate_required_fields (JDict d) required) /\
  (validate_required_fields (JDict d) required = inr tt ->
   forall f, f ∈ required -> is_Some (d !! f)).
Proof.
  unfold validate_required_fields.
  destruct (missing_fields_dict_total d required) as [missing Hm]. rewrite Hm.
  destruct missing as [| f1 [| f2 rest]]; simpl; split; auto; try discriminate.
  intros _ f Hf.
  destruct (missing_fields_dict _ _ _ Hm f Hf) as [Hin | Hs]; [inversion Hin | exact Hs].
Qed.

Lemma getitem_present d key v :
  d !! key = Some v -> getitem (JDict d) key = inr v.
Proof. intros Hl. unfold getitem. rewrite Hl. reflexivity. Qed.

Lemma getitem_error container key e :
  getitem container key = inl e -> is_ValidationError e = false.
Proof.
  unfold getitem. destruct container; try (intros [= <-]; reflexivity).
  destruct (d !! key); [discriminate | intros [= <-]; reflexivity].
Qed.

Lemma validate_non_empty_string_str s field :
  validation_only (validate_non_empty_string (JStr s) field) /\
  forall r, validate_non_empty_string (JStr s) field = inr r -> r = strip s.
Proof.
  unfold validate_non_empty_string.
  destruct (bool_decide (strip s = "")); simpl; split; auto; congruence.
Qed.

Lemma validate_unit_validation_only v : validation_only (validate_unit v).
Proof.
  unfold validate_unit. destruct v as [| | | | u | |]; try reflexivity.
  destruct (str_in u ALLOWED_UNITS); [exact I | reflexivity].
Qed.

Lemma validate_plane_str p : validation_only (validate_plane (JStr p)).
Proof.
  unfold validate_plane.
  destruct (str_in (upper p) ALLOWED_PLANES); [exact I | reflexivity].
Qed.

Lemma check_parameter_names_collision name params :
  (exists p, p ∈ params /\ param_name p = name) ->
  check_parameter_names name params
    = inl (ValidationError ("Parameter '" +:+ name +:+ "' already exists") None).
Proof.
  intros (p & Hin & Hname).
  induction params as [| p0 rest IH]; [inversion Hin |]. simpl.
  destruct (String.eqb_spec (param_name p0) name) as [_ | Hne]; [reflexivity |].
  apply elem_of_cons in Hin as [-> | Hin]; [contradiction | auto].
Qed.

Lemma check_sketch_names_collision name sks :
  (exists s, s ∈ sks /\ sketch_name s = name) ->
  check_sketch_names name sks
    = inl (ValidationError ("Sketch '" +:+ name +:+ "' already exists") None).
Proof.
  intros (s & Hin & Hname).
  induction sks as [| s0 rest IH]; [inversion Hin |]. simpl.
  destruct (String.eqb_spec (sketch_name s0) name) as [_ | Hne]; [reflexivity |].
  apply elem_of_cons in Hin as [-> | Hin]; [contradiction | auto].
Qed.

End Pure.

Section Effects.
Context {W : Type} `{Host W}.

Lemma read_only_design : read_only (design (W := W)).
Proof. intros w. unfold design. destruct (activeProduct w); reflexivity. Qed.

Lemma read_only_root_component : read_only (root_component (W := W)).
Proof.
  apply read_only_bind; [apply read_only_design | intros; apply read_only_ret].
Qed.

Lemma nve_ret {A} (a : A) : no_validation_error (@ret W A a).
Proof. intros w e w' Hr. discriminate Hr. Qed.

Lemma nve_raise {A} (e : exn) :
  is_ValidationError e = false -> no_validation_error (@raise W A e).
Proof. intros He w e' w' [= <- _]. exact He. Qed.

Lemma nve_bind {A B} (m : M W A) (k : A -> M W B) :
  no_validation_error m -> (forall a, no_validation_error (k a)) ->
  no_validation_error (bind m k).
Proof.
  intros Hm Hk w e w' Hb.
  apply bind_raises in Hb as [Hb | (a & w1 & _ & Hb)].
  - exact (Hm _ _ _ Hb).
  - exact (Hk _ _ _ _ Hb).
Qed.

Lemma nve_getitem container key :
  no_validation_error (@lift W _ (getitem container key)).
Proof. intros w e w' [= Hg _]. eapply getitem_error, Hg. Qed.

Lemma nve_host_call {A} (f : W -> (string + A) * W) :
  no_validation_error (host_call f).
Proof.
  intros w e w'. unfold host_call.
  destruct (f w) as [[msg | a] w1]; [intros [= <- _]; reflexivity | discriminate].
Qed.

Lemma nve_design : no_validation_error (design (W := W)).
Proof.
  intros w e w'. unfold design.
  destruct (activeProduct w); [discriminate | intros [= <- _]; reflexivity].
Qed.

Lemma nve_root_component : no_validation_error (root_component (W := W)).
Proof. apply nve_bind; [apply nve_design | intros; apply nve_ret]. Qed.

End Effects.

Ltac read_only_tac :=
  repeat first
    [ apply read_only_ret | apply read_only_raise | apply read_only_lift
    | apply read_only_design | apply read_only_root_component
    | apply read_only_if
    | apply read_only_bind; [| intros ?] ].

Ltac nve_tac :=
  repeat first
    [ apply nve_ret | apply nve_getitem | apply nve_host_call
    | apply nve_design | apply nve_root_component
    | apply nve_raise; reflexivity
    | apply nve_bind; [| intros ?] ].

Section Create.
Context `{Runtime} {W : Type} `{Host W}.

Lemma create_parameter_validate_read_only args :
  read_only (create_parameter_validate (W := W) args).
Proof. unfold create_parameter_validate. read_only_tac. Qed.

Lemma create_sketch_validate_read_only args :
  read_only (create_sketch_validate (W := W) args).
Proof. unfold create_sketch_validate. read_only_tac. Qed.

Lemma create_parameter_execute_nve args :
  no_validation_error (create_parameter_execute (W := W) args).
Proof. unfold create_parameter_execute. nve_tac. Qed.

Lemma create_sketch_execute_nve args :
  no_validation_error (create_sketch_execute (W := W) args).
Proof.
  unfold create_sketch_execute. nve_tac.
  destruct (if eq_str _ "XY" then _ else _); nve_tac.
Qed.

(** An answer [E_BAD_ARGS] comes from [validate], which has not touched
    the host. *)
Lemma handle_bad_args_unchanged (h : BaseHandler W) :
  (forall args, read_only (validate h args)) ->
  (forall v, no_validation_error (execute h v)) ->
  forall args w e w',
    handle h args w = (inl e, w') -> code e = Some "E_BAD_ARGS" -> w' = w.
Proof.
  intros Hro Hnve args w e w' Hh Hc.
  apply handle_raises in Hh as (e0 & Hr & ->).
  destruct (translate_code e0) as [[_ Hv] | [Hc' _]]; [| congruence].
  destruct Hr as [Hval | (v & w1 & _ & Hex)].
  - specialize (Hro args w). rewrite Hval in Hro. exact Hro.
  - apply Hnve in Hex. congruence.
Qed.

Lemma design_active (w : W) dsg :
  activeProduct w = Some dsg -> design w = (inr dsg, w).
Proof. intros Ha. unfold design. rewrite Ha. reflexivity. Qed.

Lemma create_parameter_collision (w : W) dsg (d : gmap string json) raw :
  activeProduct w = Some dsg ->
  d !! "name" = Some (JStr raw) ->
  (exists p, p ∈ userParameters dsg /\ param_name p = strip raw) ->
  exists e, create_parameter_validate (JDict d) w = (inl e, w) /\
            is_ValidationError e = true.
Proof.
  intros Ha Hname Hcol. unfold create_parameter_validate, bind, lift.
  destruct (validate_required_fields_dict d ["name"; "expression"; "unit"])
    as [Hvo Hpresent].
  destruct (validate_required_fields _ _) as [e | []]; [eauto |].
  specialize (Hpresent eq_refl).
  rewrite (getitem_present _ _ _ Hname).
  destruct (validate_non_empty_string_str raw "name") as [Hvn Hstrip].
  destruct (validate_non_empty_string _ _) as [e | name]; [eauto |].
  rewrite (Hstrip name eq_refl).
  destruct (Hpresent "expression") as [ve Hve]; [apply list_elem_of_In; simpl; tauto |].
  destruct (Hpresent "unit") as [vu Hvu]; [apply list_elem_of_In; simpl; tauto |].
  rewrite (getitem_present _ _ _ Hve), (getitem_present _ _ _ Hvu).
  cbn [get_method].
  pose proof (validate_unit_validation_only vu) as Hu.
  destruct (validate_unit vu) as [e | []]; [eauto |].
  destruct (negb _ && negb _); [eexists; split; reflexivity |].
  cbn [ret]. rewrite (design_active _ _ Ha).
  unfold check_parameter_name_collision.
  rewrite (check_parameter_names_collision _ _ Hcol).
  eexists; split; reflexivity.
Qed.

Lemma create_sketch_collision (w : W) dsg (d : gmap string json) raw :
  activeProduct w = Some dsg ->
  d !! "name" = Some (JStr raw) ->
  (forall v, d !! "plane" = Some v -> isinstance_str v = true) ->
  (exists s, s ∈ sketches (rootComponent dsg) /\ sketch_name s = strip raw) ->
  exists e, create_sketch_validate (JDict d) w = (inl e, w) /\
            is_ValidationError e = true.
Proof.
  intros Ha Hname Hplane Hcol. unfold create_sketch_validate, bind, lift.
  destruct (validate_required_fields_dict d ["plane"; "name"]) as [Hvo Hpresent].
  destruct (validate_required_fields _ _) as [e | []]; [eauto |].
  specialize (Hpresent eq_refl).
  destruct (Hpresent "plane") as [vp Hvp]; [apply list_elem_of_In; simpl; tauto |].
  rewrite (getitem_present _ _ _ Hvp).
  specialize (Hplane vp Hvp). destruct vp as [| | | | p | |]; try discriminate.
  pose proof (validate_plane_str p) as Hp.
  destruct (validate_plane (JStr p)) as [e | plane]; [eauto |].
  rewrite (getitem_present _ _ _ Hname).
  destruct (validate_non_empty_string_str raw "name") as [Hvn Hstrip].
  destruct (validate_non_empty_string _ _) as [e | name]; [eauto |].
  rewrite (Hstrip name eq_refl).
  unfold root_component, bind. rewrite (design_active _ _ Ha). cbn [ret].
  unfold check_sketch_name_collision.
  rewrite (check_sketch_names_collision _ _ Hcol).
  eexists; split; reflexivity.
Qed.

(** The collision checks on requests whose plane is a string.  With a
    design open and a string as requested name: [create_parameter]
    raises a [ValidationError], code [E_BAD_ARGS], when a user parameter
    has the (stripped) name, and so does [create_sketch] when a sketch of
    the root component has it and the ["plane"] argument, if given, is a
    string; both leave the host as it was.  For every request,
    [validate] only reads the host, and an answer [E_BAD_ARGS] of either
    action leaves the host unchanged. *)
Theorem name_collision_rejected (w : W) dsg (d : gmap string json) raw :
  activeProduct w = Some dsg ->
  d !! "name" = Some (JStr raw) ->
  ((exists p, p ∈ userParameters dsg /\ param_name p = strip raw) ->
   exists e, handle CreateParameterHandler (JDict d) w = (inl e, w) /\
             is_ValidationError e = true /\ code e = Some "E_BAD_ARGS") /\
  ((exists s, s ∈ sketches (rootComponent dsg) /\ sketch_name s = strip raw) ->
   (forall v, d !! "plane" = Some v -> isinstance_str v = true) ->
   exists e, handle CreateSketchHandler (JDict d) w = (inl e, w) /\
             is_ValidationError e = true /\ code e = Some "E_BAD_ARGS") /\
  (forall h : BaseHandler W,
     h = CreateParameterHandler \/ h = CreateSketchHandler ->
     (forall args, read_only (validate h args)) /\
     (forall args w0 e w',
        handle h args w0 = (inl e, w') -> code e = Some "E_BAD_ARGS" -> w' = w0)).
Proof.
  intros Ha Hname.
  assert (Hprop : forall (h : BaseHandler W) e,
            validate h (JDict d) w = (inl e, w) -> is_ValidationError e = true ->
            handle h (JDict d) w = (inl e, w) /\
            is_ValidationError e = true /\ code e = Some "E_BAD_ARGS").
  { intros h e Hv He.
    rewrite (handle_translates h (JDict d) w e w (or_introl Hv)).
    unfold translate. rewrite He. destruct e; try discriminate. auto. }
  split; [| split].
  - intros Hcol.
    destruct (create_parameter_collision w dsg d raw Ha Hname Hcol) as (e & Hv & He).
    exists e. apply (Hprop CreateParameterHandler); assumption.
  - intros Hcol Hplane.
    destruct (create_sketch_collision w dsg d raw Ha Hname Hplane Hcol) as (e & Hv & He).
    exists e. apply (Hprop CreateSketchHandler); assumption.
  - intros h [-> | ->]; split.
    + apply create_parameter_validate_read_only.
    + apply handle_bad_args_unchanged.
      * apply create_parameter_validate_read_only.
      * apply create_parameter_execute_nve.
    + apply create_sketch_validate_read_only.
    + apply handle_bad_args_unchanged.
      * apply create_sketch_validate_read_only.
      * apply create_sketch_execute_nve.
Qed.

(** C9, at the input where it fails.  [validate_plane] calls [upper] on
    the plane without testing its type, and it runs before the collision
    check.  So [create_sketch] asked for a plane that is not a string
    (a number, [null], a list) raises [AttributeError], which [handle]
    reports as [E_RUNTIME]: no [ValidationError] is raised, whatever
    sketches the root component has, one of the requested name
    included.  The host is left as it was.  The sibling [validate_unit]
    tests the type and raises the [ValidationError] for the same
    value. *)
Theorem create_sketch_plane_not_str (w : W) (d : gmap string json) v :
  d !! "plane" = Some v ->
  isinstance_str v = false ->
  is_Some (d !! "name") ->
  let e := FusionAPIError
             ("Operation failed: '" +:+ type_name v +:+
              "' object has no attribute 'upper'") None in
  handle CreateSketchHandler (JDict d) w = (inl e, w) /\
  code e = Some "E_RUNTIME" /\
  is_ValidationError e = false /\
  exists m, validate_unit v = inl (ValidationError m None).
Proof.
  intros Hplane Hv Hname e.
  assert (Hraise : create_sketch_validate (JDict d) w
                   = (inl (PyException "AttributeError"
                             ("'" +:+ type_name v +:+
                              "' object has no attribute 'upper'")), w)).
  { unfold create_sketch_validate, bind, lift.
    replace (validate_required_fields (JDict d) ["plane"; "name"]) with
      (inr tt : exn + unit).
    - rewrite (getitem_present _ _ _ Hplane).
      destruct v; try discriminate; reflexivity.
    - destruct Hname as [n Hn]. unfold validate_required_fields.
      cbn [missing_fields contains]. rewrite Hplane, Hn. reflexivity. }
  split; [| split; [reflexivity | split; [reflexivity |]]].
  - rewrite (handle_translates CreateSketchHandler (JDict d) w _ w (or_introl Hraise)).
    reflexivity.
  - destruct v; try discriminate; eexists; reflexivity.
Qed.

End Create.

Lemma name_collision_rejected_witness :
  let d : gmap string json :=
    {[ "name" := JStr "width"; "expression" := JStr "12"; "unit" := JStr "mm" ]} in
  activeProduct (Host := Reference.host) (Some Reference.design1)
    = Some Reference.design1 /\
  d !! "name" = Some (JStr "width") /\
  (exists p, p ∈ userParameters Reference.design1 /\ param_name p = "width") /\
  exists e,
    handle (CreateParameterHandler (H := Reference.runtime) (H0 := Reference.host))
      (JDict d) (Some Reference.design1) = (inl e, Some Reference.design1) /\
    is_ValidationError e = true /\ code e = Some "E_BAD_ARGS".
Proof.
  intros d.
  assert (Hcol : exists p, p ∈ userParameters Reference.design1 /\
                           param_name p = "width").
  { eexists. split; [left | reflexivity]. }
  split; [reflexivity |]. split; [reflexivity |]. split; [exact Hcol |].
  destruct (name_collision_rejected (H := Reference.runtime) (H0 := Reference.host)
              (Some Reference.design1) Reference.design1 d "width")
    as (Hparam & _ & _); [reflexivity | reflexivity |].
  exact (Hparam Hcol).
Defined.

(** The collision errors themselves, on the reference design. *)
Example create_parameter_existing_name :
  handle (CreateParameterHandler (H := Reference.runtime) (H0 := Reference.host))
    (JDict {[ "name" := JStr "width"; "expression" := JStr "12";
              "unit" := JStr "mm" ]})
    (Some Reference.design1)
  = (inl (ValidationError "Parameter 'width' already exists" None),
     Some Reference.design1).
Proof. reflexivity. Qed.

Example create_sketch_existing_name :
  handle (CreateSketchHandler (H := Reference.runtime) (H0 := Reference.host))
    (JDict {[ "plane" := JStr "XY"; "name" := JStr "Sketch1" ]})
    (Some Reference.design1)
  = (inl (ValidationError "Sketch 'Sketch1' already exists" None),
     Some Reference.design1).
Proof. reflexivity. Qed.

Lemma create_sketch_plane_not_str_witness :
  let d : gmap string json := {[ "plane" := JInt 5; "name" := JStr "Sketch1" ]} in
  d !! "plane" = Some (JInt 5) /\
  isinstance_str (JInt 5) = false /\
  is_Some (d !! "name") /\
  (exists s, s ∈ sketches (rootComponent Reference.design1) /\
             sketch_name s = "Sketch1") /\
  handle (CreateSketchHandler (H := Reference.runtime) (H0 := Reference.host))
    (JDict d) (Some Reference.design1)
  = (inl (FusionAPIError
            "Operation failed: 'int' object has no attribute 'upper'" None),
     Some Reference.design1).
Proof.
  intros d.
  assert (Hname : is_Some (d !! "name")) by (eexists; reflexivity).
  split; [reflexivity |]. split; [reflexivity |]. split; [exact Hname |].
  split; [eexists; split; [left | reflexivity] |].
  apply (create_sketch_plane_not_str (H := Reference.runtime) (H0 := Reference.host)
           (Some Reference.design1) d (JInt 5) eq_refl eq_refl Hname).
Defined.

(** With a unit that is not a string [create_parameter] answers with a
    [ValidationError]: [validate_unit] tests the type. *)
Example create_parameter_unit_not_str :
  handle (CreateParameterHandler (H := Reference.runtime) (H0 := Reference.host))
    (JDict {[ "name" := JStr "width"; "expression" := JStr "12";
              "unit" := JBool true ]})
    (Some Reference.design1)
  = (inl (ValidationError "Invalid unit type: <class 'bool'>" None),
     Some Reference.design1).
Proof. reflexivity. Qed.

(** The part of the unchanged-state property that is the host's to keep:
    [create_sketch] adds the sketch and names it in a second call, so with
    a host that refuses the name the action returns an error ([E_RUNTIME])
    and the document has one sketch more. *)
Example create_sketch_refused_name :
  let r := handle (CreateSketchHandler (H := Reference.runtime)
                     (H0 := Reference.refusing_host))
             (JDict {[ "plane" := JStr "XY"; "name" := JStr "Top" ]})
             (Some Reference.design1) in
  r.1 = inl (FusionAPIError "Operation failed: invalid name" None) /\
  (length <$> (sketches <$> (rootComponent <$> r.2))) = Some 2%nat.
Proof. split; reflexivity. Qed.

(** A new name goes through: the parameter is added. *)
Example create_parameter_new_name :
  (handle (CreateParameterHandler (H := Reference.runtime) (H0 := Reference.host))
     (JDict {[ "name" := JStr "height"; "expression" := JStr "12";
               "unit" := JStr "mm" ]})
     (Some Reference.design1)).1
  = inr (JDict {[ "name" := JStr "height"; "expression" := JStr "12";
                  "unit" := JStr "mm" ]}).
Proof. reflexivity. Qed.

End ActionsSpec.

(** ** The MCP tool table against the registry *)

Module TablesSpec.
Import Py Errors Handlers Router Registrations.

Lemma str_in_elem_of s l : Services.str_in s l = true <-> s ∈ l.
Proof.
  unfold Services.str_in. rewrite existsb_exists. split.
  - intros (x & Hin & Heq). apply String.eqb_eq in Heq as ->.
    apply list_elem_of_In. exact Hin.
  - intros Hin. exists s. split; [apply list_elem_of_In, Hin | apply String.eqb_refl].
Qed.

(** Inclusion of two lists of names, checked by running through them. *)
Lemma included_by_check (l1 l2 : list string) :
  forallb (fun x => Services.str_in x l2) l1 = true ->
  forall x, x ∈ l1 -> x ∈ l2.
Proof.
  intros Hall x Hin. rewrite forallb_forall in Hall.
  apply str_in_elem_of, Hall, list_elem_of_In, Hin.
Qed.

Section Registry.
Context {W : Type}.
Variable instantiate : HandlerClass -> BaseHandler W.

(** The keys after a run of [register] calls: those registered and
    those that were there. *)
Lemma fold_register_lookup (regs : list (string * HandlerClass))
    (self : gmap string (BaseHandler W)) name :
  is_Some (fold_left (fun self r => register r.1 (instantiate r.2) self) regs self
             !! name)
  <-> name ∈ regs.*1 \/ is_Some (self !! name).
Proof.
  revert self. induction regs as [| [a c] rest IH]; intros self; simpl.
  - split; [auto | intros [Hin | Hs]; [inversion Hin | exact Hs]].
  - rewrite IH. unfold register. simpl.
    destruct (decide (a = name)) as [-> | Hne].
    + rewrite lookup_insert_eq. split; intros _; [left; left | right; eauto].
    + rewrite lookup_insert_ne by exact Hne. split.
      * intros [Hin | Hs]; [left; right; exact Hin | right; exact Hs].
      * intros [Hin | Hs]; [| right; exact Hs].
        apply elem_of_cons in Hin as [-> | Hin]; [contradiction | left; exact Hin].
Qed.

Lemma registered_actions name :
  is_Some (_initialize_handlers instantiate !! name) <-> name ∈ registrations.*1.
Proof.
  unfold _initialize_handlers. rewrite fold_register_lookup.
  split; [intros [Hin | [h Hh]]; [exact Hin | rewrite lookup_empty in Hh; discriminate]
         | auto].
Qed.

Lemma dispatch_known name :
  is_Some (MCP.dispatch name) <-> name ∈ MCP._TOOL_HANDLERS.*1.
Proof.
  unfold MCP.dispatch. split.
  - intros [a Ha]. apply elem_of_list_to_map_2 in Ha.
    apply list_elem_of_fmap. exists (name, a). split; [reflexivity | exact Ha].
  - intros Hin. destruct (list_to_map MCP._TOOL_HANDLERS !! name) eqn:Hl; [eauto |].
    apply not_elem_of_list_to_map in Hl. contradiction.
Qed.

(** C7.  A name is a tool of [list_tools] exactly when it is a key of
    the server's dispatch table, and exactly when the add-in's
    registry has a handler for it; the function the dispatch table
    binds to a tool forwards to the bridge action of the same name. *)
Theorem mcp_tools_are_registered_actions (name : string) :
  (name ∈ MCP.list_tools <-> is_Some (_initialize_handlers instantiate !! name)) /\
  (is_Some (MCP.dispatch name) <-> is_Some (_initialize_handlers instantiate !! name)) /\
  (forall action, MCP.dispatch name = Some action ->
     action = name /\ is_Some (_initialize_handlers instantiate !! action)).
Proof.
  assert (Htools : name ∈ MCP.list_tools <-> name ∈ registrations.*1).
  { split; apply included_by_check; vm_compute; reflexivity. }
  assert (Htable : name ∈ MCP._TOOL_HANDLERS.*1 <-> name ∈ registrations.*1).
  { split; apply included_by_check; vm_compute; reflexivity. }
  split; [| split].
  - rewrite registered_actions. exact Htools.
  - rewrite registered_actions, dispatch_known. exact Htable.
  - intros action Hd.
    assert (Hreg : is_Some (_initialize_handlers instantiate !! name)).
    { apply registered_actions, Htable, dispatch_known. eauto. }
    assert (action = name) as ->; [| split; [reflexivity | exact Hreg]].
    unfold MCP.dispatch in Hd. apply elem_of_list_to_map_2 in Hd.
    assert (Hsame : Forall (fun p : string * string => p.2 = p.1) MCP._TOOL_HANDLERS)
      by (repeat constructor).
    rewrite Forall_forall in Hsame. apply (Hsame _ Hd).
Qed.

(** There are 26 of them. *)
Example registry_size : length registrations = 26%nat /\ length MCP.list_tools = 26%nat.
Proof. split; reflexivity. Qed.

End Registry.

End TablesSpec.

(** ** services/validators.py: the validators one by one *)

Module ValidatorsSpec.
Import Py Errors Fusion Services Validators.

Lemma str_in_iff s l : str_in s l = true <-> s ∈ l.
Proof.
  unfold str_in. rewrite existsb_exists. split.
  - intros (x & Hin & Heq). apply String.eqb_eq in Heq as ->.
    apply list_elem_of_In. exact Hin.
  - intros Hin. exists s. split; [apply list_elem_of_In, Hin | apply String.eqb_refl].
Qed.

Lemma in_list_iff v l : in_list v l = true <-> exists s, v = JStr s /\ s ∈ l.
Proof.
  unfold in_list. rewrite existsb_exists. split.
  - intros (x & Hin & Heq). destruct v; try discriminate.
    apply bool_decide_eq_true in Heq as ->. exists x. split; [reflexivity |].
    apply list_elem_of_In. exact Hin.
  - intros (s & -> & Hin). exists s. split; [apply list_elem_of_In, Hin |].
    apply bool_decide_eq_true. reflexivity.
Qed.

Section Fields.
Context `{Runtime}.

(** The fields of [required] that are not keys of [d], in the order of
    [required]. *)
Lemma missing_fields_filter (d : gmap string json) required :
  missing_fields (JDict d) required
  = inr (List.filter (fun f => negb (bool_decide (is_Some (d !! f)))) required).
Proof.
  induction required as [| f rest IH]; [reflexivity |].
  cbn [missing_fields List.filter contains]. rewrite IH.
  destruct (bool_decide (is_Some (d !! f))); reflexivity.
Qed.

Lemma filter_nil_iff {A} (p : A -> bool) (l : list A) :
  List.filter p l = [] <-> forall x, x ∈ l -> p x = false.
Proof.
  induction l as [| a l IH]; simpl.
  - split; [intros _ x Hx; inversion Hx | reflexivity].
  - destruct (p a) eqn:Hp; split.
    + discriminate.
    + intros Hall. rewrite (Hall a) in Hp by left. discriminate.
    + intros Hf x Hx. apply elem_of_cons in Hx as [-> | Hx]; [exact Hp |].
      apply IH; assumption.
    + intros Hall. apply IH. intros x Hx. apply Hall. right. exact Hx.
Qed.

(** X1.  On a dict, [validate_required_fields] passes exactly when every
    required field is a key (whatever its value, [None] included); when
    it does not, it raises a [ValidationError] that names the absent
    fields in the order of [required], with the singular wording for one
    field and the plural for several. *)
Theorem validate_required_fields_spec (d : gmap string json) required :
  let missing := List.filter (fun f => negb (bool_decide (is_Some (d !! f)))) required in
  (validate_required_fields (JDict d) required = inr tt <->
   forall f, f ∈ required -> is_Some (d !! f)) /\
  (forall f, missing = [f] ->
     validate_required_fields (JDict d) required
     = inl (ValidationError ("Missing required field: " +:+ f) None)) /\
  (forall f g rest, missing = f :: g :: rest ->
     validate_required_fields (JDict d) required
     = inl (ValidationError ("Missing required fields: " +:+ join ", " missing) None)).
Proof.
  intros missing. unfold validate_required_fields.
  rewrite missing_fields_filter. fold missing.
  assert (Hnil : missing = [] <-> forall f, f ∈ required -> is_Some (d !! f)).
  { unfold missing. rewrite filter_nil_iff. split; intros Hall f Hf.
    - specialize (Hall f Hf). apply negb_false_iff, bool_decide_eq_true in Hall. exact Hall.
    - apply negb_false_iff, bool_decide_eq_true. auto. }
  split; [| split].
  - rewrite <- Hnil. destruct missing as [| f [| g rest]]; split; try discriminate; auto.
  - intros f ->. reflexivity.
  - intros f g rest ->. reflexivity.
Qed.

(** X2.  [validate_unit] raises nothing but a [ValidationError], whatever
    the type of its argument, and accepts exactly the strings of
    [ALLOWED_UNITS]; the empty string is one of them. *)
Theorem validate_unit_spec (v : json) :
  (validate_unit v = inr tt <-> exists u, v = JStr u /\ u ∈ ALLOWED_UNITS) /\
  (validate_unit v = inr tt \/ exists m, validate_unit v = inl (ValidationError m None)) /\
  validate_unit (JStr "") = inr tt.
Proof.
  split; [| split; [| reflexivity]].
  - unfold validate_unit. destruct v as [| | | | u | |];
      try (split; [discriminate | intros (? & ? & _); discriminate]).
    destruct (str_in u ALLOWED_UNITS) eqn:Hin.
    + split; [| reflexivity]. intros _. exists u. split; [reflexivity |].
      apply str_in_iff, Hin.
    + split; [discriminate |]. intros (u' & [= <-] & Hu).
      apply str_in_iff in Hu. congruence.
  - unfold validate_unit. destruct v as [| | | | u | |]; try (right; eauto; fail).
    destruct (str_in u ALLOWED_UNITS); [left; reflexivity | right; eauto].
Qed.

(** X3.  [validate_plane] returns the upper-cased name of a string whose
    upper case is [XY], [YZ] or [XZ], and raises a [ValidationError] for
    any other string; for a value that is not a string it raises
    [AttributeError], not a [ValidationError]. *)
Theorem validate_plane_spec (v : json) :
  (forall p, validate_plane v = inr p <->
             exists s, v = JStr s /\ p = upper s /\ p ∈ ALLOWED_PLANES) /\
  (forall s, v = JStr s -> upper s ∉ ALLOWED_PLANES ->
             exists m, validate_plane v = inl (ValidationError m None)) /\
  (isinstance_str v = false ->
   validate_plane v
   = inl (PyException "AttributeError"
            ("'" +:+ type_name v +:+ "' object has no attribute 'upper'"))).
Proof.
  split; [| split].
  - intros p. unfold validate_plane. destruct v as [| | | | s | |];
      try (split; [discriminate | intros (? & ? & _); discriminate]).
    destruct (str_in (upper s) ALLOWED_PLANES) eqn:Hin.
    + split.
      * intros [= <-]. exists s. repeat split. apply str_in_iff, Hin.
      * intros (s' & [= <-] & -> & _). reflexivity.
    + split; [discriminate |]. intros (s' & [= <-] & -> & Hp).
      apply str_in_iff in Hp. congruence.
  - intros s -> Hn. unfold validate_plane.
    destruct (str_in (upper s) ALLOWED_PLANES) eqn:Hin; [| eauto].
    apply str_in_iff in Hin. contradiction.
  - destruct v; try discriminate; reflexivity.
Qed.

(** X4.  [validate_non_empty_string] returns the stripped text of a string
    that is not empty once stripped, so what it returns is never empty;
    anything else, a string of white space included, is a
    [ValidationError]. *)
Theorem validate_non_empty_string_spec (v : json) field :
  (forall r, validate_non_empty_string v field = inr r <->
             exists s, v = JStr s /\ r = strip s /\ r <> "") /\
  (validate_non_empty_string v field
   = inl (ValidationError (field +:+ " must be a non-empty string") None) \/
   exists r, validate_non_empty_string v field = inr r /\ r <> "").
Proof.
  unfold validate_non_empty_string. split.
  - intros r. destruct v as [| | | | s | |];
      try (split; [discriminate | intros (? & ? & _); discriminate]).
    destruct (bool_decide (strip s = "")) eqn:He.
    + apply bool_decide_eq_true in He. split; [discriminate |].
      intros (s' & [= <-] & -> & Hne). contradiction.
    + apply bool_decide_eq_false in He. split.
      * intros [= <-]. eauto.
      * intros (s' & [= <-] & -> & _). reflexivity.
  - destruct v as [| | | | s | |]; auto.
    destruct (bool_decide (strip s = "")) eqn:He; [auto |].
    apply bool_decide_eq_false in He. right. eauto.
Qed.

(** X5.  The two collision checks pass exactly when no user parameter,
    respectively no sketch of the component, has the name; otherwise they
    raise the [ValidationError] that says the name already exists.  The
    comparison is exact: case and surrounding blanks count. *)
Theorem name_collision_checks (name : string) (design : Design) (root : Component) :
  (check_parameter_name_collision name design = inr tt <->
   forall p, p ∈ userParameters design -> param_name p <> name) /\
  ((exists p, p ∈ userParameters design /\ param_name p = name) ->
   check_parameter_name_collision name design
   = inl (ValidationError ("Parameter '" +:+ name +:+ "' already exists") None)) /\
  (check_sketch_name_collision name root = inr tt <->
   forall s, s ∈ sketches root -> sketch_name s <> name) /\
  ((exists s, s ∈ sketches root /\ sketch_name s = name) ->
   check_sketch_name_collision name root
   = inl (ValidationError ("Sketch '" +:+ name +:+ "' already exists") None)).
Proof.
  unfold check_parameter_name_collision, check_sketch_name_collision.
  split; [| split; [| split]].
  - induction (userParameters design) as [| p0 rest IH]; simpl.
    + split; [intros _ p Hp; inversion Hp | reflexivity].
    + destruct (String.eqb_spec (param_name p0) name) as [Heq | Hne].
      * split; [discriminate |]. intros Hall. exfalso. apply (Hall p0); [left | exact Heq].
      * rewrite IH. split.
        -- intros Hall p Hp. apply elem_of_cons in Hp as [-> | Hp]; auto.
        -- intros Hall p Hp. apply Hall. right. exact Hp.
  - apply ActionsSpec.check_parameter_names_collision.
  - induction (sketches root) as [| s0 rest IH]; simpl.
    + split; [intros _ s Hs; inversion Hs | reflexivity].
    + destruct (String.eqb_spec (sketch_name s0) name) as [Heq | Hne].
      * split; [discriminate |]. intros Hall. exfalso. apply (Hall s0); [left | exact Heq].
      * rewrite IH. split.
        -- intros Hall s Hs. apply elem_of_cons in Hs as [-> | Hs]; auto.
        -- intros Hall s Hs. apply Hall. right. exact Hs.
  - apply ActionsSpec.check_sketch_names_collision.
Qed.

End Fields.

(** X6.  The four allow-list validators accept exactly the strings of
    their list and raise a [ValidationError] for every other value, of
    whatever type. *)
Theorem allowlist_validators (v : json) :
  (validate_operation v = inr tt <-> exists s, v = JStr s /\ s ∈ ALLOWED_OPERATIONS) /\
  (validate_direction v = inr tt <-> exists s, v = JStr s /\ s ∈ ALLOWED_DIRECTIONS) /\
  (validate_orientation v = inr tt <->
   exists s, v = JStr s /\ s ∈ ALLOWED_ORIENTATIONS) /\
  (validate_constraint_type v = inr tt <->
   exists s, v = JStr s /\ s ∈ ALLOWED_CONSTRAINT_TYPES) /\
  (forall r, r ∈ [validate_operation v; validate_direction v;
                  validate_orientation v; validate_constraint_type v] ->
             validation_only r).
Proof.
  unfold validate_operation, validate_direction, validate_orientation,
    validate_constraint_type.
  repeat split;
    try (intros Hv; apply in_list_iff;
         match goal with
         | Hv : (if ?b then _ else _) = _ |- _ => destruct b; [reflexivity | discriminate]
         end);
    try (intros Hv; apply in_list_iff in Hv; rewrite Hv; reflexivity).
  intros r Hr. apply list_elem_of_In in Hr. simpl in Hr.
  destruct Hr as [<- | [<- | [<- | [<- | []]]]];
    match goal with |- validation_only (if ?b then _ else _) => destruct b end;
    simpl; auto.
Qed.

Section Numbers.
Context `{FloatRuntime}.

(** X7.  On a float, [validate_positive_number] rejects exactly the values
    that compare [<= 0]: the zeros, the negative numbers and minus
    infinity.  A NaN compares false with everything, so NaN is returned
    as a positive number, and so is plus infinity. *)
Theorem validate_positive_number_float (f : spec_float) field :
  (validate_positive_number (JFloat f) field = inr f <-> le_zero f = false) /\
  (le_zero f = true ->
   validate_positive_number (JFloat f) field
   = inl (ValidationError (field +:+ " must be a positive number") None)) /\
  (le_zero f = true <->
   match f with
   | S754_zero _ => True
   | S754_infinity s | S754_finite s _ _ => s = true
   | S754_nan => False
   end) /\
  validate_positive_number (JFloat S754_nan) field = inr S754_nan /\
  validate_positive_number (JFloat (S754_infinity false)) field
  = inr (S754_infinity false).
Proof.
  unfold validate_positive_number. cbn [float].
  split; [| split; [| split; [| split; reflexivity]]].
  - destruct (le_zero f); split; congruence.
  - intros ->. reflexivity.
  - destruct f as [s | s | | s m e]; try destruct s; cbn; split; auto; discriminate.
Qed.

(** X20.  The two float validators return what [float] made of the value:
    [validate_angle] any float, [validate_positive_number] one that does
    not compare [<= 0].  JSON booleans are numbers for [float], so [true]
    is the angle [1.0].  What they raise is a [ValidationError], with one
    exception: an integer too large for a double makes [float] raise
    [OverflowError], which neither [except] clause catches. *)
Theorem float_validators_spec (v : json) field :
  (forall f, validate_angle v field = inr f <-> float v = FloatOk f) /\
  (forall f, validate_positive_number v field = inr f <->
             float v = FloatOk f /\ le_zero f = false) /\
  ((exists z, v = JInt z /\ float_of_int z = None) <->
   validate_angle v field
   = inl (PyException "OverflowError" "int too large to convert to float")) /\
  ((exists z, v = JInt z /\ float_of_int z = None) <->
   validate_positive_number v field
   = inl (PyException "OverflowError" "int too large to convert to float")) /\
  ((forall z, v = JInt z -> float_of_int z <> None) ->
   validation_only (validate_angle v field) /\
   validation_only (validate_positive_number v field)) /\
  validate_angle (JBool true) field = inr one.
Proof.
  unfold validate_angle, validate_positive_number.
  assert (Hov : (exists z, v = JInt z /\ float_of_int z = None)
                <-> float v = FloatOverflowError).
  { destruct v as [| b | z | f | s | l | d]; cbn [float];
      try (split; [intros (? & ? & _); discriminate | discriminate]).
    - destruct (float_of_int z) eqn:Hz; split; try discriminate.
      + intros (z' & [= <-] & Hn). congruence.
      + intros (z' & [= <-] & Hn). reflexivity.
      + intros _. eauto.
    - destruct (float_of_str s); split;
        try (intros (? & ? & _); discriminate); discriminate. }
  split; [| split; [| split; [| split; [| split; [| reflexivity]]]]].
  - intros f. destruct (float v); split; congruence.
  - intros f. destruct (float v) as [g | | |]; try (split; [discriminate | intros [? _]; discriminate]).
    destruct (le_zero g) eqn:Hg; split.
    + discriminate.
    + intros [[= ->] Hf]. congruence.
    + intros [= ->]. auto.
    + intros [[= ->] _]. reflexivity.
  - rewrite Hov. destruct (float v); split; congruence.
  - rewrite Hov. destruct (float v) as [g | | |]; try (split; congruence).
    destruct (le_zero g); split; discriminate.
  - intros Hz.
    assert (Hno : float v <> FloatOverflowError).
    { intros Hf. apply Hov in Hf as (z & -> & Hn). exact (Hz z eq_refl Hn). }
    destruct (float v) as [g | | |]; try destruct (le_zero g);
      cbn; auto; contradiction.
Qed.

End Numbers.

End ValidatorsSpec.

(** ** services/entity_resolver.py: sketches, faces and edges *)

Module ResolverSpec.
Import Py Errors Fusion Services Resolver MonadFacts.

Section Resolve.
Context `{Runtime} {W : Type} `{Host W}.
Context {Face Edge : Type}.
Variable faces : W -> BRepBody -> list Face.
Variable edges : W -> BRepBody -> list Edge.

Lemma search_sketches_Some v sks s :
  search_sketches v sks = Some s <-> first_sketch v sks s.
Proof.
  induction sks as [| s0 rest IH]; simpl.
  - split; [discriminate |]. intros (i & Hi & _). destruct i; discriminate.
  - destruct (eq_str v (sketch_name s0)) eqn:Hs0.
    + split.
      * intros [= <-]. exists 0%nat. repeat split; auto. intros j s' Hj. lia.
      * intros (i & Hi & Hname & Hfirst). destruct i as [| i].
        -- simpl in Hi. congruence.
        -- specialize (Hfirst 0%nat s0 ltac:(lia) eq_refl). congruence.
    + rewrite IH. split.
      * intros (i & Hi & Hname & Hfirst). exists (S i). repeat split; auto.
        intros [| j] s' Hj Hl; simpl in Hl.
        -- congruence.
        -- apply (Hfirst j); [lia | exact Hl].
      * intros (i & Hi & Hname & Hfirst). destruct i as [| i].
        -- simpl in Hi. congruence.
        -- exists i. repeat split; auto.
           intros j s' Hj Hl. apply (Hfirst (S j)); [lia | exact Hl].
Qed.

Lemma search_sketches_None v sks :
  search_sketches v sks = None <->
  forall s, s ∈ sks -> eq_str v (sketch_name s) = false.
Proof.
  induction sks as [| s0 rest IH]; simpl.
  - split; [| reflexivity]. intros _ s Hs. inversion Hs.
  - destruct (eq_str v (sketch_name s0)) eqn:Hs0.
    + split; [discriminate |]. intros Hall.
      rewrite (Hall s0) in Hs0; [discriminate | left].
    + rewrite IH. split.
      * intros Hall s Hs. apply elem_of_cons in Hs as [-> | Hs]; auto.
      * intros Hall s Hs. apply Hall. right. exact Hs.
Qed.

(** X8.  With a design open, [resolve_sketch] returns the first sketch of
    the root component whose name equals the argument and raises a
    [ValidationError] exactly when there is none (in particular for an
    argument that is not a string); it only reads the host.  Without a
    design it raises the [FusionAPIError] of the context. *)
Theorem resolve_sketch_spec (name : json) (w : W) :
  (resolve_sketch name w).2 = w /\
  (forall dsg, activeProduct w = Some dsg ->
     (forall s, (resolve_sketch name w).1 = inr s <->
                first_sketch name (sketches (rootComponent dsg)) s) /\
     ((resolve_sketch name w).1
      = inl (ValidationError ("Sketch '" +:+ str name +:+ "' not found") None) <->
      forall s, s ∈ sketches (rootComponent dsg) ->
                eq_str name (sketch_name s) = false) /\
     (isinstance_str name = false ->
      (resolve_sketch name w).1
      = inl (ValidationError ("Sketch '" +:+ str name +:+ "' not found") None))) /\
  (activeProduct w = None ->
   (resolve_sketch name w).1 = inl (FusionAPIError "No active design document" None)).
Proof.
  unfold resolve_sketch, root_component, design, bind, ret, raise.
  destruct (activeProduct w) as [d |] eqn:Ha.
  - destruct (search_sketches name (sketches (rootComponent d))) as [s0 |] eqn:Hs.
    + split; [reflexivity |]. split; [| discriminate].
      intros dsg [= <-]. cbn [fst].
      apply search_sketches_Some in Hs as Hf. split; [| split].
      * intros s. split.
        -- intros [= <-]. exact Hf.
        -- intros Hf'. apply search_sketches_Some in Hf'. congruence.
      * split; [discriminate |]. intros Hall.
        apply search_sketches_None in Hall. congruence.
      * intros Hn. destruct Hf as (i & _ & Heq & _).
        destruct name; discriminate.
    + split; [reflexivity |]. split; [| discriminate].
      intros dsg [= <-]. cbn [fst]. split; [| split].
      * intros s. split; [discriminate |].
        intros Hf'. apply search_sketches_Some in Hf'. congruence.
      * split; [| reflexivity]. intros _. apply search_sketches_None, Hs.
      * reflexivity.
  - split; [reflexivity |]. split; [discriminate | reflexivity].
Qed.

Lemma item_at_inr {A} what index (items : list A) x :
  item_at what index items = inr x <->
  exists idx, int index = IntOk idx /\ 0 <= idx /\ items !! Z.to_nat idx = Some x.
Proof.
  unfold item_at. destruct (int index) as [idx | | |];
    try (split; [discriminate | intros (? & ? & _); discriminate]).
  destruct (Z.ltb_spec idx 0); cbn [orb].
  - split; [discriminate |]. intros (? & [= <-] & ? & _). lia.
  - destruct (Z.leb_spec (Z.of_nat (length items)) idx).
    + split; [discriminate |]. intros (? & [= <-] & _ & Hl).
      apply lookup_lt_Some in Hl. lia.
    + destruct (items !! Z.to_nat idx) as [y |] eqn:Hl.
      * split.
        -- intros [= <-]. eauto.
        -- intros (? & [= <-] & _ & Hl'). congruence.
      * apply lookup_ge_None in Hl. lia.
Qed.

Lemma item_at_out_of_range {A} what index (items : list A) idx :
  int index = IntOk idx ->
  idx < 0 \/ Z.of_nat (length items) <= idx ->
  item_at what index items
  = inl (ValidationError
           (what +:+ "Index " +:+ str (JInt idx) +:+ " out of range (0-" +:+
            str (JInt (Z.of_nat (length items) - 1)) +:+ ")") None).
Proof.
  intros Hi Hr. unfold item_at. rewrite Hi.
  destruct (Z.ltb_spec idx 0); cbn [orb]; [reflexivity |].
  destruct (Z.leb_spec (Z.of_nat (length items)) idx); [reflexivity | lia].
Qed.

Lemma resolve_body_ref_read_only ref : read_only (resolve_body_ref (W := W) ref).
Proof.
  unfold resolve_body_ref. destruct ref; try apply read_only_raise.
  apply read_only_if; [apply read_only_raise |].
  apply read_only_bind; [apply ActionsSpec.read_only_root_component |].
  intros root. apply read_only_if; [apply read_only_raise |].
  destruct (search_bodies _ _); [apply read_only_ret | apply read_only_raise].
Qed.

Lemma int_of_None (d : gmap string json) k :
  is_None (dict_get d k) = true -> int (dict_get d k) = IntTypeError.
Proof. intros Hn. destruct (dict_get d k); try discriminate. reflexivity. Qed.

(** The common part of [resolve_face_ref] and [resolve_edge_ref] on a
    dict. *)
Lemma indexed_ref_facts {A} (get : W -> BRepBody -> list A) what key msg
    (d : gmap string json) (w : W) :
  let m : M W A :=
    if is_None (dict_get d "component") || is_None (dict_get d "body")
       || is_None (dict_get d key)
    then raise (ValidationError msg None)
    else bind (resolve_body_ref (body_ref_of d))
           (fun body w => (item_at what (dict_get d key) (get w body), w)) in
  (m w).2 = w /\
  (forall x,
     (m w).1 = inr x <->
     exists b idx,
       is_None (dict_get d "component") = false /\
       is_None (dict_get d "body") = false /\
       (resolve_body_ref (body_ref_of d) w).1 = inr b /\
       int (dict_get d key) = IntOk idx /\ 0 <= idx /\
       get w b !! Z.to_nat idx = Some x) /\
  (forall b idx,
     is_None (dict_get d "component") = false ->
     is_None (dict_get d "body") = false ->
     (resolve_body_ref (body_ref_of d) w).1 = inr b ->
     int (dict_get d key) = IntOk idx ->
     idx < 0 \/ Z.of_nat (length (get w b)) <= idx ->
     exists e, (m w).1 = inl (ValidationError e None)).
Proof.
  intros m. subst m.
  pose proof (resolve_body_ref_read_only (body_ref_of d) w) as Hstate.
  destruct (is_None (dict_get d "component")) eqn:Hc;
    [| destruct (is_None (dict_get d "body")) eqn:Hbn;
       [| destruct (is_None (dict_get d key)) eqn:Hk]];
    cbn [orb]; unfold bind, raise.
  - split; [reflexivity |]. split.
    + intros x. split; [discriminate |]. intros (? & ? & ? & _). discriminate.
    + intros; discriminate.
  - split; [reflexivity |]. split.
    + intros x. split; [discriminate |]. intros (? & ? & _ & ? & _). discriminate.
    + intros; discriminate.
  - split; [reflexivity |]. split.
    + intros x. split; [discriminate |]. intros (? & ? & _ & _ & _ & Hi & _).
      rewrite (int_of_None _ _ Hk) in Hi. discriminate.
    + intros b idx _ _ _ Hi _. rewrite (int_of_None _ _ Hk) in Hi. discriminate.
  - destruct (resolve_body_ref (body_ref_of d) w) as [[eb | b] wb] eqn:Hb;
      cbn [fst snd] in *; subst wb.
    + split; [reflexivity |]. split.
      * intros x. split; [discriminate |]. intros (? & ? & _ & _ & ? & _). discriminate.
      * intros; discriminate.
    + split; [reflexivity |]. split.
      * intros x. rewrite item_at_inr. split.
        -- intros (idx & Hi & Hpos & Hl). exists b, idx. auto 10.
        -- intros (b' & idx & _ & _ & [= <-] & Hi & Hpos & Hl). eauto.
      * intros b' idx _ _ [= <-] Hi Hr.
        rewrite (item_at_out_of_range _ _ _ _ Hi Hr). eauto.
Qed.

Lemma resolve_face_ref_facts (ref : json) (w : W) :
  (resolve_face_ref faces ref w).2 = w /\
  (forall f,
     (resolve_face_ref faces ref w).1 = inr f <->
     exists d b idx,
       ref = JDict d /\
       is_None (dict_get d "component") = false /\
       is_None (dict_get d "body") = false /\
       (resolve_body_ref (body_ref_of d) w).1 = inr b /\
       int (dict_get d "faceIndex") = IntOk idx /\ 0 <= idx /\
       faces w b !! Z.to_nat idx = Some f) /\
  (forall d b idx,
     ref = JDict d ->
     is_None (dict_get d "component") = false ->
     is_None (dict_get d "body") = false ->
     (resolve_body_ref (body_ref_of d) w).1 = inr b ->
     int (dict_get d "faceIndex") = IntOk idx ->
     idx < 0 \/ Z.of_nat (length (faces w b)) <= idx ->
     exists m, (resolve_face_ref faces ref w).1 = inl (ValidationError m None)).
Proof.
  unfold resolve_face_ref.
  destruct ref as [| | | | | | d];
    try (repeat split; try discriminate;
         try (intros (? & ? & ? & ? & _); discriminate);
         intros; discriminate).
  destruct (indexed_ref_facts faces "face" "faceIndex"
              "faceRef requires component, body, and faceIndex" d w)
    as (Hs & Hok & Hrange).
  split; [exact Hs |]. split.
  - intros f. rewrite Hok. split.
    + intros (b & idx & Hx). exists d, b, idx. tauto.
    + intros (d' & b & idx & [= <-] & Hx). eauto.
  - intros d' b idx [= <-]. apply Hrange.
Qed.

Lemma resolve_edge_ref_facts (ref : json) (w : W) :
  (resolve_edge_ref edges ref w).2 = w /\
  (forall e,
     (resolve_edge_ref edges ref w).1 = inr e <->
     exists d b idx,
       ref = JDict d /\
       is_None (dict_get d "component") = false /\
       is_None (dict_get d "body") = false /\
       (resolve_body_ref (body_ref_of d) w).1 = inr b /\
       int (dict_get d "edgeIndex") = IntOk idx /\ 0 <= idx /\
       edges w b !! Z.to_nat idx = Some e) /\
  (forall d b idx,
     ref = JDict d ->
     is_None (dict_get d "component") = false ->
     is_None (dict_get d "body") = false ->
     (resolve_body_ref (body_ref_of d) w).1 = inr b ->
     int (dict_get d "edgeIndex") = IntOk idx ->
     idx < 0 \/ Z.of_nat (length (edges w b)) <= idx ->
     exists m, (resolve_edge_ref edges ref w).1 = inl (ValidationError m None)).
Proof.
  unfold resolve_edge_ref.
  destruct ref as [| | | | | | d];
    try (repeat split; try discriminate;
         try (intros (? & ? & ? & ? & _); discriminate);
         intros; discriminate).
  destruct (indexed_ref_facts edges "edge" "edgeIndex"
              "edgeRef requires component, body, and edgeIndex" d w)
    as (Hs & Hok & Hrange).
  split; [exact Hs |]. split.
  - intros e. rewrite Hok. split.
    + intros (b & idx & Hx). exists d, b, idx. tauto.
    + intros (d' & b & idx & [= <-] & Hx). eauto.
  - intros d' b idx [= <-]. apply Hrange.
Qed.

(** X9.  [resolve_face_ref] returns a face exactly when the reference is a
    dict with the three fields, its body resolves, and [int(faceIndex)]
    is an index of that body's face list, whose element it returns; an
    index that [int] accepts but that is negative or not below the count
    is a [ValidationError], so the list is never read out of range.  The
    host is only read.  [resolve_edge_ref] is the same on the edges. *)
Theorem resolve_face_edge_ref_spec (ref : json) (w : W) :
  ((resolve_face_ref faces ref w).2 = w /\
   (forall f,
      (resolve_face_ref faces ref w).1 = inr f <->
      exists d b idx,
        ref = JDict d /\
        is_None (dict_get d "component") = false /\
        is_None (dict_get d "body") = false /\
        (resolve_body_ref (body_ref_of d) w).1 = inr b /\
        int (dict_get d "faceIndex") = IntOk idx /\ 0 <= idx /\
        faces w b !! Z.to_nat idx = Some f) /\
   (forall d b idx,
      ref = JDict d ->
      is_None (dict_get d "component") = false ->
      is_None (dict_get d "body") = false ->
      (resolve_body_ref (body_ref_of d) w).1 = inr b ->
      int (dict_get d "faceIndex") = IntOk idx ->
      idx < 0 \/ Z.of_nat (length (faces w b)) <= idx ->
      exists m, (resolve_face_ref faces ref w).1 = inl (ValidationError m None))) /\
  ((resolve_edge_ref edges ref w).2 = w /\
   (forall e,
      (resolve_edge_ref edges ref w).1 = inr e <->
      exists d b idx,
        ref = JDict d /\
        is_None (dict_get d "component") = false /\
        is_None (dict_get d "body") = false /\
        (resolve_body_ref (body_ref_of d) w).1 = inr b /\
        int (dict_get d "edgeIndex") = IntOk idx /\ 0 <= idx /\
        edges w b !! Z.to_nat idx = Some e) /\
   (forall d b idx,
      ref = JDict d ->
      is_None (dict_get d "component") = false ->
      is_None (dict_get d "body") = false ->
      (resolve_body_ref (body_ref_of d) w).1 = inr b ->
      int (dict_get d "edgeIndex") = IntOk idx ->
      idx < 0 \/ Z.of_nat (length (edges w b)) <= idx ->
      exists m, (resolve_edge_ref edges ref w).1 = inl (ValidationError m None))).
Proof. split; [apply resolve_face_ref_facts | apply resolve_edge_ref_facts]. Qed.

End Resolve.

End ResolverSpec.

(** ** handlers/parameters.py: update_parameter *)

Module ParameterUpdateSpec.
Import Py Errors Handlers Fusion Services ParameterUpdate.
Import MonadFacts HandlersSpec ActionsSpec.

Section Update.
Context `{Runtime} {W : Type} `{Host W} `{ParameterHost W}.

Lemma read_only_when_not_None x (m : M W unit) :
  read_only m -> read_only (when_not_None x m).
Proof. intros Hm. unfold when_not_None. destruct (is_None x); [apply read_only_ret | exact Hm]. Qed.

Lemma update_parameter_validate_read_only args :
  read_only (update_parameter_validate (W := W) args).
Proof.
  unfold update_parameter_validate.
  repeat first
    [ apply read_only_ret | apply read_only_raise | apply read_only_lift
    | apply read_only_if | apply read_only_when_not_None
    | apply read_only_bind; [| intros ?] ].
Qed.

Lemma nve_when_not_None x (m : M W unit) :
  no_validation_error m -> no_validation_error (when_not_None x m).
Proof. intros Hm. unfold when_not_None. destruct (is_None x); [apply nve_ret | exact Hm]. Qed.

Lemma nve_try_except {A} (m : M W A) (h : exn -> M W A) :
  (forall e, no_validation_error (h e)) -> no_validation_error (try_except m h).
Proof.
  intros Hh w e w'. unfold try_except.
  destruct (m w) as [[e0 | a] w1]; [apply Hh | discriminate].
Qed.

Lemma find_parameter_None name params :
  find_parameter name params = None <->
  forall p, p ∈ params -> eq_str name (param_name p) = false.
Proof.
  induction params as [| p0 rest IH]; simpl.
  - split; [intros _ p Hp; inversion Hp | reflexivity].
  - destruct (eq_str name (param_name p0)) eqn:Hp0.
    + split; [discriminate |]. intros Hall.
      rewrite (Hall p0) in Hp0; [discriminate | left].
    + destruct (find_parameter name rest) as [i |]; simpl.
      * split; [discriminate |]. intros Hall.
        assert (Hn : Some i = None); [| discriminate Hn].
        apply IH. intros p Hp. apply Hall. right. exact Hp.
      * split; [| reflexivity]. intros _ p Hp.
        apply elem_of_cons in Hp as [-> | Hp]; [exact Hp0 |].
        apply IH; [reflexivity | exact Hp].
Qed.

(** What [execute] does once the parameter is found raises no
    [ValidationError]. *)
Lemma update_parameter_writes_nve args i :
  no_validation_error
    (bind (lift (getitem args "expression")) (fun expression =>
     bind (when_not_None expression
             (host_call (set_attribute i "expression" expression))) (fun _ =>
     bind (lift (getitem args "unit")) (fun unit_value =>
     bind (when_not_None unit_value
             (try_except (host_call (set_attribute i "unit" unit_value))
                (fun _ =>
                   try_except (unit_in_expression i expression unit_value)
                     (fun e => raise (FusionAPIError
                                        ("Failed to update parameter unit: " +:+ str_exn e)
                                        None))))) (fun _ =>
     bind (lift (getitem args "comment")) (fun comment =>
     bind (when_not_None comment
             (try_except (host_call (set_attribute i "comment" comment))
                (fun e => raise (FusionAPIError
                                   ("Failed to update parameter comment: " +:+ str_exn e)
                                   None)))) (fun _ =>
     bind (host_call (fun w => (get_attribute i "name" w, w))) (fun p_name =>
     bind (host_call (fun w => (get_attribute i "expression" w, w))) (fun p_expression =>
     bind (host_call (fun w => (get_attribute i "unit" w, w))) (fun p_unit =>
       fun w : W =>
         (inr (JDict match get_attribute i "comment" w with
                     | inr c =>
                         if bool_decide (c = "")
                         then {[ "name" := JStr p_name;
                                 "expression" := JStr p_expression;
                                 "unit" := JStr p_unit ]}
                         else <[ "comment" := JStr c ]>
                                {[ "name" := JStr p_name;
                                   "expression" := JStr p_expression;
                                   "unit" := JStr p_unit ]}
                     | inl _ => {[ "name" := JStr p_name;
                                   "expression" := JStr p_expression;
                                   "unit" := JStr p_unit ]}
                     end), w))))))))))).
Proof.
  repeat first
    [ apply nve_getitem | apply nve_host_call
    | apply nve_when_not_None
    | apply nve_try_except; intros ?
    | apply nve_raise; reflexivity
    | apply nve_bind; [| intros ?] ].
  intros w e w' Hr. discriminate Hr.
Qed.

(** A [ValidationError] of [execute] is the one of the missing parameter,
    raised before anything is written. *)
Lemma update_parameter_execute_validation args (w : W) e w' :
  update_parameter_execute args w = (inl e, w') ->
  is_ValidationError e = true ->
  w' = w /\
  exists d name, activeProduct w = Some d /\
                 getitem args "name" = inr name /\
                 find_parameter name (userParameters d) = None /\
                 e = ValidationError ("Parameter '" +:+ str name +:+ "' not found") None.
Proof.
  unfold update_parameter_execute, bind at 1. unfold design.
  destruct (activeProduct w) as [d |]; [| intros [= <- _]; discriminate].
  unfold bind at 1, lift at 1.
  destruct (getitem args "name") as [e0 | name] eqn:Hg.
  { intros [= <- _] He. apply getitem_error in Hg. congruence. }
  destruct (find_parameter name (userParameters d)) as [i |] eqn:Hf.
  - intros Hr He. apply update_parameter_writes_nve in Hr. congruence.
  - intros [= <- <-] _. split; [reflexivity |]. exists d, name. auto.
Qed.

Lemma handle_validation_unchanged (h : BaseHandler W) :
  (forall args, read_only (validate h args)) ->
  (forall v w e w', execute h v w = (inl e, w') -> is_ValidationError e = true -> w' = w) ->
  forall args w e w',
    handle h args w = (inl e, w') -> code e = Some "E_BAD_ARGS" -> w' = w.
Proof.
  intros Hro Hex args w e w' Hh Hc.
  apply handle_raises in Hh as (e0 & Hr & ->).
  destruct (translate_code e0) as [[_ Hv] | [Hc' _]]; [| congruence].
  destruct Hr as [Hval | (v & w1 & Hval & Hexec)].
  - specialize (Hro args w). rewrite Hval in Hro. exact Hro.
  - specialize (Hro args w). rewrite Hval in Hro. cbn in Hro. subst w1.
    exact (Hex _ _ _ _ Hexec Hv).
Qed.

(** X10.  [update_parameter] only writes to a parameter it has found: with
    a design open and no user parameter of the requested (stripped) name,
    it raises a [ValidationError] (code [E_BAD_ARGS]) and the host is as
    before; it does the same when none of [expression], [unit] and
    [comment] is given; and whenever it answers [E_BAD_ARGS], on any
    request, nothing has been written. *)
Theorem update_parameter_rejections (w : W) dsg (d : gmap string json) raw :
  activeProduct w = Some dsg ->
  d !! "name" = Some (JStr raw) ->
  ((forall p, p ∈ userParameters dsg -> param_name p <> strip raw) ->
   exists e, handle UpdateParameterHandler (JDict d) w = (inl e, w) /\
             is_ValidationError e = true /\ code e = Some "E_BAD_ARGS") /\
  (dict_get d "expression" = JNull -> dict_get d "unit" = JNull ->
   dict_get d "comment" = JNull ->
   exists e, handle UpdateParameterHandler (JDict d) w = (inl e, w) /\
             is_ValidationError e = true /\ code e = Some "E_BAD_ARGS") /\
  (forall args w0 e w',
     handle UpdateParameterHandler args w0 = (inl e, w') ->
     code e = Some "E_BAD_ARGS" -> w' = w0).
Proof.
  intros Ha Hname.
  assert (Hve : forall e, is_ValidationError e = true -> code e = Some "E_BAD_ARGS").
  { intros e He. destruct e; try discriminate. reflexivity. }
  assert (Hfail : forall e,
            validate UpdateParameterHandler (JDict d) w = (inl e, w) ->
            is_ValidationError e = true ->
            exists e, handle UpdateParameterHandler (JDict d) w = (inl e, w) /\
                      is_ValidationError e = true /\ code e = Some "E_BAD_ARGS").
  { intros e Hv He. exists e.
    rewrite (handle_translates UpdateParameterHandler (JDict d) w e w (or_introl Hv)).
    unfold translate. rewrite He. auto. }
  (* run [validate] on the dict *)
  assert (Hval :
    (exists e, validate UpdateParameterHandler (JDict d) w = (inl e, w) /\
               is_ValidationError e = true) \/
    (exists v, validate UpdateParameterHandler (JDict d) w = (inr (JDict v), w) /\
               v !! "name" = Some (JStr (strip raw)) /\
               ~ (dict_get d "expression" = JNull /\ dict_get d "unit" = JNull /\
                  dict_get d "comment" = JNull))).
  { cbn [validate UpdateParameterHandler].
    unfold update_parameter_validate, bind, lift.
    destruct (validate_required_fields_dict d ["name"]) as [Hvo _].
    destruct (validate_required_fields _ _) as [e | []]; [left; eauto |].
    rewrite (getitem_present _ _ _ Hname).
    destruct (validate_non_empty_string_str raw "name") as [Hvn Hstrip].
    destruct (validate_non_empty_string _ _) as [e | name]; [left; eauto |].
    rewrite (Hstrip name eq_refl). cbn [get_method].
    fold (dict_get d "expression") (dict_get d "unit") (dict_get d "comment").
    unfold dict_get_default.
    fold (dict_get d "expression") (dict_get d "unit") (dict_get d "comment").
    unfold when_not_None.
    destruct (dict_get d "unit") as [| | | | u | |] eqn:Hu; cbn [is_None isinstance_str negb];
      try (left; eexists; split; reflexivity).
    - cbn [ret].
      destruct (dict_get d "comment") as [| | | | c | |] eqn:Hc;
        cbn [is_None isinstance_str negb andb ret raise];
        try (left; eexists; split; reflexivity).
      + destruct (dict_get d "expression") eqn:He; cbn [is_None andb ret raise];
          try (right; eexists; split; [reflexivity |];
               split; [by simplify_map_eq | intros (? & _); discriminate]).
        left. eexists; split; reflexivity.
      + right. rewrite andb_false_r. cbn [ret]. eexists. split; [reflexivity |].
        split; [by simplify_map_eq | intros (_ & _ & ?); discriminate].
    - pose proof (validate_unit_validation_only (JStr u)) as Hvu.
      destruct (validate_unit (JStr u)) as [e | []]; [left; eauto |].
      destruct (dict_get d "comment") as [| | | | c | |] eqn:Hc;
        cbn [is_None isinstance_str negb andb ret raise];
        try (left; eexists; split; reflexivity);
        rewrite ?andb_false_r; cbn [ret];
        right; eexists; (split; [reflexivity |]);
        (split; [by simplify_map_eq | intros (_ & ? & _); discriminate]). }
  split; [| split].
  - intros Hnone. destruct Hval as [(e & Hv & He) | (v & Hv & Hn & _)]; [eauto |].
    set (e := ValidationError ("Parameter '" +:+ strip raw +:+ "' not found") None).
    assert (Hex : execute UpdateParameterHandler (JDict v) w = (inl e, w)).
    { cbn [execute UpdateParameterHandler].
      unfold update_parameter_execute, bind, lift.
      rewrite (design_active _ _ Ha), (getitem_present _ _ _ Hn).
      assert (Hf : find_parameter (JStr (strip raw)) (userParameters dsg) = None).
      { apply find_parameter_None. intros p Hp. cbn [eq_str].
        apply bool_decide_eq_false. intros Heq. apply (Hnone p Hp). congruence. }
      rewrite Hf. reflexivity. }
    exists e.
    rewrite (handle_translates UpdateParameterHandler (JDict d) w e w).
    + auto.
    + right. exists (JDict v), w. auto.
  - intros He Hu Hc. destruct Hval as [(e & Hv & Hve') | (v & _ & _ & Hsome)]; [eauto |].
    exfalso. apply Hsome. auto.
  - apply handle_validation_unchanged.
    + apply update_parameter_validate_read_only.
    + intros v w0 e w' Hex He.
      apply (update_parameter_execute_validation _ _ _ _ Hex He).
Qed.

End Update.

Lemma update_parameter_rejections_witness :
  let d : gmap string json :=
    {[ "name" := JStr "height"; "expression" := JStr "5 mm" ]} in
  activeProduct (Host := Reference.host) (Some Reference.design1)
    = Some Reference.design1 /\
  d !! "name" = Some (JStr "height") /\
  exists e,
    handle (UpdateParameterHandler (H := Reference.runtime) (H0 := Reference.host)
              (H1 := ReferenceHosts.parameter_host))
      (JDict d) (Some Reference.design1) = (inl e, Some Reference.design1) /\
    is_ValidationError e = true /\ code e = Some "E_BAD_ARGS".
Proof.
  intros d. split; [reflexivity |]. split; [reflexivity |].
  destruct (update_parameter_rejections (H := Reference.runtime) (H0 := Reference.host)
              (H1 := ReferenceHosts.parameter_host)
              (Some Reference.design1) Reference.design1 d "height")
    as (Hmissing & _ & _); [reflexivity | reflexivity |].
  apply Hmissing. intros p Hp.
  apply list_elem_of_In in Hp. simpl in Hp. destruct Hp as [<- | []]. discriminate.
Defined.

(** On the parameter that exists the expression is replaced, and the
    answer reads the parameter back. *)
Example update_parameter_expression :
  handle (UpdateParameterHandler (H := Reference.runtime) (H0 := Reference.host)
            (H1 := ReferenceHosts.parameter_host))
    (JDict {[ "name" := JStr "width"; "expression" := JStr "12 mm" ]})
    (Some Reference.design1)
  = (inr (JDict {[ "name" := JStr "width"; "expression" := JStr "12 mm";
                   "unit" := JStr "mm" ]}),
     Some {| userParameters :=
               [{| param_name := "width"; param_expression := "12 mm";
                   param_unit := "mm"; param_comment := "" |}];
             rootComponent := rootComponent Reference.design1 |}).
Proof. reflexivity. Qed.

End ParameterUpdateSpec.

(** ** FusionMCPBridge.py: what a request changes, and the request id *)

Module BridgeMoreSpec.
Import Py Errors Handlers Router Bridge MonadFacts HandlersSpec RouterSpec BridgeSpec.

Section Requests.
Context `{Runtime} {W : Type}.
Variable get_fusion_state : W -> json.
Variable _reload_and_rebuild_registry : M W (gmap string (BaseHandler W)).

Lemma execute_request_registry req (srv : Server W) :
  registry (execute_request req srv).2 = registry srv /\
  (world (execute_request req srv).2 = world srv \/
   exists r, req = JDict r /\ truthy (dict_get r "action") = true /\
             world (execute_request req srv).2
             = (handle_action (registry srv) (dict_get r "action")
                  (dict_get_default r "args" (JDict ∅)) (world srv)).2).
Proof.
  unfold execute_request. destruct req as [| | | | | | r]; try (split; [reflexivity | left; reflexivity]).
  destruct (truthy (dict_get r "action")) eqn:Ha; cbn [negb];
    [| split; [reflexivity | left; reflexivity]].
  destruct (handle_action _ _ _ _) as [[e | result] w'] eqn:Hh; cbn [fst snd registry world];
    (split; [reflexivity |]); right; exists r;
    (split; [reflexivity | split; [exact Ha | rewrite Hh; reflexivity]]).
Qed.

Lemma v1_execute_registry request (srv : Server W) :
  registry (v1_execute request srv).2 = registry srv /\
  (world (v1_execute request srv).2 = world srv \/
   exists action args,
     world (v1_execute request srv).2
     = (handle_action (registry srv) action args (world srv)).2).
Proof.
  unfold v1_execute.
  destruct (match content_length request with
            | Some s => int_of_str s | None => Some 0 end) as [n |];
    [| split; [reflexivity | left; reflexivity]].
  destruct (n <=? 0); [split; [reflexivity | left; reflexivity] |].
  destruct (decode_utf8 _) as [msg | text]; [split; [reflexivity | left; reflexivity] |].
  destruct (json_loads text) as [msg | req]; [split; [reflexivity | left; reflexivity] |].
  destruct (execute_request_registry req srv) as [Hr [Hw | (r & _ & _ & Hw)]];
    (split; [exact Hr |]); [left; exact Hw | right; eauto].
Qed.

(** X11.  What a request can change.  A GET changes nothing.  A POST
    replaces the registry only when it passes the authorization check, its
    path is [/dev/reload], reload is enabled and the rebuild succeeds, and
    then the registry is the rebuilt one; otherwise the registry is the
    one before.  The host state after a POST is the one before, or the
    one a rebuild left, or the one a single call of [handle_action] on the
    registry before left. *)
Theorem request_effects cfg request (srv : Server W) :
  (do_GET get_fusion_state cfg request srv).2 = srv /\
  let srv' := (do_POST _reload_and_rebuild_registry cfg request srv).2 in
  (registry srv' = registry srv \/
   (_check_auth cfg request = None /\
    urlparse_path (target request) = inr "/dev/reload" /\
    dev_reload_enabled cfg = true /\
    _reload_and_rebuild_registry (world srv) = (inr (registry srv'), world srv'))) /\
  (world srv' = world srv \/
   (urlparse_path (target request) = inr "/dev/reload" /\
    dev_reload_enabled cfg = true /\
    world srv' = (_reload_and_rebuild_registry (world srv)).2) \/
   (urlparse_path (target request) = inr "/v1/execute" /\
    exists action args,
      world srv' = (handle_action (registry srv) action args (world srv)).2)).
Proof.
  split.
  - unfold do_GET. destruct (_check_auth cfg request); [reflexivity |].
    unfold do_GET_authorized. destruct (urlparse_path _); [reflexivity |].
    destruct (bool_decide _); reflexivity.
  - unfold do_POST. destruct (_check_auth cfg request) as [r |] eqn:Hauth;
      [cbn; split; left; reflexivity |].
    unfold do_POST_authorized.
    destruct (urlparse_path (target request)) as [msg | path] eqn:Hp;
      [cbn; split; left; reflexivity |].
    destruct (bool_decide (path = "/dev/reload")) eqn:Hd.
    + apply bool_decide_eq_true in Hd as ->. unfold dev_reload.
      destruct (dev_reload_enabled cfg) eqn:He; cbn [negb];
        [| cbn; split; left; reflexivity].
      destruct (_reload_and_rebuild_registry (world srv)) as [[e | reg] w'] eqn:Hr;
        cbn [fst snd registry world].
      * split; [left; reflexivity | right; left; auto].
      * split; [right; auto | right; left; auto].
    + destruct (bool_decide (path = "/v1/execute")) eqn:Hx; cbn [negb];
        [| cbn; split; left; reflexivity].
      apply bool_decide_eq_true in Hx as ->.
      destruct (v1_execute_registry request srv) as [Hr [Hw | Hw]].
      * split; [left; exact Hr | left; exact Hw].
      * split; [left; exact Hr | right; right; auto].
Qed.

Lemma with_id_id request_id (d : gmap string json) :
  d !! "id" = None ->
  with_id request_id d !! "id"
  = if truthy request_id then Some request_id else None.
Proof.
  intros Hd. unfold with_id. destruct (truthy request_id); [| exact Hd].
  apply lookup_insert_eq.
Qed.

Lemma send_error_id status c m details request_id :
  exists d, payload (_send_error status c m details request_id) = JDict d /\
            d !! "id" = if truthy request_id then Some request_id else None.
Proof.
  unfold _send_error, _send_json_response. cbn [payload].
  eexists. split; [reflexivity |]. apply with_id_id.
  rewrite lookup_insert_ne by discriminate. apply lookup_singleton_ne. discriminate.
Qed.

(** X12.  Once the body has been parsed into an object, the answer carries
    the request's ["id"] exactly when that id is truthy, and carries it
    unchanged, whether the action succeeds, fails or is missing; an id
    that is absent, [null], [0], [false] or empty is not echoed. *)
Theorem request_id_echo (r : gmap string json) (srv : Server W) :
  exists d, payload (execute_request (JDict r) srv).1 = JDict d /\
            d !! "id" = if truthy (dict_get r "id") then Some (dict_get r "id")
                        else None.
Proof.
  unfold execute_request.
  destruct (negb (truthy (dict_get r "action"))); [apply send_error_id |].
  destruct (handle_action _ _ _ _) as [[e | result] w']; cbn [fst].
  - destruct (errors_current srv); [destruct e |]; apply send_error_id.
  - unfold _send_json_response. cbn [payload].
    eexists. split; [reflexivity |]. apply with_id_id.
    rewrite lookup_insert_ne by discriminate. apply lookup_singleton_ne. discriminate.
Qed.


End Requests.


(** A reload whose rebuild fails keeps the registry, and the classes of
    its errors are no longer the ones that [do_POST] imports. *)
Example failed_reload_keeps_registry :
  do_POST (H := Reference.runtime) ReferenceHosts.failing_reload Reference.config
    ReferenceHosts.post_reload Reference.server
  = (_send_error 200 "E_RUNTIME" "No module named 'core.router'" ∅ JNull,
     Reference.server_after_failed_reload).
Proof. reflexivity. Qed.

(** After a reload that failed the same request is answered [E_RUNTIME]:
    the error of the kept registry is no longer of the class that
    [do_POST] catches. *)
Example non_string_action_after_failed_reload :
  (execute_request (H := Reference.runtime) (JDict {[ "action" := JBool true ]})
     Reference.server_after_failed_reload).1
  = _send_error 200 "E_RUNTIME" "E_ACTION_UNSUPPORTED: Unknown action: True" ∅ JNull.
Proof. reflexivity. Qed.

End BridgeMoreSpec.

(** ** mcp-server/fusion_mcp_server.py against the bridge *)

Module MCPClientSpec.
Import Py Errors Handlers Router Bridge Services MCPClient.
Import MonadFacts HandlersSpec RouterSpec BridgeSpec.


(** What the client makes of an error response of the bridge. *)
Lemma handle_response_error status c m (details : gmap string json) request_id :
  handle_response (payload (_send_error status c m details request_id))
  = inl {| be_code := JStr c; be_message := JStr m; be_details := JDict details |}.
Proof.
  unfold _send_error, _send_json_response, handle_response. cbn [payload].
  unfold dict_get at 1. rewrite with_id_lookup by discriminate.
  rewrite lookup_insert_eq. cbn [default from_option id eq_str].
  rewrite (bool_decide_eq_true_2 ("error" = "error")) by reflexivity.
  rewrite with_id_lookup by discriminate.
  rewrite lookup_insert_ne by discriminate. rewrite lookup_singleton_eq.
  unfold mkBridgeError, dict_get_default, dict_get. f_equal.
  destruct (bool_decide (details = ∅)) eqn:Hd.
  - apply bool_decide_eq_true in Hd as ->.
    rewrite lookup_insert_eq.
    rewrite (lookup_insert_ne _ "code" "message") by discriminate.
    rewrite lookup_singleton_eq.
    rewrite (lookup_insert_ne _ "code" "details") by discriminate.
    rewrite lookup_singleton_ne by discriminate. reflexivity.
  - apply bool_decide_eq_false in Hd.
    rewrite (lookup_insert_ne _ "details" "code") by discriminate.
    rewrite lookup_insert_eq.
    rewrite (lookup_insert_ne _ "details" "message") by discriminate.
    rewrite (lookup_insert_ne _ "code" "message") by discriminate.
    rewrite lookup_singleton_eq.
    rewrite lookup_insert_eq. cbn [default from_option id truthy].
    rewrite bool_decide_eq_false_2 by exact Hd. reflexivity.
Qed.


Section Composition.
Context `{Runtime} {W : Type}.
Variable _reload_and_rebuild_registry : M W (gmap string (BaseHandler W)).




(** X15.  The client sets no [X-Bridge-Token] header, so a bridge on which
    a token is configured refuses every tool call: the request is
    answered [E_UNAUTHORIZED] before its body is read, the server is
    unchanged, and the tool reports the bridge error. *)
Theorem token_refuses_client cfg length text (srv : Server W) :
  BRIDGE_AUTH_TOKEN cfg <> JNull ->
  let answer := do_POST _reload_and_rebuild_registry cfg (post_request length text) srv in
  answer.2 = srv /\
  handle_response (payload answer.1)
  = inl {| be_code := JStr "E_UNAUTHORIZED";
           be_message := JStr "Invalid or missing X-Bridge-Token header";
           be_details := JDict ∅ |} /\
  tool_reply (handle_response (payload answer.1))
  = create_error_response
      "Bridge error (E_UNAUTHORIZED): Invalid or missing X-Bridge-Token header"
      "BRIDGE_ERROR".
Proof.
  intros Htok answer. subst answer. unfold do_POST, _check_auth.
  destruct (is_None (BRIDGE_AUTH_TOKEN cfg)) eqn:Hn.
  { apply is_None_true in Hn. contradiction. }
  cbn [post_request x_bridge_token token_differs fst snd].
  split; [reflexivity |].
  rewrite handle_response_error. split; reflexivity.
Qed.

End Composition.

(** *** Tool names *)

Lemma is_substring_prefix p s : String.prefix p s = true -> is_substring p s = true.
Proof. intros Hp. destruct s; unfold is_substring; rewrite Hp; reflexivity. Qed.

Lemma is_substring_tail p c s : is_substring p s = true -> is_substring p (String c s) = true.
Proof.
  intros Hs. change (is_substring p (String c s))
    with (String.prefix p (String c s) || is_substring p s).
  rewrite Hs. apply orb_true_r.
Qed.

Lemma is_substring_namespace p n :
  is_substring "__" (p +:+ String "_" (String "_" n)) = true.
Proof.
  induction p as [| c p IH].
  - apply is_substring_prefix, String.prefix_correct. cbn. destruct n; reflexivity.
  - apply is_substring_tail, IH.
Qed.

Lemma last_segment_step c c2 rest cur :
  last_segment (String c (String c2 rest)) cur
  = if Ascii.eqb c "_" && Ascii.eqb c2 "_" then last_segment rest ""
    else last_segment (String c2 rest) (cur +:+ String c "").
Proof. reflexivity. Qed.

Lemma last_segment_namespace k :
  forall p cur n,
    (String.length p <= k)%nat ->
    ends_with_underscore p = false ->
    last_segment (p +:+ String "_" (String "_" n)) cur = last_segment n "".
Proof.
  induction k as [| k IH]; intros p cur n Hlen Hend.
  - destruct p; [reflexivity | simpl in Hlen; lia].
  - destruct p as [| c p']; [reflexivity |].
    destruct p' as [| c2 p''].
    + cbn in Hend.
      change (String c "" +:+ String "_" (String "_" n))
        with (String c (String "_" (String "_" n))).
      rewrite last_segment_step, Hend. reflexivity.
    + change (String c (String c2 p'') +:+ String "_" (String "_" n))
        with (String c (String c2 (p'' +:+ String "_" (String "_" n)))).
      rewrite last_segment_step.
      destruct (Ascii.eqb c "_" && Ascii.eqb c2 "_") eqn:Hcc.
      * apply andb_true_iff in Hcc as [_ Hc2].
        apply IH; [simpl in Hlen |- *; lia |].
        destruct p'' as [| c3 p3]; [cbn in Hend; congruence | exact Hend].
      * apply (IH (String c2 p'')); [simpl in Hlen |- *; lia | exact Hend].
Qed.

(** X16.  [call_tool] finds every tool of [list_tools] under its own name
    and under any namespaced name [<prefix>__<tool>] whose prefix does
    not end with an underscore (such as [mcp__fusion360__<tool>]), and
    forwards it to the action of the tool's name; a missing name is the
    unknown tool. *)
Theorem call_tool_names (tool : string) :
  tool ∈ MCP.list_tools ->
  resolve_tool (Some tool) = Some tool /\
  (forall namespace, ends_with_underscore namespace = false ->
     resolve_tool (Some (namespace +:+ "__" +:+ tool)) = Some tool) /\
  resolve_tool None = None.
Proof.
  intros Htool.
  assert (Hall : forallb (fun t => String.eqb (last_segment t "") t
                                   && negb (is_substring "__" t)
                                   && bool_decide (MCP.dispatch t = Some t))
                   MCP.list_tools = true) by (vm_compute; reflexivity).
  rewrite forallb_forall in Hall.
  apply list_elem_of_In, Hall in Htool.
  apply andb_true_iff in Htool as [Ht Hd]. apply andb_true_iff in Ht as [Hl Hs].
  apply String.eqb_eq in Hl. apply negb_true_iff in Hs.
  apply bool_decide_eq_true in Hd.
  split; [| split].
  - unfold resolve_tool, normalize. cbn [default from_option id]. rewrite Hs. exact Hd.
  - intros ns Hns. unfold resolve_tool, normalize. cbn [default from_option id].
    change (ns +:+ "__" +:+ tool) with (ns +:+ String "_" (String "_" tool)).
    rewrite is_substring_namespace.
    rewrite (last_segment_namespace (String.length ns) ns "" tool (le_n _) Hns).
    rewrite Hl. exact Hd.
  - vm_compute. reflexivity.
Qed.


(** After a reload that failed, the validation error of the kept
    registry reaches the client as [E_RUNTIME]. *)
Example tool_call_after_failed_reload :
  handle_response
    (payload (execute_request (H := Reference.runtime)
                (JDict (request_data "create_sketch" (JDict ∅) (Some "r1")))
                ReferenceHosts.rejecting_server_after_failed_reload).1)
  = inl {| be_code := JStr "E_RUNTIME";
           be_message := JStr "E_BAD_ARGS: name must be a non-empty string";
           be_details := JDict ∅ |}.
Proof. reflexivity. Qed.

Lemma token_refuses_client_witness :
  BRIDGE_AUTH_TOKEN Reference.config_with_token <> JNull /\
  (do_POST (H := Reference.runtime) Reference.reload Reference.config_with_token
     (post_request "2" "{}") Reference.server).2 = Reference.server.
Proof.
  assert (Htok : BRIDGE_AUTH_TOKEN Reference.config_with_token <> JNull) by discriminate.
  split; [exact Htok |].
  apply (token_refuses_client (H := Reference.runtime) Reference.reload
           Reference.config_with_token "2" "{}" Reference.server Htok).
Defined.

Lemma call_tool_names_witness :
  "create_sketch" ∈ MCP.list_tools /\
  resolve_tool (Some "mcp__fusion360__create_sketch") = Some "create_sketch".
Proof.
  assert (Hin : "create_sketch" ∈ MCP.list_tools)
    by (apply list_elem_of_In; simpl; tauto).
  split; [exact Hin |].
  destruct (call_tool_names "create_sketch" Hin) as (_ & Hns & _).
  apply (Hns "mcp__fusion360"). reflexivity.
Defined.

(** A prefix that ends with an underscore leaves one in front of the
    name, and the tool is not found. *)
Example call_tool_extra_underscore :
  resolve_tool (Some "fusion___create_sketch") = None.
Proof. vm_compute. reflexivity. Qed.

End MCPClientSpec.

(** ** core/router.py: what [_initialize_handlers] binds *)

Module RegistrySpec.
Import Py Errors Handlers Router Registrations.

Section Bindings.
Context {W : Type}.
Variable instantiate : HandlerClass -> BaseHandler W.

Lemma fold_register_absent (regs : list (string * HandlerClass))
    (self : gmap string (BaseHandler W)) a :
  a ∉ regs.*1 ->
  fold_left (fun self r => register r.1 (instantiate r.2) self) regs self !! a
  = self !! a.
Proof.
  revert self. induction regs as [| [a0 c0] rest IH]; intros self Hn; [reflexivity |].
  cbn [fold_left]. rewrite IH.
  - unfold register. cbn [fst snd]. apply lookup_insert_ne.
    intros ->. apply Hn. left.
  - intros Hin. apply Hn. right. exact Hin.
Qed.

Lemma fold_register_bound (regs : list (string * HandlerClass))
    (self : gmap string (BaseHandler W)) a c :
  NoDup regs.*1 -> (a, c) ∈ regs ->
  fold_left (fun self r => register r.1 (instantiate r.2) self) regs self !! a
  = Some (instantiate c).
Proof.
  revert self. induction regs as [| [a0 c0] rest IH]; intros self Hnd Hin.
  - inversion Hin.
  - cbn [fmap list_fmap] in Hnd. apply NoDup_cons in Hnd as [Hfresh Hnd].
    cbn [fold_left]. apply elem_of_cons in Hin as [[= <- <-] | Hin].
    + rewrite fold_register_absent by exact Hfresh.
      unfold register. cbn [fst snd]. apply lookup_insert_eq.
    + apply IH; assumption.
Qed.

(** X17.  No two registrations share an action name, so registration
    order does not matter: after [_initialize_handlers] every action is
    bound to an instance of the class it was registered with, and
    [handle_action] on it runs that instance's [handle]. *)
Theorem registered_binding `{Runtime} (a : string) (c : HandlerClass) args (w : W) :
  (a, c) ∈ registrations ->
  _initialize_handlers instantiate !! a = Some (instantiate c) /\
  handle_action (_initialize_handlers instantiate) (JStr a) args w
  = handle (instantiate c) args w.
Proof.
  intros Hin.
  assert (Hnd : NoDup registrations.*1).
  { apply (bool_decide_unpack _). vm_compute. exact I. }
  assert (Hl : _initialize_handlers instantiate !! a = Some (instantiate c)).
  { unfold _initialize_handlers. apply fold_register_bound; assumption. }
  split; [exact Hl |].
  unfold handle_action, get_handler, Errors.bind. rewrite Hl. reflexivity.
Qed.

End Bindings.

Lemma registered_binding_witness :
  ("combine_bodies", CombineBodiesHandler) ∈ registrations /\
  _initialize_handlers ReferenceHosts.instantiate !! "combine_bodies"
  = Some (ReferenceHosts.instantiate CombineBodiesHandler).
Proof.
  assert (Hin : ("combine_bodies", CombineBodiesHandler) ∈ registrations)
    by (apply list_elem_of_In; simpl; tauto).
  split; [exact Hin |].
  apply (registered_binding ReferenceHosts.instantiate (H := Reference.runtime)
           "combine_bodies" CombineBodiesHandler JNull None Hin).
Defined.

End RegistrySpec.

(** ** handlers/features.py and handlers/sketches.py: argument checks *)

Module ArgumentChecksSpec.
Import Py Errors Handlers Services Validators ArgumentChecks.
Import ActionsSpec ValidatorsSpec.

Section Checks.
Context `{Runtime}.

Lemma required_present (d : gmap string json) required :
  (forall f, f ∈ required -> is_Some (d !! f)) ->
  validate_required_fields (JDict d) required = inr tt.
Proof.
  intros Hall. unfold validate_required_fields. rewrite missing_fields_filter.
  replace (List.filter _ required) with (@nil string); [reflexivity |].
  symmetry. apply filter_nil_iff. intros f Hf.
  apply negb_false_iff, bool_decide_eq_true. auto.
Qed.

Lemma required_failure (d : gmap string json) required e :
  validate_required_fields (JDict d) required = inl e ->
  exists f, f ∈ required /\ d !! f = None.
Proof.
  intros He.
  destruct (decide (Forall (fun f => is_Some (d !! f)) required)) as [Hall | Hn].
  - rewrite required_present in He; [discriminate |].
    intros f Hf. exact (proj1 (Forall_forall _ _) Hall f Hf).
  - apply not_Forall_Exists in Hn; [| intros f; apply _].
    apply Exists_exists in Hn as (f & Hf & Hnone).
    exists f. split; [exact Hf |].
    destruct (d !! f) eqn:Hd; [| reflexivity]. exfalso. apply Hnone. eauto.
Qed.

(** X18.  On a dict, [CombineBodiesHandler.validate] returns exactly when
    ["targets"] and ["tools"] are lists of one element each and the
    operation (["join"] when absent) is [join], [cut] or [intersect], and
    it returns these three values; every other dict is a
    [ValidationError].  So [execute] can take element 0 of both lists. *)
Theorem combine_bodies_validate_spec (d : gmap string json) :
  (forall v,
     combine_bodies_validate (JDict d) = inr v <->
     exists t u op,
       d !! "targets" = Some (JList [t]) /\
       d !! "tools" = Some (JList [u]) /\
       dict_get_default d "operation" (JStr "join") = JStr op /\
       op ∈ ["join"; "cut"; "intersect"] /\
       v = JDict {[ "targets" := JList [t]; "tools" := JList [u];
                    "operation" := JStr op ]}) /\
  validation_only (combine_bodies_validate (JDict d)).
Proof.
  unfold combine_bodies_validate.
  destruct (validate_required_fields_dict d ["targets"; "tools"]) as [Hvo Hp].
  destruct (validate_required_fields (JDict d) ["targets"; "tools"])
    as [e | []] eqn:Hreq.
  { split; [| exact Hvo]. intros v. split; [discriminate |].
    intros (t & u & op & Ht & Hu & _).
    apply required_failure in Hreq as (f & Hf & Hnone).
    apply list_elem_of_In in Hf. simpl in Hf.
    destruct Hf as [<- | [<- | []]]; congruence. }
  specialize (Hp eq_refl).
  destruct (Hp "targets") as [targets Ht]; [apply list_elem_of_In; simpl; tauto |].
  destruct (Hp "tools") as [tools Hu]; [apply list_elem_of_In; simpl; tauto |].
  rewrite (getitem_present _ _ _ Ht), (getitem_present _ _ _ Hu).
  cbn [get_method].
  destruct (in_list (dict_get_default d "operation" (JStr "join"))
              ["join"; "cut"; "intersect"]) eqn:Hop; cbn [negb].
  2: { split; [| reflexivity]. intros v. split; [discriminate |].
       intros (t & u & op & _ & _ & Ho & Hin & _).
       assert (in_list (dict_get_default d "operation" (JStr "join"))
                 ["join"; "cut"; "intersect"] = true)
         by (apply in_list_iff; eauto).
       congruence. }
  apply in_list_iff in Hop as (op & Ho & Hin).
  destruct targets as [| | | | | [| t [| t2 ts]] |];
    destruct tools as [| | | | | [| u [| u2 us]] |];
    try (cbn; split; [| reflexivity]; intros v; split; [discriminate |];
         intros (? & ? & ? & ? & ? & _); congruence).
  cbn. split; [| exact I]. intros v. split.
  - intros [= <-]. exists t, u, op. rewrite Ho. auto 10.
  - intros (t' & u' & op' & Ht' & Hu' & Ho' & _ & ->).
    rewrite Ht in Ht'. rewrite Hu in Hu'. rewrite Ho in Ho'.
    injection Ht' as <-. injection Hu' as <-. injection Ho' as <-.
    rewrite Ho. reflexivity.
Qed.

(** X19.  On a dict, [SetIsConstructionHandler.validate] raises nothing
    but a [ValidationError]: whatever [int] does with the index, an
    infinite float included, is reported as a validation error.  It
    returns exactly when the sketch name is a string that is not blank,
    ["entityRef"] is an object of type ["line"] whose index [int] converts
    to a number that is not negative, and ["value"] is a boolean. *)
Theorem set_is_construction_validate_spec (d : gmap string json) :
  (forall v,
     set_is_construction_validate (JDict d) = inr v <->
     exists s r b idx,
       d !! "sketch" = Some (JStr s) /\ strip s <> "" /\
       d !! "entityRef" = Some (JDict r) /\
       d !! "value" = Some (JBool b) /\
       dict_get r "type" = JStr "line" /\
       int (dict_get r "index") = IntOk idx /\ 0 <= idx /\
       v = JDict {[ "sketch" := JStr (strip s); "entityRef" := JDict r;
                    "value" := JBool b ]}) /\
  validation_only (set_is_construction_validate (JDict d)).
Proof.
  unfold set_is_construction_validate.
  destruct (validate_required_fields_dict d ["sketch"; "entityRef"; "value"])
    as [Hvo Hp].
  destruct (validate_required_fields (JDict d) _) as [e | []] eqn:Hreq.
  { split; [| exact Hvo]. intros v. split; [discriminate |].
    intros (? & ? & ? & ? & Hs & _ & Hr & Hb & _).
    apply required_failure in Hreq as (f & Hf & Hnone).
    apply list_elem_of_In in Hf. simpl in Hf.
    destruct Hf as [<- | [<- | [<- | []]]]; congruence. }
  specialize (Hp eq_refl).
  destruct (Hp "sketch") as [sk Hsk]; [apply list_elem_of_In; simpl; tauto |].
  destruct (Hp "entityRef") as [er Her]; [apply list_elem_of_In; simpl; tauto |].
  destruct (Hp "value") as [val Hval]; [apply list_elem_of_In; simpl; tauto |].
  rewrite (getitem_present _ _ _ Hsk), (getitem_present _ _ _ Her),
    (getitem_present _ _ _ Hval).
  unfold validate_non_empty_string.
  destruct sk as [| | | | s | |];
    try (split; [| reflexivity]; intros v; split; [discriminate |];
         intros (? & ? & ? & ? & ? & _); congruence).
  destruct (bool_decide (strip s = "")) eqn:Hblank.
  { apply bool_decide_eq_true in Hblank.
    split; [| reflexivity]. intros v. split; [discriminate |].
    intros (s' & ? & ? & ? & Hs' & Hne & _).
    rewrite Hsk in Hs'. injection Hs' as <-. contradiction. }
  apply bool_decide_eq_false in Hblank.
  destruct er as [| | | | | | r];
    try (split; [| reflexivity]; intros v; split; [discriminate |];
         intros (? & ? & ? & ? & _ & _ & ? & _); congruence).
  destruct val as [| b | | | | |];
    try (split; [| reflexivity]; intros v; split; [discriminate |];
         intros (? & ? & ? & ? & _ & _ & _ & ? & _); congruence).
  cbn [isinstance_bool negb].
  destruct (eq_str (dict_get r "type") "line") eqn:Hty; cbn [negb].
  2: { split; [| reflexivity]. intros v. split; [discriminate |].
       intros (? & r' & ? & ? & _ & _ & Hr' & _ & Hline & _).
       rewrite Her in Hr'. injection Hr' as <-.
       rewrite Hline in Hty. cbn in Hty.
       rewrite bool_decide_eq_true_2 in Hty by reflexivity. discriminate. }
  assert (Hline : dict_get r "type" = JStr "line").
  { destruct (dict_get r "type"); try discriminate.
    cbn in Hty. apply bool_decide_eq_true in Hty as ->. reflexivity. }
  destruct (int (dict_get r "index")) as [idx | | |] eqn:Hi;
    try (split; [| reflexivity]; intros v; split; [discriminate |];
         intros (? & r' & ? & ? & _ & _ & Hr' & _ & _ & Hi' & _);
         rewrite Her in Hr'; injection Hr' as <-; congruence).
  destruct (Z.ltb_spec idx 0).
  - split; [| reflexivity]. intros v. split; [discriminate |].
    intros (? & r' & ? & idx' & _ & _ & Hr' & _ & _ & Hi' & Hpos & _).
    rewrite Her in Hr'. injection Hr' as <-. rewrite Hi in Hi'.
    injection Hi' as <-. lia.
  - split; [| exact I]. intros v. split.
    + intros [= <-]. exists s, r, b, idx. repeat split; auto.
    + intros (s' & r' & b' & idx' & Hs' & _ & Hr' & Hb' & _ & _ & _ & ->).
      rewrite Hsk in Hs'. rewrite Her in Hr'. rewrite Hval in Hb'.
      injection Hs' as <-. injection Hr' as <-. injection Hb' as <-. reflexivity.
Qed.

End Checks.

End ArgumentChecksSpec.
